(** * NFC-B decoder core (nfc-decode, type/NfcB.cpp)

    A shallow embedding of [NfcB::Impl]: the CRC-16 check, the protocol
    classifier, the poll-frame framer with its symbol decoder, the
    start-of-frame detector, the configuration and the reset routine, with
    the properties the specification states about them.

    Integer data is carried in [Z] with every C conversion written out;
    [float] and [double] values are IEEE-754 binary32 and binary64 numbers
    built on [SpecFloat]. The structs have one module each, so that
    [FrameStatus.frameEnd fs] reads as [frameStatus.frameEnd]. State is
    passed explicitly: a function of the source that works on the decoder
    core and on the [DecoderStatus] it points to takes both and returns
    both.

    NfcB.h, the frame class and the enclosing decoder are not among the
    sources at hand. What the embedding needs of them is either a field of
    the class [Platform] or a definition marked as modelled from the
    specification. *)

From Stdlib Require Import ZArith List Bool Lia SpecFloat.
Import ListNotations.
Local Open Scope Z_scope.

(** ** Integer conversions *)

(** [(unsigned char) x] *)
Definition u8 (x : Z) : Z := Z.land x 0xff.

(** [(unsigned short) x] *)
Definition u16 (x : Z) : Z := Z.land x 0xffff.

Definition is_byte (b : Z) : Prop := 0 <= b < 256.

(** ** Enumerations of Nfc.h *)

Inductive TechType := TechNone | NfcA | NfcB | NfcF | NfcV.

Inductive RateType := r106k | r212k | r424k | r848k.

Definition RateType_eqb (a b : RateType) : bool :=
  match a, b with
  | r106k, r106k | r212k, r212k | r424k, r424k | r848k, r848k => true
  | _, _ => false
  end.

(** [enum FrameType]; the fields that hold one are plain integers in the
    source ([frameStatus.frameType = 0]), so the numeric values are kept. *)
Definition CarrierOff : Z := 0.
Definition CarrierOn : Z := 1.
Definition PollFrame : Z := 2.
Definition ListenFrame : Z := 3.

(** [enum FrameFlags] *)
Definition ShortFrame : Z := 0x01.
Definition Encrypted : Z := 0x02.
Definition Truncated : Z := 0x08.
Definition ParityError : Z := 0x10.
Definition CrcError : Z := 0x20.
Definition SyncError : Z := 0x40.

(** [enum FramePhase] *)
Definition CarrierFrame : Z := 0.
Definition SelectionFrame : Z := 1.
Definition ApplicationFrame : Z := 2.

(** [enum PatternType] of NfcB.cpp *)
Inductive PatternType := Invalid | NoPattern | PatternL | PatternH.

Definition PatternType_code (p : PatternType) : Z :=
  match p with Invalid => 0 | NoPattern => 1 | PatternL => 2 | PatternH => 3 end.

Definition PatternType_eqb (a b : PatternType) : bool :=
  PatternType_code a =? PatternType_code b.

(** [#define SOF_BEGIN 0], [SOF_IDLE 1], [SOF_END 2] *)
Definition SOF_BEGIN : Z := 0.
Definition SOF_IDLE : Z := 1.
Definition SOF_END : Z := 2.


(** ** Floating point

    [float] is IEEE-754 binary32 and [double] binary64, both carried by
    [spec_float] and operated on with the correctly rounded operations of
    [SpecFloat] at precision 24 (resp. 53). *)

Definition float := spec_float.
Definition double := spec_float.

Definition fzero : float := S754_zero false.
Definition fnan : float := S754_nan.

Definition fadd : float -> float -> float := SFadd 24 128.
Definition fsub : float -> float -> float := SFsub 24 128.
Definition fmul : float -> float -> float := SFmul 24 128.
Definition fdiv : float -> float -> float := SFdiv 24 128.
Definition fabs : float -> float := SFabs.

Definition dsub : double -> double -> double := SFsub 53 1024.
Definition ddiv : double -> double -> double := SFdiv 53 1024.

(** Conversion of an integer to [float] and to [double]. *)
Definition float_of_Z (n : Z) : float := binary_normalize 24 128 n 0 false.
Definition double_of_Z (n : Z) : double := binary_normalize 53 1024 n 0 false.

(** The signed mantissa of a finite number. *)
Definition signed_mantissa (s : bool) (m : positive) : Z := cond_Zopp s (Zpos m).

(** Promotion [float -> double] (exact) and conversion [float(x)] of a
    double (rounded to nearest even). *)
Definition double_of_float (x : float) : double :=
  match x with
  | S754_finite s m e => binary_normalize 53 1024 (signed_mantissa s m) e s
  | _ => x
  end.

Definition float_of_double (x : double) : float :=
  match x with
  | S754_finite s m e => binary_normalize 24 128 (signed_mantissa s m) e s
  | _ => x
  end.

(** [x > y] and [x < y]; false as soon as one side is a NaN. *)
Definition fgt (x y : spec_float) : bool := SFltb y x.
Definition flt (x y : spec_float) : bool := SFltb x y.

(** [int(x)]: the integer part, rounding toward zero. The conversion of a
    NaN, of an infinity or of a value outside the integer type is undefined
    in C++; the embedding gives 0 for the first two and the mathematical
    integer for the third. *)
Definition Z_of_float (x : spec_float) : Z :=
  match x with
  | S754_finite s m e =>
      cond_Zopp s (if 0 <=? e then Zpos m * 2 ^ e else Zpos m / 2 ^ (- e))
  | _ => 0
  end.

(** [round(x)] of <cmath>: nearest integer, halfway cases away from zero. *)
Definition fround (x : float) : float :=
  match x with
  | S754_finite s m e =>
      if 0 <=? e then x
      else binary_normalize 24 128
             (cond_Zopp s ((2 * Zpos m + 2 ^ (- e)) / 2 ^ (- e + 1))) 0 s
  | _ => x
  end.

(** [x * n] for a float [x] and an [int] [n]: the integer is converted. *)
Definition fmulZ (x : float) (n : Z) : float := fmul x (float_of_Z n).

Arguments fadd : simpl never.
Arguments fsub : simpl never.
Arguments fmul : simpl never.
Arguments fdiv : simpl never.
Arguments fabs : simpl never.
Arguments dsub : simpl never.
Arguments ddiv : simpl never.
Arguments float_of_Z : simpl never.
Arguments double_of_Z : simpl never.
Arguments double_of_float : simpl never.
Arguments float_of_double : simpl never.
Arguments fgt : simpl never.
Arguments flt : simpl never.
Arguments Z_of_float : simpl never.
Arguments fround : simpl never.
Arguments fmulZ : simpl never.

(** The literals of the source. *)
Definition d_0_001 : double := ddiv (double_of_Z 1) (double_of_Z 1000).
Definition d_5_0 : double := double_of_Z 5.
Definition d_1E3 : double := double_of_Z 1000.
Definition d_1E5 : double := double_of_Z 100000.
Definition f_0_10 : float := fdiv (float_of_Z 1) (float_of_Z 10).
Definition f_0_50 : float := fdiv (float_of_Z 1) (float_of_Z 2).

(** ** Field update

    [r <| f := v |>] is the record [r] with field [f] set to [v], as the
    assignment [r.f = v] of the source. *)
Class Setter {R T : Type} (proj : R -> T) := set : T -> R -> R.
Arguments set {R T} proj {Setter} _ _ /.

Notation "r <| f := v |>" := (set f v r)
  (at level 1, left associativity, format "r  <| f  :=  v |>").

(** [struct BitrateParams]: per-rate timing table, filled by [configure]. *)
Module BitrateParams.
Record t := mk {
  techType : Z;
  rateType : Z;
  symbolsPerSecond : Z;
  period1SymbolSamples : Z;
  period2SymbolSamples : Z;
  period4SymbolSamples : Z;
  period8SymbolSamples : Z;
  symbolDelayDetect : Z;
  offsetSignalIndex : Z;
  offsetSymbolIndex : Z;
  offsetFilterIndex : Z;
  offsetDetectIndex : Z;
  symbolAverageW0 : float;
  symbolAverageW1 : float
}.
Definition zero : t :=
  mk 0 0 0 0 0 0 0 0 0 0 0 0 fzero fzero.
#[global] Instance set_techType : Setter techType :=
  fun v r => mk v (rateType r) (symbolsPerSecond r) (period1SymbolSamples r) (period2SymbolSamples r) (period4SymbolSamples r) (period8SymbolSamples r) (symbolDelayDetect r) (offsetSignalIndex r) (offsetSymbolIndex r) (offsetFilterIndex r) (offsetDetectIndex r) (symbolAverageW0 r) (symbolAverageW1 r).
#[global] Instance set_rateType : Setter rateType :=
  fun v r => mk (techType r) v (symbolsPerSecond r) (period1SymbolSamples r) (period2SymbolSamples r) (period4SymbolSamples r) (period8SymbolSamples r) (symbolDelayDetect r) (offsetSignalIndex r) (offsetSymbolIndex r) (offsetFilterIndex r) (offsetDetectIndex r) (symbolAverageW0 r) (symbolAverageW1 r).
#[global] Instance set_symbolsPerSecond : Setter symbolsPerSecond :=
  fun v r => mk (techType r) (rateType r) v (period1SymbolSamples r) (period2SymbolSamples r) (period4SymbolSamples r) (period8SymbolSamples r) (symbolDelayDetect r) (offsetSignalIndex r) (offsetSymbolIndex r) (offsetFilterIndex r) (offsetDetectIndex r) (symbolAverageW0 r) (symbolAverageW1 r).
#[global] Instance set_period1SymbolSamples : Setter period1SymbolSamples :=
  fun v r => mk (techType r) (rateType r) (symbolsPerSecond r) v (period2SymbolSamples r) (period4SymbolSamples r) (period8SymbolSamples r) (symbolDelayDetect r) (offsetSignalIndex r) (offsetSymbolIndex r) (offsetFilterIndex r) (offsetDetectIndex r) (symbolAverageW0 r) (symbolAverageW1 r).
#[global] Instance set_period2SymbolSamples : Setter period2SymbolSamples :=
  fun v r => mk (techType r) (rateType r) (symbolsPerSecond r) (period1SymbolSamples r) v (period4SymbolSamples r) (period8SymbolSamples r) (symbolDelayDetect r) (offsetSignalIndex r) (offsetSymbolIndex r) (offsetFilterIndex r) (offsetDetectIndex r) (symbolAverageW0 r) (symbolAverageW1 r).
#[global] Instance set_period4SymbolSamples : Setter period4SymbolSamples :=
  fun v r => mk (techType r) (rateType r) (symbolsPerSecond r) (period1SymbolSamples r) (period2SymbolSamples r) v (period8SymbolSamples r) (symbolDelayDetect r) (offsetSignalIndex r) (offsetSymbolIndex r) (offsetFilterIndex r) (offsetDetectIndex r) (symbolAverageW0 r) (symbolAverageW1 r).
#[global] Instance set_period8SymbolSamples : Setter period8SymbolSamples :=
  fun v r => mk (techType r) (rateType r) (symbolsPerSecond r) (period1SymbolSamples r) (period2SymbolSamples r) (period4SymbolSamples r) v (symbolDelayDetect r) (offsetSignalIndex r) (offsetSymbolIndex r) (offsetFilterIndex r) (offsetDetectIndex r) (symbolAverageW0 r) (symbolAverageW1 r).
#[global] Instance set_symbolDelayDetect : Setter symbolDelayDetect :=
  fun v r => mk (techType r) (rateType r) (symbolsPerSecond r) (period1SymbolSamples r) (period2SymbolSamples r) (period4SymbolSamples r) (period8SymbolSamples r) v (offsetSignalIndex r) (offsetSymbolIndex r) (offsetFilterIndex r) (offsetDetectIndex r) (symbolAverageW0 r) (symbolAverageW1 r).
#[global] Instance set_offsetSignalIndex : Setter offsetSignalIndex :=
  fun v r => mk (techType r) (rateType r) (symbolsPerSecond r) (period1SymbolSamples r) (period2SymbolSamples r) (period4SymbolSamples r) (period8SymbolSamples r) (symbolDelayDetect r) v (offsetSymbolIndex r) (offsetFilterIndex r) (offsetDetectIndex r) (symbolAverageW0 r) (symbolAverageW1 r).
#[global] Instance set_offsetSymbolIndex : Setter offsetSymbolIndex :=
  fun v r => mk (techType r) (rateType r) (symbolsPerSecond r) (period1SymbolSamples r) (period2SymbolSamples r) (period4SymbolSamples r) (period8SymbolSamples r) (symbolDelayDetect r) (offsetSignalIndex r) v (offsetFilterIndex r) (offsetDetectIndex r) (symbolAverageW0 r) (symbolAverageW1 r).
#[global] Instance set_offsetFilterIndex : Setter offsetFilterIndex :=
  fun v r => mk (techType r) (rateType r) (symbolsPerSecond r) (period1SymbolSamples r) (period2SymbolSamples r) (period4SymbolSamples r) (period8SymbolSamples r) (symbolDelayDetect r) (offsetSignalIndex r) (offsetSymbolIndex r) v (offsetDetectIndex r) (symbolAverageW0 r) (symbolAverageW1 r).
#[global] Instance set_offsetDetectIndex : Setter offsetDetectIndex :=
  fun v r => mk (techType r) (rateType r) (symbolsPerSecond r) (period1SymbolSamples r) (period2SymbolSamples r) (period4SymbolSamples r) (period8SymbolSamples r) (symbolDelayDetect r) (offsetSignalIndex r) (offsetSymbolIndex r) (offsetFilterIndex r) v (symbolAverageW0 r) (symbolAverageW1 r).
#[global] Instance set_symbolAverageW0 : Setter symbolAverageW0 :=
  fun v r => mk (techType r) (rateType r) (symbolsPerSecond r) (period1SymbolSamples r) (period2SymbolSamples r) (period4SymbolSamples r) (period8SymbolSamples r) (symbolDelayDetect r) (offsetSignalIndex r) (offsetSymbolIndex r) (offsetFilterIndex r) (offsetDetectIndex r) v (symbolAverageW1 r).
#[global] Instance set_symbolAverageW1 : Setter symbolAverageW1 :=
  fun v r => mk (techType r) (rateType r) (symbolsPerSecond r) (period1SymbolSamples r) (period2SymbolSamples r) (period4SymbolSamples r) (period8SymbolSamples r) (symbolDelayDetect r) (offsetSignalIndex r) (offsetSymbolIndex r) (offsetFilterIndex r) (offsetDetectIndex r) (symbolAverageW0 r) v.
End BitrateParams.

(** [struct ModulationStatus]: per-rate demodulator state. *)
Module ModulationStatus.
Record t := mk {
  searchStage : Z;
  searchStartTime : Z;
  searchEndTime : Z;
  searchPeakTime : Z;
  searchPulseWidth : Z;
  searchDeepValue : float;
  symbolStartTime : Z;
  symbolEndTime : Z;
  symbolSyncTime : Z;
  symbolAverage : float;
  symbolPhase : float;
  filterIntegrate : float;
  detectIntegrate : float;
  phaseIntegrate : float;
  detectorPeek : float;
  correlationPeek : float;
  signalIndex : Z;
  filterIndex : Z;
  detectIndex : Z
}.
Definition zero : t :=
  mk 0 0 0 0 0 fzero 0 0 0 fzero fzero fzero fzero fzero fzero fzero 0 0 0.
#[global] Instance set_searchStage : Setter searchStage :=
  fun v r => mk v (searchStartTime r) (searchEndTime r) (searchPeakTime r) (searchPulseWidth r) (searchDeepValue r) (symbolStartTime r) (symbolEndTime r) (symbolSyncTime r) (symbolAverage r) (symbolPhase r) (filterIntegrate r) (detectIntegrate r) (phaseIntegrate r) (detectorPeek r) (correlationPeek r) (signalIndex r) (filterIndex r) (detectIndex r).
#[global] Instance set_searchStartTime : Setter searchStartTime :=
  fun v r => mk (searchStage r) v (searchEndTime r) (searchPeakTime r) (searchPulseWidth r) (searchDeepValue r) (symbolStartTime r) (symbolEndTime r) (symbolSyncTime r) (symbolAverage r) (symbolPhase r) (filterIntegrate r) (detectIntegrate r) (phaseIntegrate r) (detectorPeek r) (correlationPeek r) (signalIndex r) (filterIndex r) (detectIndex r).
#[global] Instance set_searchEndTime : Setter searchEndTime :=
  fun v r => mk (searchStage r) (searchStartTime r) v (searchPeakTime r) (searchPulseWidth r) (searchDeepValue r) (symbolStartTime r) (symbolEndTime r) (symbolSyncTime r) (symbolAverage r) (symbolPhase r) (filterIntegrate r) (detectIntegrate r) (phaseIntegrate r) (detectorPeek r) (correlationPeek r) (signalIndex r) (filterIndex r) (detectIndex r).
#[global] Instance set_searchPeakTime : Setter searchPeakTime :=
  fun v r => mk (searchStage r) (searchStartTime r) (searchEndTime r) v (searchPulseWidth r) (searchDeepValue r) (symbolStartTime r) (symbolEndTime r) (symbolSyncTime r) (symbolAverage r) (symbolPhase r) (filterIntegrate r) (detectIntegrate r) (phaseIntegrate r) (detectorPeek r) (correlationPeek r) (signalIndex r) (filterIndex r) (detectIndex r).
#[global] Instance set_searchPulseWidth : Setter searchPulseWidth :=
  fun v r => mk (searchStage r) (searchStartTime r) (searchEndTime r) (searchPeakTime r) v (searchDeepValue r) (symbolStartTime r) (symbolEndTime r) (symbolSyncTime r) (symbolAverage r) (symbolPhase r) (filterIntegrate r) (detectIntegrate r) (phaseIntegrate r) (detectorPeek r) (correlationPeek r) (signalIndex r) (filterIndex r) (detectIndex r).
#[global] Instance set_searchDeepValue : Setter searchDeepValue :=
  fun v r => mk (searchStage r) (searchStartTime r) (searchEndTime r) (searchPeakTime r) (searchPulseWidth r) v (symbolStartTime r) (symbolEndTime r) (symbolSyncTime r) (symbolAverage r) (symbolPhase r) (filterIntegrate r) (detectIntegrate r) (phaseIntegrate r) (detectorPeek r) (correlationPeek r) (signalIndex r) (filterIndex r) (detectIndex r).
#[global] Instance set_symbolStartTime : Setter symbolStartTime :=
  fun v r => mk (searchStage r) (searchStartTime r) (searchEndTime r) (searchPeakTime r) (searchPulseWidth r) (searchDeepValue r) v (symbolEndTime r) (symbolSyncTime r) (symbolAverage r) (symbolPhase r) (filterIntegrate r) (detectIntegrate r) (phaseIntegrate r) (detectorPeek r) (correlationPeek r) (signalIndex r) (filterIndex r) (detectIndex r).
#[global] Instance set_symbolEndTime : Setter symbolEndTime :=
  fun v r => mk (searchStage r) (searchStartTime r) (searchEndTime r) (searchPeakTime r) (searchPulseWidth r) (searchDeepValue r) (symbolStartTime r) v (symbolSyncTime r) (symbolAverage r) (symbolPhase r) (filterIntegrate r) (detectIntegrate r) (phaseIntegrate r) (detectorPeek r) (correlationPeek r) (signalIndex r) (filterIndex r) (detectIndex r).
#[global] Instance set_symbolSyncTime : Setter symbolSyncTime :=
  fun v r => mk (searchStage r) (searchStartTime r) (searchEndTime r) (searchPeakTime r) (searchPulseWidth r) (searchDeepValue r) (symbolStartTime r) (symbolEndTime r) v (symbolAverage r) (symbolPhase r) (filterIntegrate r) (detectIntegrate r) (phaseIntegrate r) (detectorPeek r) (correlationPeek r) (signalIndex r) (filterIndex r) (detectIndex r).
#[global] Instance set_symbolAverage : Setter symbolAverage :=
  fun v r => mk (searchStage r) (searchStartTime r) (searchEndTime r) (searchPeakTime r) (searchPulseWidth r) (searchDeepValue r) (symbolStartTime r) (symbolEndTime r) (symbolSyncTime r) v (symbolPhase r) (filterIntegrate r) (detectIntegrate r) (phaseIntegrate r) (detectorPeek r) (correlationPeek r) (signalIndex r) (filterIndex r) (detectIndex r).
#[global] Instance set_symbolPhase : Setter symbolPhase :=
  fun v r => mk (searchStage r) (searchStartTime r) (searchEndTime r) (searchPeakTime r) (searchPulseWidth r) (searchDeepValue r) (symbolStartTime r) (symbolEndTime r) (symbolSyncTime r) (symbolAverage r) v (filterIntegrate r) (detectIntegrate r) (phaseIntegrate r) (detectorPeek r) (correlationPeek r) (signalIndex r) (filterIndex r) (detectIndex r).
#[global] Instance set_filterIntegrate : Setter filterIntegrate :=
  fun v r => mk (searchStage r) (searchStartTime r) (searchEndTime r) (searchPeakTime r) (searchPulseWidth r) (searchDeepValue r) (symbolStartTime r) (symbolEndTime r) (symbolSyncTime r) (symbolAverage r) (symbolPhase r) v (detectIntegrate r) (phaseIntegrate r) (detectorPeek r) (correlationPeek r) (signalIndex r) (filterIndex r) (detectIndex r).
#[global] Instance set_detectIntegrate : Setter detectIntegrate :=
  fun v r => mk (searchStage r) (searchStartTime r) (searchEndTime r) (searchPeakTime r) (searchPulseWidth r) (searchDeepValue r) (symbolStartTime r) (symbolEndTime r) (symbolSyncTime r) (symbolAverage r) (symbolPhase r) (filterIntegrate r) v (phaseIntegrate r) (detectorPeek r) (correlationPeek r) (signalIndex r) (filterIndex r) (detectIndex r).
#[global] Instance set_phaseIntegrate : Setter phaseIntegrate :=
  fun v r => mk (searchStage r) (searchStartTime r) (searchEndTime r) (searchPeakTime r) (searchPulseWidth r) (searchDeepValue r) (symbolStartTime r) (symbolEndTime r) (symbolSyncTime r) (symbolAverage r) (symbolPhase r) (filterIntegrate r) (detectIntegrate r) v (detectorPeek r) (correlationPeek r) (signalIndex r) (filterIndex r) (detectIndex r).
#[global] Instance set_detectorPeek : Setter detectorPeek :=
  fun v r => mk (searchStage r) (searchStartTime r) (searchEndTime r) (searchPeakTime r) (searchPulseWidth r) (searchDeepValue r) (symbolStartTime r) (symbolEndTime r) (symbolSyncTime r) (symbolAverage r) (symbolPhase r) (filterIntegrate r) (detectIntegrate r) (phaseIntegrate r) v (correlationPeek r) (signalIndex r) (filterIndex r) (detectIndex r).
#[global] Instance set_correlationPeek : Setter correlationPeek :=
  fun v r => mk (searchStage r) (searchStartTime r) (searchEndTime r) (searchPeakTime r) (searchPulseWidth r) (searchDeepValue r) (symbolStartTime r) (symbolEndTime r) (symbolSyncTime r) (symbolAverage r) (symbolPhase r) (filterIntegrate r) (detectIntegrate r) (phaseIntegrate r) (detectorPeek r) v (signalIndex r) (filterIndex r) (detectIndex r).
#[global] Instance set_signalIndex : Setter signalIndex :=
  fun v r => mk (searchStage r) (searchStartTime r) (searchEndTime r) (searchPeakTime r) (searchPulseWidth r) (searchDeepValue r) (symbolStartTime r) (symbolEndTime r) (symbolSyncTime r) (symbolAverage r) (symbolPhase r) (filterIntegrate r) (detectIntegrate r) (phaseIntegrate r) (detectorPeek r) (correlationPeek r) v (filterIndex r) (detectIndex r).
#[global] Instance set_filterIndex : Setter filterIndex :=
  fun v r => mk (searchStage r) (searchStartTime r) (searchEndTime r) (searchPeakTime r) (searchPulseWidth r) (searchDeepValue r) (symbolStartTime r) (symbolEndTime r) (symbolSyncTime r) (symbolAverage r) (symbolPhase r) (filterIntegrate r) (detectIntegrate r) (phaseIntegrate r) (detectorPeek r) (correlationPeek r) (signalIndex r) v (detectIndex r).
#[global] Instance set_detectIndex : Setter detectIndex :=
  fun v r => mk (searchStage r) (searchStartTime r) (searchEndTime r) (searchPeakTime r) (searchPulseWidth r) (searchDeepValue r) (symbolStartTime r) (symbolEndTime r) (symbolSyncTime r) (symbolAverage r) (symbolPhase r) (filterIntegrate r) (detectIntegrate r) (phaseIntegrate r) (detectorPeek r) (correlationPeek r) (signalIndex r) (filterIndex r) v.
End ModulationStatus.

(** [struct SymbolStatus]: last decoded symbol; the field [end] of the source is [end_] here. *)
Module SymbolStatus.
Record t := mk {
  pattern : PatternType;
  value : Z;
  start : Z;
  end_ : Z;
  length : Z
}.
Definition zero : t :=
  mk Invalid 0 0 0 0.
#[global] Instance set_pattern : Setter pattern :=
  fun v r => mk v (value r) (start r) (end_ r) (length r).
#[global] Instance set_value : Setter value :=
  fun v r => mk (pattern r) v (start r) (end_ r) (length r).
#[global] Instance set_start : Setter start :=
  fun v r => mk (pattern r) (value r) v (end_ r) (length r).
#[global] Instance set_end_ : Setter end_ :=
  fun v r => mk (pattern r) (value r) (start r) v (length r).
#[global] Instance set_length : Setter length :=
  fun v r => mk (pattern r) (value r) (start r) (end_ r) v.
End SymbolStatus.

(** [struct StreamStatus]: bit and byte accumulator of the framer. *)
Module StreamStatus.
Record t := mk {
  bits : Z;
  data : Z;
  bytes : Z;
  buffer : Z -> Z
}.
Definition zero : t :=
  mk 0 0 0 (fun _ => 0).
#[global] Instance set_bits : Setter bits :=
  fun v r => mk v (data r) (bytes r) (buffer r).
#[global] Instance set_data : Setter data :=
  fun v r => mk (bits r) v (bytes r) (buffer r).
#[global] Instance set_bytes : Setter bytes :=
  fun v r => mk (bits r) (data r) v (buffer r).
#[global] Instance set_buffer : Setter buffer :=
  fun v r => mk (bits r) (data r) (bytes r) v.
End StreamStatus.

(** [struct FrameStatus]: frame under reception and response timing. *)
Module FrameStatus.
Record t := mk {
  lastCommand : Z;
  frameType : Z;
  symbolRate : Z;
  frameStart : Z;
  frameEnd : Z;
  guardEnd : Z;
  waitingEnd : Z;
  frameGuardTime : Z;
  frameWaitingTime : Z;
  startUpGuardTime : Z;
  requestGuardTime : Z
}.
Definition zero : t :=
  mk 0 0 0 0 0 0 0 0 0 0 0.
#[global] Instance set_lastCommand : Setter lastCommand :=
  fun v r => mk v (frameType r) (symbolRate r) (frameStart r) (frameEnd r) (guardEnd r) (waitingEnd r) (frameGuardTime r) (frameWaitingTime r) (startUpGuardTime r) (requestGuardTime r).
#[global] Instance set_frameType : Setter frameType :=
  fun v r => mk (lastCommand r) v (symbolRate r) (frameStart r) (frameEnd r) (guardEnd r) (waitingEnd r) (frameGuardTime r) (frameWaitingTime r) (startUpGuardTime r) (requestGuardTime r).
#[global] Instance set_symbolRate : Setter symbolRate :=
  fun v r => mk (lastCommand r) (frameType r) v (frameStart r) (frameEnd r) (guardEnd r) (waitingEnd r) (frameGuardTime r) (frameWaitingTime r) (startUpGuardTime r) (requestGuardTime r).
#[global] Instance set_frameStart : Setter frameStart :=
  fun v r => mk (lastCommand r) (frameType r) (symbolRate r) v (frameEnd r) (guardEnd r) (waitingEnd r) (frameGuardTime r) (frameWaitingTime r) (startUpGuardTime r) (requestGuardTime r).
#[global] Instance set_frameEnd : Setter frameEnd :=
  fun v r => mk (lastCommand r) (frameType r) (symbolRate r) (frameStart r) v (guardEnd r) (waitingEnd r) (frameGuardTime r) (frameWaitingTime r) (startUpGuardTime r) (requestGuardTime r).
#[global] Instance set_guardEnd : Setter guardEnd :=
  fun v r => mk (lastCommand r) (frameType r) (symbolRate r) (frameStart r) (frameEnd r) v (waitingEnd r) (frameGuardTime r) (frameWaitingTime r) (startUpGuardTime r) (requestGuardTime r).
#[global] Instance set_waitingEnd : Setter waitingEnd :=
  fun v r => mk (lastCommand r) (frameType r) (symbolRate r) (frameStart r) (frameEnd r) (guardEnd r) v (frameGuardTime r) (frameWaitingTime r) (startUpGuardTime r) (requestGuardTime r).
#[global] Instance set_frameGuardTime : Setter frameGuardTime :=
  fun v r => mk (lastCommand r) (frameType r) (symbolRate r) (frameStart r) (frameEnd r) (guardEnd r) (waitingEnd r) v (frameWaitingTime r) (startUpGuardTime r) (requestGuardTime r).
#[global] Instance set_frameWaitingTime : Setter frameWaitingTime :=
  fun v r => mk (lastCommand r) (frameType r) (symbolRate r) (frameStart r) (frameEnd r) (guardEnd r) (waitingEnd r) (frameGuardTime r) v (startUpGuardTime r) (requestGuardTime r).
#[global] Instance set_startUpGuardTime : Setter startUpGuardTime :=
  fun v r => mk (lastCommand r) (frameType r) (symbolRate r) (frameStart r) (frameEnd r) (guardEnd r) (waitingEnd r) (frameGuardTime r) (frameWaitingTime r) v (requestGuardTime r).
#[global] Instance set_requestGuardTime : Setter requestGuardTime :=
  fun v r => mk (lastCommand r) (frameType r) (symbolRate r) (frameStart r) (frameEnd r) (guardEnd r) (waitingEnd r) (frameGuardTime r) (frameWaitingTime r) (startUpGuardTime r) v.
End FrameStatus.

(** [struct ProtocolStatus]: protocol parameters. *)
Module ProtocolStatus.
Record t := mk {
  maxFrameSize : Z;
  frameGuardTime : Z;
  frameWaitingTime : Z;
  startUpGuardTime : Z;
  requestGuardTime : Z
}.
Definition zero : t :=
  mk 0 0 0 0 0.
#[global] Instance set_maxFrameSize : Setter maxFrameSize :=
  fun v r => mk v (frameGuardTime r) (frameWaitingTime r) (startUpGuardTime r) (requestGuardTime r).
#[global] Instance set_frameGuardTime : Setter frameGuardTime :=
  fun v r => mk (maxFrameSize r) v (frameWaitingTime r) (startUpGuardTime r) (requestGuardTime r).
#[global] Instance set_frameWaitingTime : Setter frameWaitingTime :=
  fun v r => mk (maxFrameSize r) (frameGuardTime r) v (startUpGuardTime r) (requestGuardTime r).
#[global] Instance set_startUpGuardTime : Setter startUpGuardTime :=
  fun v r => mk (maxFrameSize r) (frameGuardTime r) (frameWaitingTime r) v (requestGuardTime r).
#[global] Instance set_requestGuardTime : Setter requestGuardTime :=
  fun v r => mk (maxFrameSize r) (frameGuardTime r) (frameWaitingTime r) (startUpGuardTime r) v.
End ProtocolStatus.

(** [struct SignalParams]: constants derived from the sample rate. *)
Module SignalParams.
Record t := mk {
  sampleTimeUnit : float;
  powerAverageW0 : float;
  powerAverageW1 : float;
  signalAverageW0 : float;
  signalAverageW1 : float;
  signalVarianceW0 : float;
  signalVarianceW1 : float
}.
Definition zero : t :=
  mk fzero fzero fzero fzero fzero fzero fzero.
#[global] Instance set_sampleTimeUnit : Setter sampleTimeUnit :=
  fun v r => mk v (powerAverageW0 r) (powerAverageW1 r) (signalAverageW0 r) (signalAverageW1 r) (signalVarianceW0 r) (signalVarianceW1 r).
#[global] Instance set_powerAverageW0 : Setter powerAverageW0 :=
  fun v r => mk (sampleTimeUnit r) v (powerAverageW1 r) (signalAverageW0 r) (signalAverageW1 r) (signalVarianceW0 r) (signalVarianceW1 r).
#[global] Instance set_powerAverageW1 : Setter powerAverageW1 :=
  fun v r => mk (sampleTimeUnit r) (powerAverageW0 r) v (signalAverageW0 r) (signalAverageW1 r) (signalVarianceW0 r) (signalVarianceW1 r).
#[global] Instance set_signalAverageW0 : Setter signalAverageW0 :=
  fun v r => mk (sampleTimeUnit r) (powerAverageW0 r) (powerAverageW1 r) v (signalAverageW1 r) (signalVarianceW0 r) (signalVarianceW1 r).
#[global] Instance set_signalAverageW1 : Setter signalAverageW1 :=
  fun v r => mk (sampleTimeUnit r) (powerAverageW0 r) (powerAverageW1 r) (signalAverageW0 r) v (signalVarianceW0 r) (signalVarianceW1 r).
#[global] Instance set_signalVarianceW0 : Setter signalVarianceW0 :=
  fun v r => mk (sampleTimeUnit r) (powerAverageW0 r) (powerAverageW1 r) (signalAverageW0 r) (signalAverageW1 r) v (signalVarianceW1 r).
#[global] Instance set_signalVarianceW1 : Setter signalVarianceW1 :=
  fun v r => mk (sampleTimeUnit r) (powerAverageW0 r) (powerAverageW1 r) (signalAverageW0 r) (signalAverageW1 r) (signalVarianceW0 r) v.
End SignalParams.

(** [struct SignalStatus]: signal window and its slow power average. *)
Module SignalStatus.
Record t := mk {
  powerAverage : float;
  signalData : Z -> float
}.
Definition zero : t :=
  mk fzero (fun _ => fzero).
#[global] Instance set_powerAverage : Setter powerAverage :=
  fun v r => mk v (signalData r).
#[global] Instance set_signalData : Setter signalData :=
  fun v r => mk (powerAverage r) v.
End SignalStatus.


(** Modelled from the spec: class [NfcFrame] (NfcFrame.h) is not part of the
    sources at hand. The frame is the output artifact of section 3: technology,
    type, sample and time boundaries, byte payload, flags bitmask and phase.
    [setFrameFlags] adds flags to the mask ("set Truncated flag", "set
    CrcError flag", "apply chainedFlags"), [put] appends bytes, [limit] is
    the payload length once flipped for reading and [frame[i]] reads byte
    [i]. *)
Module NfcFrame.
Record t := mk {
  techType : Z;
  frameType : Z;
  framePhase : Z;
  frameFlags : Z;
  frameRate : Z;
  sampleStart : Z;
  sampleEnd : Z;
  timeStart : double;
  timeEnd : double;
  bytes : list Z
}.
#[global] Instance set_techType : Setter techType :=
  fun v r => mk v (frameType r) (framePhase r) (frameFlags r) (frameRate r) (sampleStart r) (sampleEnd r) (timeStart r) (timeEnd r) (bytes r).
#[global] Instance set_frameType : Setter frameType :=
  fun v r => mk (techType r) v (framePhase r) (frameFlags r) (frameRate r) (sampleStart r) (sampleEnd r) (timeStart r) (timeEnd r) (bytes r).
#[global] Instance set_framePhase : Setter framePhase :=
  fun v r => mk (techType r) (frameType r) v (frameFlags r) (frameRate r) (sampleStart r) (sampleEnd r) (timeStart r) (timeEnd r) (bytes r).
#[global] Instance set_frameFlags : Setter frameFlags :=
  fun v r => mk (techType r) (frameType r) (framePhase r) v (frameRate r) (sampleStart r) (sampleEnd r) (timeStart r) (timeEnd r) (bytes r).
#[global] Instance set_frameRate : Setter frameRate :=
  fun v r => mk (techType r) (frameType r) (framePhase r) (frameFlags r) v (sampleStart r) (sampleEnd r) (timeStart r) (timeEnd r) (bytes r).
#[global] Instance set_sampleStart : Setter sampleStart :=
  fun v r => mk (techType r) (frameType r) (framePhase r) (frameFlags r) (frameRate r) v (sampleEnd r) (timeStart r) (timeEnd r) (bytes r).
#[global] Instance set_sampleEnd : Setter sampleEnd :=
  fun v r => mk (techType r) (frameType r) (framePhase r) (frameFlags r) (frameRate r) (sampleStart r) v (timeStart r) (timeEnd r) (bytes r).
#[global] Instance set_timeStart : Setter timeStart :=
  fun v r => mk (techType r) (frameType r) (framePhase r) (frameFlags r) (frameRate r) (sampleStart r) (sampleEnd r) v (timeEnd r) (bytes r).
#[global] Instance set_timeEnd : Setter timeEnd :=
  fun v r => mk (techType r) (frameType r) (framePhase r) (frameFlags r) (frameRate r) (sampleStart r) (sampleEnd r) (timeStart r) v (bytes r).
#[global] Instance set_bytes : Setter bytes :=
  fun v r => mk (techType r) (frameType r) (framePhase r) (frameFlags r) (frameRate r) (sampleStart r) (sampleEnd r) (timeStart r) (timeEnd r) v.
Definition new (tech type : Z) : t := mk tech type 0 0 0 0 0 fzero fzero [].
Definition isPollFrame (f : t) : bool := frameType f =? PollFrame.
Definition isListenFrame (f : t) : bool := frameType f =? ListenFrame.
Definition limit (f : t) : Z := Z.of_nat (List.length (bytes f)).
Definition get (f : t) (i : Z) : Z := nth (Z.to_nat i) (bytes f) 0.
Definition setFrameFlags (flags : Z) (f : t) : t :=
  f <| frameFlags := Z.lor (frameFlags f) flags |>.
Definition hasFrameFlags (flags : Z) (f : t) : bool :=
  negb (Z.land (frameFlags f) flags =? 0).
Definition put (buffer : Z -> Z) (n : Z) (f : t) : t :=
  f <| bytes := bytes f ++ map (fun k => buffer (Z.of_nat k)) (seq 0 (Z.to_nat n)) |>.
End NfcFrame.

(** [struct DecoderStatus]: state of the enclosing decoder. [modulation] and
    [bitrate] point into the arrays [modulationStatus] and [bitrateParams]
    of the decoder core; a pointer is the index of its target, [None] is
    [nullptr]. *)
Module DecoderStatus.
Record t := mk {
  signalParams : SignalParams.t;
  signalStatus : SignalStatus.t;
  modulation : option RateType;
  bitrate : option RateType;
  sampleRate : Z;
  signalClock : Z;
  powerLevelThreshold : float
}.
#[global] Instance set_signalParams : Setter signalParams :=
  fun v r => mk v (signalStatus r) (modulation r) (bitrate r) (sampleRate r) (signalClock r) (powerLevelThreshold r).
#[global] Instance set_signalStatus : Setter signalStatus :=
  fun v r => mk (signalParams r) v (modulation r) (bitrate r) (sampleRate r) (signalClock r) (powerLevelThreshold r).
#[global] Instance set_modulation : Setter modulation :=
  fun v r => mk (signalParams r) (signalStatus r) v (bitrate r) (sampleRate r) (signalClock r) (powerLevelThreshold r).
#[global] Instance set_bitrate : Setter bitrate :=
  fun v r => mk (signalParams r) (signalStatus r) (modulation r) v (sampleRate r) (signalClock r) (powerLevelThreshold r).
#[global] Instance set_sampleRate : Setter sampleRate :=
  fun v r => mk (signalParams r) (signalStatus r) (modulation r) (bitrate r) v (signalClock r) (powerLevelThreshold r).
#[global] Instance set_signalClock : Setter signalClock :=
  fun v r => mk (signalParams r) (signalStatus r) (modulation r) (bitrate r) (sampleRate r) v (powerLevelThreshold r).
#[global] Instance set_powerLevelThreshold : Setter powerLevelThreshold :=
  fun v r => mk (signalParams r) (signalStatus r) (modulation r) (bitrate r) (sampleRate r) (signalClock r) v.
End DecoderStatus.

(** [struct NfcB::Impl]. The arrays of four entries are indexed by
    [RateType]; [decoder] points to a [DecoderStatus] that every function
    below receives and returns next to the [Impl]. *)
Module Impl.
Record t := mk {
  bitrateParams : RateType -> BitrateParams.t;
  symbolStatus : SymbolStatus.t;
  streamStatus : StreamStatus.t;
  frameStatus : FrameStatus.t;
  protocolStatus : ProtocolStatus.t;
  modulationStatus : RateType -> ModulationStatus.t;
  minimumModulationThreshold : float;
  maximumModulationThreshold : float;
  lastFrameEnd : Z;
  chainedFlags : Z
}.
#[global] Instance set_bitrateParams : Setter bitrateParams :=
  fun v r => mk v (symbolStatus r) (streamStatus r) (frameStatus r) (protocolStatus r) (modulationStatus r) (minimumModulationThreshold r) (maximumModulationThreshold r) (lastFrameEnd r) (chainedFlags r).
#[global] Instance set_symbolStatus : Setter symbolStatus :=
  fun v r => mk (bitrateParams r) v (streamStatus r) (frameStatus r) (protocolStatus r) (modulationStatus r) (minimumModulationThreshold r) (maximumModulationThreshold r) (lastFrameEnd r) (chainedFlags r).
#[global] Instance set_streamStatus : Setter streamStatus :=
  fun v r => mk (bitrateParams r) (symbolStatus r) v (frameStatus r) (protocolStatus r) (modulationStatus r) (minimumModulationThreshold r) (maximumModulationThreshold r) (lastFrameEnd r) (chainedFlags r).
#[global] Instance set_frameStatus : Setter frameStatus :=
  fun v r => mk (bitrateParams r) (symbolStatus r) (streamStatus r) v (protocolStatus r) (modulationStatus r) (minimumModulationThreshold r) (maximumModulationThreshold r) (lastFrameEnd r) (chainedFlags r).
#[global] Instance set_protocolStatus : Setter protocolStatus :=
  fun v r => mk (bitrateParams r) (symbolStatus r) (streamStatus r) (frameStatus r) v (modulationStatus r) (minimumModulationThreshold r) (maximumModulationThreshold r) (lastFrameEnd r) (chainedFlags r).
#[global] Instance set_modulationStatus : Setter modulationStatus :=
  fun v r => mk (bitrateParams r) (symbolStatus r) (streamStatus r) (frameStatus r) (protocolStatus r) v (minimumModulationThreshold r) (maximumModulationThreshold r) (lastFrameEnd r) (chainedFlags r).
#[global] Instance set_minimumModulationThreshold : Setter minimumModulationThreshold :=
  fun v r => mk (bitrateParams r) (symbolStatus r) (streamStatus r) (frameStatus r) (protocolStatus r) (modulationStatus r) v (maximumModulationThreshold r) (lastFrameEnd r) (chainedFlags r).
#[global] Instance set_maximumModulationThreshold : Setter maximumModulationThreshold :=
  fun v r => mk (bitrateParams r) (symbolStatus r) (streamStatus r) (frameStatus r) (protocolStatus r) (modulationStatus r) (minimumModulationThreshold r) v (lastFrameEnd r) (chainedFlags r).
#[global] Instance set_lastFrameEnd : Setter lastFrameEnd :=
  fun v r => mk (bitrateParams r) (symbolStatus r) (streamStatus r) (frameStatus r) (protocolStatus r) (modulationStatus r) (minimumModulationThreshold r) (maximumModulationThreshold r) v (chainedFlags r).
#[global] Instance set_chainedFlags : Setter chainedFlags :=
  fun v r => mk (bitrateParams r) (symbolStatus r) (streamStatus r) (frameStatus r) (protocolStatus r) (modulationStatus r) (minimumModulationThreshold r) (maximumModulationThreshold r) (lastFrameEnd r) v.
End Impl.

(** ** Helpers for the arrays and the missing declarations *)

Definition RateType_code (r : RateType) : Z :=
  match r with r106k => 0 | r212k => 1 | r424k => 2 | r848k => 3 end.

(** [rate - 1] as an index *)
Definition RateType_pred (r : RateType) : RateType :=
  match r with r106k => r106k | r212k => r106k | r424k => r212k | r848k => r424k end.

Definition TechType_code (t : TechType) : Z :=
  match t with TechNone => 0 | NfcA => 1 | NfcB => 2 | NfcF => 3 | NfcV => 4 end.

(** [a[r] = v] *)
Definition upd {A : Type} (a : RateType -> A) (r : RateType) (v : A) : RateType -> A :=
  fun r' => if RateType_eqb r' r then v else a r'.

(** Modelled from the spec: the constants [BaseFrequency] and
    [CommandType::NFCA_REQB] are declared in NfcB.h, which is not part of
    the sources at hand. Section 6 gives the base carrier as 13.56 MHz and
    the REQB command byte as 0x05. *)
Definition BaseFrequency : Z := 13560000.
Definition NFCA_REQB : Z := 0x05.

(** What the sources at hand leave open.

    - [uint] converts an arithmetic result to the unsigned integer type of
      the sample-clock fields ([signalClock], the search and symbol times,
      the frame boundaries, the buffer offsets), whose declarations are
      in NfcB.h.
    - [SignalBufferLength] is the length of the signal window.
    - [takeSample s d] is the decoder status once
      [DecoderStatus::nextSample] has consumed the sample [s]: the clock
      advanced, the window and the power average updated. *)
Class Platform := {
  uint : Z -> Z;
  SignalBufferLength : Z;
  takeSample : float -> DecoderStatus.t -> DecoderStatus.t
}.

(** Modelled from the spec: [DecoderStatus::nextSample] is not part of the
    sources at hand. Section 6: it advances the signal clock by one and
    makes the sample valid in the window; it returns false at the end of
    the stream. The buffer is the list of the samples still to be read. *)
Definition nextSample {P : Platform} (d : DecoderStatus.t) (buffer : list float)
  : option (DecoderStatus.t * list float) :=
  match buffer with
  | [] => None
  | s :: rest => Some (takeSample s d, rest)
  end.

(** A call that may end by an error. No function of the source raises one:
    [ConfigError] is the error kind of section 7 of the specification. *)
Inductive Outcome (A : Type) : Type :=
| Done (a : A)
| ConfigError.
Arguments Done {A} a.
Arguments ConfigError {A}.

(** ** CRC-16 of a frame: [NfcB::Impl::checkCrc] *)

(** One pass of the body of the [for] loop, on the register [crc] and the
    frame byte [b]. [d] is an [unsigned char], [crc] an [unsigned short]. *)
Definition crcByte (crc b : Z) : Z :=
  let d := u8 b in
  let d := u8 (Z.lxor d (Z.land crc 0xff)) in
  let d := u8 (Z.lxor d (Z.shiftl d 4)) in
  u16 (Z.lxor (Z.lxor (Z.lxor (Z.shiftr crc 8) (u16 (Z.shiftl d 8)))
                      (u16 (Z.shiftl d 3)))
              (u16 (Z.shiftr d 4))).

(** [for (int i = ...; i < length - 2; i++)] with [n] passes left. *)
Fixpoint crcLoop (frame : NfcFrame.t) (i : Z) (n : nat) (crc : Z) : Z :=
  match n with
  | O => crc
  | S n' => crcLoop frame (i + 1) n' (crcByte crc (NfcFrame.get frame i))
  end.

Definition checkCrc (frame : NfcFrame.t) : bool :=
  let crc := 0xFFFF in
  let res := 0 in
  let length := NfcFrame.limit frame in
  if length <=? 2 then false
  else
    let crc := crcLoop frame 0 (Z.to_nat (length - 2)) crc in
    let crc := u16 (Z.lnot crc) in
    let res := u16 (Z.lor res (Z.land (NfcFrame.get frame (length - 2)) 0xff)) in
    let res := u16 (Z.lor res (Z.shiftl (Z.land (NfcFrame.get frame (length - 1)) 0xff) 8)) in
    res =? crc.

(** The CRC-16 as the specification words it (section 4.7): register
    0xFFFF, the three-line update per byte, final 16-bit complement. *)
Definition crc16_update (crc byte : Z) : Z :=
  let d := Z.lxor byte (Z.land crc 0xFF) in
  let d := (Z.lxor d (Z.shiftl d 4)) mod 2 ^ 8 in
  (Z.lxor (Z.lxor (Z.lxor (Z.shiftr crc 8) (Z.shiftl d 8)) (Z.shiftl d 3))
          (Z.shiftr d 4)) mod 2 ^ 16.

Definition crc16 (payload : list Z) : Z :=
  0xFFFF - fold_left crc16_update payload 0xFFFF.

(** [expected = frame[len-2] | (frame[len-1] << 8)] *)
Definition trailer (frame : list Z) : Z :=
  let n := List.length frame in
  Z.lor (nth (n - 2) frame 0) (Z.shiftl (nth (n - 1) frame 0) 8).

(** [payload || crc16(payload)], low byte first. *)
Definition with_crc (payload : list Z) : list Z :=
  payload ++ [Z.land (crc16 payload) 0xff; Z.shiftr (crc16 payload) 8].

(** A frame that holds the given bytes. *)
Definition frame_of (type : Z) (bytes : list Z) : NfcFrame.t :=
  NfcFrame.put (fun k => nth (Z.to_nat k) bytes 0) (Z.of_nat (List.length bytes))
    (NfcFrame.new (TechType_code NfcB) type).

(** ** [NfcB::Impl::configure] *)

(** The body of [for (int rate = r106k; rate <= r424k; rate++)]: both
    entries of index [rate] are cleared, then every field of the bitrate
    entry is assigned in the order below. The four offsets are
    differences taken in the unsigned type of the sample clock: they wrap
    around when the delay and the period exceed the buffer length. *)
Definition configureRate {P : Platform} (d : DecoderStatus.t) (i : Impl.t) (rate : RateType)
  : Impl.t :=
  let stu := SignalParams.sampleTimeUnit (DecoderStatus.signalParams d) in
  let r := RateType_code rate in
  let previous := Impl.bitrateParams i (RateType_pred rate) in
  let symbolsPerSecond := BaseFrequency / Z.shiftr 128 r in
  let period1SymbolSamples := Z_of_float (fround (fmulZ stu (Z.shiftr 128 r))) in
  let period2SymbolSamples := Z_of_float (fround (fmulZ stu (Z.shiftr 64 r))) in
  let period4SymbolSamples := Z_of_float (fround (fmulZ stu (Z.shiftr 32 r))) in
  let period8SymbolSamples := Z_of_float (fround (fmulZ stu (Z.shiftr 16 r))) in
  let symbolDelayDetect :=
    if r >? RateType_code r106k
    then BitrateParams.symbolDelayDetect previous
         + BitrateParams.period1SymbolSamples previous
    else 0 in
  let symbolAverageW0 :=
    float_of_double (dsub (double_of_Z 1) (ddiv d_5_0 (double_of_Z period1SymbolSamples))) in
  let bitrate :=
    {| BitrateParams.techType := TechType_code NfcB;
       BitrateParams.rateType := r;
       BitrateParams.symbolsPerSecond := symbolsPerSecond;
       BitrateParams.period1SymbolSamples := period1SymbolSamples;
       BitrateParams.period2SymbolSamples := period2SymbolSamples;
       BitrateParams.period4SymbolSamples := period4SymbolSamples;
       BitrateParams.period8SymbolSamples := period8SymbolSamples;
       BitrateParams.symbolDelayDetect := symbolDelayDetect;
       BitrateParams.offsetSignalIndex := uint (SignalBufferLength - symbolDelayDetect);
       BitrateParams.offsetSymbolIndex :=
         uint (SignalBufferLength - symbolDelayDetect - period1SymbolSamples);
       BitrateParams.offsetFilterIndex :=
         uint (SignalBufferLength - symbolDelayDetect - period4SymbolSamples);
       BitrateParams.offsetDetectIndex :=
         uint (SignalBufferLength - symbolDelayDetect - period8SymbolSamples);
       BitrateParams.symbolAverageW0 := symbolAverageW0;
       BitrateParams.symbolAverageW1 := fsub (float_of_Z 1) symbolAverageW0 |} in
  i <| Impl.modulationStatus := upd (Impl.modulationStatus i) rate ModulationStatus.zero |>
    <| Impl.bitrateParams := upd (Impl.bitrateParams i) rate bitrate |>.

(** [1 - x / sampleRate] computed in double and stored in a float. *)
Definition averageW0 (x : double) (sampleRate : Z) : float :=
  float_of_double (dsub (double_of_Z 1) (ddiv x (double_of_Z sampleRate))).

(** [configure(sampleRate)]; the log lines have no effect on the state.
    The parameter is not read: the rate used is [decoder->sampleRate]. *)
Definition configure {P : Platform} (sampleRate : Z) (d : DecoderStatus.t) (i : Impl.t)
  : Outcome (DecoderStatus.t * Impl.t) :=
  let stu := SignalParams.sampleTimeUnit (DecoderStatus.signalParams d) in
  let i := i <| Impl.symbolStatus := SymbolStatus.zero |> in
  let i := i <| Impl.streamStatus := StreamStatus.zero |> in
  let i := i <| Impl.frameStatus := FrameStatus.zero |> in
  let i := i <| Impl.lastFrameEnd := 0 |> in
  let i := i <| Impl.chainedFlags := 0 |> in
  let i := fold_left (configureRate d) [r106k; r212k; r424k] i in
  let ps := Impl.protocolStatus i in
  let ps := ps <| ProtocolStatus.maxFrameSize := 256 |> in
  let ps := ps <| ProtocolStatus.startUpGuardTime :=
              Z_of_float (fmulZ (fmulZ (fmulZ stu 256) 16) (Z.shiftl 1 0)) |> in
  let ps := ps <| ProtocolStatus.frameWaitingTime :=
              Z_of_float (fmulZ (fmulZ (fmulZ stu 256) 16) (Z.shiftl 1 4)) |> in
  let ps := ps <| ProtocolStatus.frameGuardTime := Z_of_float (fmulZ (fmulZ stu 128) 7) |> in
  let ps := ps <| ProtocolStatus.requestGuardTime := Z_of_float (fmulZ stu 7000) |> in
  let i := i <| Impl.protocolStatus := ps |> in
  let fs := Impl.frameStatus i in
  let fs := fs <| FrameStatus.startUpGuardTime := ProtocolStatus.startUpGuardTime ps |> in
  let fs := fs <| FrameStatus.frameWaitingTime := ProtocolStatus.frameWaitingTime ps |> in
  let fs := fs <| FrameStatus.frameGuardTime := ProtocolStatus.frameGuardTime ps |> in
  let fs := fs <| FrameStatus.requestGuardTime := ProtocolStatus.requestGuardTime ps |> in
  let i := i <| Impl.frameStatus := fs |> in
  let sp := DecoderStatus.signalParams d in
  let sp := sp <| SignalParams.powerAverageW0 := averageW0 d_1E3 (DecoderStatus.sampleRate d) |> in
  let sp := sp <| SignalParams.powerAverageW1 :=
              fsub (float_of_Z 1) (SignalParams.powerAverageW0 sp) |> in
  let sp := sp <| SignalParams.signalAverageW0 := averageW0 d_1E5 (DecoderStatus.sampleRate d) |> in
  let sp := sp <| SignalParams.signalAverageW1 :=
              fsub (float_of_Z 1) (SignalParams.signalAverageW0 sp) |> in
  let sp := sp <| SignalParams.signalVarianceW0 := averageW0 d_1E5 (DecoderStatus.sampleRate d) |> in
  let sp := sp <| SignalParams.signalVarianceW1 :=
              fsub (float_of_Z 1) (SignalParams.signalVarianceW0 sp) |> in
  Done (d <| DecoderStatus.signalParams := sp |>, i).

(** ** Edge detector and modulation depth *)

(** "compute signal pointers", "get signal samples" and the two
    integrations, as [detectModulation] and [decodePollFrameSymbolAsk]
    both start. The result is the modulation status and [signalData]. *)
Definition integrateSample {P : Platform} (d : DecoderStatus.t) (bitrate : BitrateParams.t)
  (modulation : ModulationStatus.t) : ModulationStatus.t * float :=
  let clock := DecoderStatus.signalClock d in
  let window := SignalStatus.signalData (DecoderStatus.signalStatus d) in
  let modulation := modulation <| ModulationStatus.signalIndex :=
                      uint (BitrateParams.offsetSignalIndex bitrate + clock) |> in
  let modulation := modulation <| ModulationStatus.filterIndex :=
                      uint (BitrateParams.offsetFilterIndex bitrate + clock) |> in
  let modulation := modulation <| ModulationStatus.detectIndex :=
                      uint (BitrateParams.offsetDetectIndex bitrate + clock) |> in
  let signalData :=
    window (Z.land (ModulationStatus.signalIndex modulation) (SignalBufferLength - 1)) in
  let filterData :=
    window (Z.land (ModulationStatus.filterIndex modulation) (SignalBufferLength - 1)) in
  let detectData :=
    window (Z.land (ModulationStatus.detectIndex modulation) (SignalBufferLength - 1)) in
  let modulation := modulation <| ModulationStatus.filterIntegrate :=
                      fadd (ModulationStatus.filterIntegrate modulation) signalData |> in
  let modulation := modulation <| ModulationStatus.filterIntegrate :=
                      fsub (ModulationStatus.filterIntegrate modulation) filterData |> in
  let modulation := modulation <| ModulationStatus.detectIntegrate :=
                      fadd (ModulationStatus.detectIntegrate modulation) signalData |> in
  let modulation := modulation <| ModulationStatus.detectIntegrate :=
                      fsub (ModulationStatus.detectIntegrate modulation) detectData |> in
  (modulation, signalData).

(** [(filterIntegrate / period4) - (detectIntegrate / period8)], the two
    periods being read through [quarter] and [eighth]. *)
Definition edgeValue (quarter eighth : BitrateParams.t) (modulation : ModulationStatus.t)
  : float :=
  fsub (fdiv (ModulationStatus.filterIntegrate modulation)
             (float_of_Z (BitrateParams.period4SymbolSamples quarter)))
       (fdiv (ModulationStatus.detectIntegrate modulation)
             (float_of_Z (BitrateParams.period8SymbolSamples eighth))).

(** [(powerAverage - signalData) / powerAverage] *)
Definition deepValue (d : DecoderStatus.t) (signalData : float) : float :=
  let powerAverage := SignalStatus.powerAverage (DecoderStatus.signalStatus d) in
  fdiv (fsub powerAverage signalData) powerAverage.

(** [x > 0.001] for a float [x]: the comparison is made in double. *)
Definition above_0_001 (x : float) : bool := fgt (double_of_float x) d_0_001.

(** [x < -0.001] *)
Definition below_minus_0_001 (x : float) : bool :=
  flt (double_of_float x) (SFopp d_0_001).

(** ** [NfcB::Impl::detectModulation] *)

(** "reset modulation if exceed limits" *)
Definition sofOvershoot (modulation : ModulationStatus.t) : ModulationStatus.t :=
  modulation <| ModulationStatus.searchStage := SOF_BEGIN |>
             <| ModulationStatus.searchStartTime := 0 |>
             <| ModulationStatus.searchEndTime := 0 |>
             <| ModulationStatus.detectorPeek := fzero |>.

(** The reset of seven fields that three branches of the switch share. *)
Definition sofAbandon (modulation : ModulationStatus.t) : ModulationStatus.t :=
  modulation <| ModulationStatus.searchStage := SOF_BEGIN |>
             <| ModulationStatus.searchStartTime := 0 |>
             <| ModulationStatus.searchEndTime := 0 |>
             <| ModulationStatus.searchPeakTime := 0 |>
             <| ModulationStatus.detectorPeek := fzero |>
             <| ModulationStatus.symbolStartTime := 0 |>
             <| ModulationStatus.symbolEndTime := 0 |>.

(** A new extremum of the edge detector: "detect edge at maximum peak".
    The window is left open for [hold] more samples. *)
Definition sofPeak {P : Platform} (clock hold : Z) (edgeDetector : float)
  (modulation : ModulationStatus.t) : ModulationStatus.t :=
  modulation <| ModulationStatus.detectorPeek := edgeDetector |>
             <| ModulationStatus.searchPeakTime := clock |>
             <| ModulationStatus.searchEndTime := uint (clock + hold) |>.

(** [case SOF_BEGIN], first [if]. *)
Definition sofBeginPeak {P : Platform} (clock : Z) (minimum : float) (bitrate : BitrateParams.t)
  (edgeDetector modulationDeep : float) (modulation : ModulationStatus.t)
  : ModulationStatus.t :=
  if flt (ModulationStatus.detectorPeek modulation) edgeDetector
     && above_0_001 edgeDetector && fgt modulationDeep minimum
  then sofPeak clock (BitrateParams.period4SymbolSamples bitrate) edgeDetector modulation
  else modulation.

(** [case SOF_BEGIN], "first edge detect finished". *)
Definition sofBeginClose {P : Platform} (clock : Z) (bitrate : BitrateParams.t)
  (modulation : ModulationStatus.t) : ModulationStatus.t :=
  if clock =? ModulationStatus.searchEndTime modulation then
    let peak := ModulationStatus.searchPeakTime modulation in
    if negb (peak =? 0) then
      modulation
        <| ModulationStatus.symbolStartTime :=
             uint (peak - BitrateParams.period8SymbolSamples bitrate) |>
        <| ModulationStatus.searchStage := SOF_IDLE |>
        <| ModulationStatus.searchStartTime :=
             uint (peak + 10 * BitrateParams.period1SymbolSamples bitrate
                   - BitrateParams.period2SymbolSamples bitrate) |>
        <| ModulationStatus.searchEndTime :=
             uint (peak + 11 * BitrateParams.period1SymbolSamples bitrate
                   + BitrateParams.period2SymbolSamples bitrate) |>
        <| ModulationStatus.searchPeakTime := 0 |>
        <| ModulationStatus.detectorPeek := fzero |>
    else
      modulation <| ModulationStatus.searchStartTime := 0 |>
                 <| ModulationStatus.searchEndTime := 0 |>
  else modulation.

(** [clock > searchStartTime && clock <= searchEndTime] *)
Definition inSearchWindow (clock : Z) (modulation : ModulationStatus.t) : bool :=
  (clock >? ModulationStatus.searchStartTime modulation)
  && (clock <=? ModulationStatus.searchEndTime modulation).

(** [case SOF_IDLE], first [if] inside the window. *)
Definition sofIdlePeak {P : Platform} (clock : Z) (bitrate : BitrateParams.t)
  (edgeDetector : float) (modulation : ModulationStatus.t) : ModulationStatus.t :=
  if below_minus_0_001 edgeDetector
     && fgt (ModulationStatus.detectorPeek modulation) edgeDetector
  then sofPeak clock (BitrateParams.period4SymbolSamples bitrate) edgeDetector modulation
  else modulation.

(** [case SOF_IDLE], "first edge detect finished". *)
Definition sofIdleClose {P : Platform} (clock : Z) (bitrate : BitrateParams.t)
  (modulation : ModulationStatus.t) : ModulationStatus.t :=
  if clock =? ModulationStatus.searchEndTime modulation then
    let peak := ModulationStatus.searchPeakTime modulation in
    if negb (peak =? 0) then
      modulation
        <| ModulationStatus.searchStage := SOF_END |>
        <| ModulationStatus.searchStartTime :=
             uint (peak + 2 * BitrateParams.period1SymbolSamples bitrate
                   - BitrateParams.period2SymbolSamples bitrate) |>
        <| ModulationStatus.searchEndTime :=
             uint (peak + 3 * BitrateParams.period1SymbolSamples bitrate
                   + BitrateParams.period2SymbolSamples bitrate) |>
        <| ModulationStatus.searchPeakTime := 0 |>
        <| ModulationStatus.detectorPeek := fzero |>
    else sofAbandon modulation
  else modulation.

(** [case SOF_IDLE]. Its [return false] and its [break] both end the call
    with false, the switch being the last statement of the only pass of
    the loop. *)
Definition sofIdle {P : Platform} (clock : Z) (bitrate : BitrateParams.t)
  (edgeDetector : float) (modulation : ModulationStatus.t) : ModulationStatus.t :=
  if inSearchWindow clock modulation then
    sofIdleClose clock bitrate (sofIdlePeak clock bitrate edgeDetector modulation)
  else if above_0_001 (fabs edgeDetector) then sofAbandon modulation
  else modulation.

(** [case SOF_END], first [if] inside the window. *)
Definition sofEndPeak {P : Platform} (clock : Z) (minimum : float) (bitrate : BitrateParams.t)
  (edgeDetector modulationDeep : float) (modulation : ModulationStatus.t)
  : ModulationStatus.t :=
  if above_0_001 edgeDetector
     && flt (ModulationStatus.detectorPeek modulation) edgeDetector
     && fgt modulationDeep minimum
  then sofPeak clock (BitrateParams.period8SymbolSamples bitrate) edgeDetector modulation
  else modulation.

(** [case SOF_END], the branch that confirms the start of frame: the
    modulation status and the frame status it leaves. *)
Definition sofConfirm {P : Platform} (bitrate : BitrateParams.t) (modulation : ModulationStatus.t)
  (fs : FrameStatus.t) : ModulationStatus.t * FrameStatus.t :=
  let modulation :=
    modulation
      <| ModulationStatus.symbolEndTime :=
           uint (ModulationStatus.searchPeakTime modulation
                 - BitrateParams.period8SymbolSamples bitrate) |>
      <| ModulationStatus.symbolSyncTime := 0 |> in
  let fs :=
    fs <| FrameStatus.frameType := PollFrame |>
       <| FrameStatus.symbolRate := BitrateParams.symbolsPerSecond bitrate |>
       <| FrameStatus.frameStart :=
            uint (ModulationStatus.symbolStartTime modulation
                  - BitrateParams.symbolDelayDetect bitrate) |>
       <| FrameStatus.frameEnd := 0 |> in
  let modulation :=
    modulation
      <| ModulationStatus.searchStage := SOF_BEGIN |>
      <| ModulationStatus.searchStartTime := 0 |>
      <| ModulationStatus.searchEndTime := 0 |>
      <| ModulationStatus.searchDeepValue := fzero |>
      <| ModulationStatus.detectorPeek := fzero |> in
  (modulation, fs).

(** [detectModulation]: the returned boolean, the decoder status and the
    decoder core after the call. The loop [for (rate = r106k; rate <=
    r106k; rate++)] makes one pass, with [rate = r106k]. *)
Definition detectModulation {P : Platform} (d : DecoderStatus.t) (i : Impl.t)
  : bool * DecoderStatus.t * Impl.t :=
  if fgt (SignalStatus.powerAverage (DecoderStatus.signalStatus d))
         (DecoderStatus.powerLevelThreshold d)
  then
    let rate := r106k in
    let bitrate := Impl.bitrateParams i rate in
    let clock := DecoderStatus.signalClock d in
    let minimum := Impl.minimumModulationThreshold i in
    let '(modulation, signalData) :=
      integrateSample d bitrate (Impl.modulationStatus i rate) in
    let edgeDetector := edgeValue bitrate bitrate modulation in
    let modulationDeep := deepValue d signalData in
    let store (m : ModulationStatus.t) : Impl.t :=
      i <| Impl.modulationStatus := upd (Impl.modulationStatus i) rate m |> in
    if fgt modulationDeep (Impl.maximumModulationThreshold i) then
      (false, d, store (sofOvershoot modulation))
    else if ModulationStatus.searchStage modulation =? SOF_BEGIN then
      let modulation :=
        sofBeginPeak clock minimum bitrate edgeDetector modulationDeep modulation in
      (false, d, store (sofBeginClose clock bitrate modulation))
    else if ModulationStatus.searchStage modulation =? SOF_IDLE then
      (false, d, store (sofIdle clock bitrate edgeDetector modulation))
    else if ModulationStatus.searchStage modulation =? SOF_END then
      if inSearchWindow clock modulation then
        let modulation :=
          sofEndPeak clock minimum bitrate edgeDetector modulationDeep modulation in
        if clock =? ModulationStatus.searchEndTime modulation then
          if negb (ModulationStatus.searchPeakTime modulation =? 0) then
            let '(modulation, fs) := sofConfirm bitrate modulation (Impl.frameStatus i) in
            (true,
             d <| DecoderStatus.bitrate := Some rate |>
               <| DecoderStatus.modulation := Some rate |>,
             (store modulation) <| Impl.frameStatus := fs |>)
          else (false, d, store (sofAbandon modulation))
        else (false, d, store modulation)
      else (false, d, store modulation)
    else (false, d, store modulation)
  else (false, d, i).

(** ** [NfcB::Impl::resetModulation] *)

(** The body of [for (int rate = r106k; rate <= r424k; rate++)]. *)
Definition resetRate (modulation : ModulationStatus.t) : ModulationStatus.t :=
  modulation <| ModulationStatus.searchStage := 0 |>
             <| ModulationStatus.searchStartTime := 0 |>
             <| ModulationStatus.searchEndTime := 0 |>
             <| ModulationStatus.searchPulseWidth := 0 |>
             <| ModulationStatus.searchDeepValue := fzero |>
             <| ModulationStatus.symbolAverage := fzero |>
             <| ModulationStatus.symbolPhase := fnan |>
             <| ModulationStatus.detectorPeek := fzero |>
             <| ModulationStatus.correlationPeek := fzero |>.

Definition resetModulation (d : DecoderStatus.t) (i : Impl.t) : DecoderStatus.t * Impl.t :=
  let i :=
    fold_left
      (fun (i : Impl.t) rate =>
         i <| Impl.modulationStatus :=
                upd (Impl.modulationStatus i) rate (resetRate (Impl.modulationStatus i rate)) |>)
      [r106k; r212k; r424k] i in
  let i := i <| Impl.streamStatus := StreamStatus.zero |> in
  let i := i <| Impl.symbolStatus := SymbolStatus.zero |> in
  let fs := Impl.frameStatus i in
  let fs := fs <| FrameStatus.frameType := 0 |> in
  let fs := fs <| FrameStatus.frameStart := 0 |> in
  let fs := fs <| FrameStatus.frameEnd := 0 |> in
  let i := i <| Impl.frameStatus := fs |> in
  let d := d <| DecoderStatus.bitrate := None |> in
  let d := d <| DecoderStatus.modulation := None |> in
  (d, i).

(** ** Protocol classifier: [process], [processREQB], [processOther] *)

(** [frame.setFrameFlags(!checkCrc(frame) ? FrameFlags::CrcError : 0)] *)
Definition flagCrc (frame : NfcFrame.t) : NfcFrame.t :=
  NfcFrame.setFrameFlags (if negb (checkCrc frame) then CrcError else 0) frame.

Definition processREQB (d : DecoderStatus.t) (i : Impl.t) (frame : NfcFrame.t)
  : bool * Impl.t * NfcFrame.t :=
  let stu := SignalParams.sampleTimeUnit (DecoderStatus.signalParams d) in
  if NfcFrame.isPollFrame frame
     && ((NfcFrame.get frame 0 =? NFCA_REQB) && (NfcFrame.limit frame =? 5))
  then
    let fs := Impl.frameStatus i in
    let fs := fs <| FrameStatus.lastCommand := NfcFrame.get frame 0 |> in
    let ps := Impl.protocolStatus i in
    let ps := ps <| ProtocolStatus.maxFrameSize := 256 |> in
    let ps := ps <| ProtocolStatus.frameGuardTime := Z_of_float (fmulZ (fmulZ stu 128) 7) |> in
    let ps := ps <| ProtocolStatus.frameWaitingTime :=
                Z_of_float (fmulZ (fmulZ (fmulZ stu 256) 16) (Z.shiftl 1 4)) |> in
    let fs := fs <| FrameStatus.frameGuardTime := Z_of_float (fmulZ (fmulZ stu 128) 7) |> in
    let fs := fs <| FrameStatus.frameWaitingTime := Z_of_float (fmulZ (fmulZ stu 128) 18) |> in
    let i := i <| Impl.frameStatus := fs |> <| Impl.protocolStatus := ps |> in
    let i := i <| Impl.chainedFlags := 0 |> in
    let frame := frame <| NfcFrame.framePhase := SelectionFrame |> in
    let frame := flagCrc frame in
    (true, i, frame)
  else if NfcFrame.isListenFrame frame
          && (FrameStatus.lastCommand (Impl.frameStatus i) =? NFCA_REQB)
  then (true, i, frame <| NfcFrame.framePhase := SelectionFrame |>)
  else (false, i, frame).

Definition processOther (frame : NfcFrame.t) : NfcFrame.t :=
  let frame := frame <| NfcFrame.framePhase := ApplicationFrame |> in
  flagCrc frame.

(** [process(frame)]: the decoder core and the frame after the call. The
    [while (true)] of the source makes one pass. *)
Definition process {P : Platform} (d : DecoderStatus.t) (i : Impl.t) (frame : NfcFrame.t)
  : Impl.t * NfcFrame.t :=
  let i :=
    if NfcFrame.isPollFrame frame then
      i <| Impl.frameStatus :=
             (Impl.frameStatus i)
               <| FrameStatus.frameWaitingTime :=
                    ProtocolStatus.frameWaitingTime (Impl.protocolStatus i) |> |>
    else i in
  let '(i, frame) :=
    let '(recognized, i', frame') := processREQB d i frame in
    if recognized then (i', frame') else (i', processOther frame') in
  let frame := NfcFrame.setFrameFlags (Impl.chainedFlags i) frame in
  let fs := Impl.frameStatus i in
  let fs :=
    if NfcFrame.isPollFrame frame then
      match DecoderStatus.bitrate d with
      | Some b =>
          let delay := BitrateParams.symbolDelayDetect (Impl.bitrateParams i b) in
          let fs := fs <| FrameStatus.guardEnd :=
                      uint (FrameStatus.frameEnd fs + FrameStatus.frameGuardTime fs + delay) |> in
          let fs := fs <| FrameStatus.waitingEnd :=
                      uint (FrameStatus.frameEnd fs + FrameStatus.frameWaitingTime fs + delay) |> in
          fs <| FrameStatus.frameType := ListenFrame |>
      | None => fs
      end
    else
      fs <| FrameStatus.frameType := 0 |> <| FrameStatus.lastCommand := 0 |> in
  let i := i <| Impl.lastFrameEnd := FrameStatus.frameEnd fs mod 2 ^ 32 |> in
  let fs := fs <| FrameStatus.frameStart := 0 |> in
  let fs := fs <| FrameStatus.frameEnd := 0 |> in
  (i <| Impl.frameStatus := fs |>, frame).

(** ** Symbol decoder: [decodePollFrameSymbolAsk] *)

(** The body of [while (decoder->nextSample(buffer))], once the sample is
    in. [b] and [m] are the locals [bitrate] and [modulation]. The result
    is [None] when a null pointer is dereferenced, else whether the
    [break] is taken, with the decoder core. *)
Definition symbolSample {P : Platform} (b m : option RateType)
  (d : DecoderStatus.t) (i : Impl.t) : option (bool * Impl.t) :=
  match b, m, DecoderStatus.bitrate d with
  | Some rb, Some rm, Some rb' =>
      let bitrate := Impl.bitrateParams i rb in
      let clock := DecoderStatus.signalClock d in
      let minimum := Impl.minimumModulationThreshold i in
      let '(modulation, signalData) :=
        integrateSample d bitrate (Impl.modulationStatus i rm) in
      let edgeDetector :=
        fabs (edgeValue bitrate (Impl.bitrateParams i rb') modulation) in
      let modulationDeep := deepValue d signalData in
      let modulation :=
        if (clock >? ModulationStatus.searchStartTime modulation)
           && (clock <? ModulationStatus.searchEndTime modulation)
        then
          if above_0_001 edgeDetector
             && flt (ModulationStatus.detectorPeek modulation) edgeDetector
             && fgt modulationDeep minimum
          then
            modulation
              <| ModulationStatus.detectorPeek := edgeDetector |>
              <| ModulationStatus.symbolEndTime :=
                   uint (clock - BitrateParams.period8SymbolSamples bitrate) |>
              <| ModulationStatus.symbolSyncTime := 0 |>
          else modulation
        else modulation in
      let modulation :=
        if ModulationStatus.symbolSyncTime modulation =? 0 then
          let modulation :=
            modulation <| ModulationStatus.symbolStartTime :=
                            ModulationStatus.symbolEndTime modulation |> in
          let modulation :=
            modulation <| ModulationStatus.symbolEndTime :=
                            uint (ModulationStatus.symbolStartTime modulation
                                  + BitrateParams.period1SymbolSamples bitrate) |> in
          modulation <| ModulationStatus.symbolSyncTime :=
                          uint (ModulationStatus.symbolStartTime modulation
                                + BitrateParams.period2SymbolSamples bitrate) |>
        else modulation in
      if clock =? ModulationStatus.symbolSyncTime modulation then
        let modulated := fgt modulationDeep minimum in
        let ss := Impl.symbolStatus i in
        let ss := ss <| SymbolStatus.value := if modulated then 0 else 1 |> in
        let ss := ss <| SymbolStatus.start :=
                    uint (ModulationStatus.symbolStartTime modulation
                          - BitrateParams.symbolDelayDetect bitrate) |> in
        let ss := ss <| SymbolStatus.end_ :=
                    uint (ModulationStatus.symbolEndTime modulation
                          - BitrateParams.symbolDelayDetect bitrate) |> in
        let ss := ss <| SymbolStatus.length :=
                    uint (SymbolStatus.end_ ss - SymbolStatus.start ss) |> in
        let ss := ss <| SymbolStatus.pattern :=
                    if modulated then PatternL else PatternH |> in
        let modulation :=
          modulation
            <| ModulationStatus.searchStartTime :=
                 uint (ModulationStatus.symbolEndTime modulation
                       - BitrateParams.period4SymbolSamples bitrate) |>
            <| ModulationStatus.searchEndTime :=
                 uint (ModulationStatus.symbolEndTime modulation
                       + BitrateParams.period4SymbolSamples bitrate) |>
            <| ModulationStatus.symbolSyncTime := 0 |>
            <| ModulationStatus.detectorPeek := fzero |> in
        Some (true,
              i <| Impl.symbolStatus := ss |>
                <| Impl.modulationStatus := upd (Impl.modulationStatus i) rm modulation |>)
      else
        Some (false,
              i <| Impl.modulationStatus := upd (Impl.modulationStatus i) rm modulation |>)
  | _, _, _ => None
  end.

(** The [while (decoder->nextSample(buffer))] loop: the samples left, the
    decoder status and the decoder core at the [break] or at the end of
    the buffer. The match on the buffer is [nextSample]. *)
Fixpoint symbolLoop {P : Platform} (b m : option RateType) (buffer : list float)
  (d : DecoderStatus.t) (i : Impl.t) : option (list float * DecoderStatus.t * Impl.t) :=
  match buffer with
  | [] => Some ([], d, i)
  | s :: buffer =>
      let d := takeSample s d in
      match symbolSample b m d i with
      | Some (true, i) => Some (buffer, d, i)
      | Some (false, i) => symbolLoop b m buffer d i
      | None => None
      end
  end.

(** [decodePollFrameSymbolAsk(buffer)]: the returned pattern with the
    samples left and the state. *)
Definition decodePollFrameSymbolAsk {P : Platform} (buffer : list float)
  (d : DecoderStatus.t) (i : Impl.t)
  : option (PatternType * list float * DecoderStatus.t * Impl.t) :=
  let i := i <| Impl.symbolStatus :=
                  (Impl.symbolStatus i) <| SymbolStatus.pattern := Invalid |> |> in
  match symbolLoop (DecoderStatus.bitrate d) (DecoderStatus.modulation d) buffer d i with
  | Some (buffer, d, i) => Some (SymbolStatus.pattern (Impl.symbolStatus i), buffer, d, i)
  | None => None
  end.

(** ** Bit and byte framer: [decodePollFrame] *)

Definition isPatternL (pattern : PatternType) : bool := PatternType_eqb pattern PatternL.
Definition isPatternH (pattern : PatternType) : bool := PatternType_eqb pattern PatternH.

(** The three terminators, as the [if / else if / else if] chain sets them
    from flags that are all false when a pass of the loop starts. *)
Definition frameEndFlag (pattern : PatternType) (i : Impl.t) : bool :=
  let ss := Impl.streamStatus i in
  (StreamStatus.bits ss =? 9) && (StreamStatus.data ss =? 0) && isPatternL pattern.

Definition streamErrorFlag (pattern : PatternType) (i : Impl.t) : bool :=
  let ss := Impl.streamStatus i in
  if frameEndFlag pattern i then false
  else ((StreamStatus.bits ss =? 0) && isPatternH pattern)
       || ((StreamStatus.bits ss =? 9) && isPatternL pattern).

Definition truncateErrorFlag (pattern : PatternType) (i : Impl.t) : bool :=
  let ss := Impl.streamStatus i in
  if frameEndFlag pattern i then false
  else if ((StreamStatus.bits ss =? 0) && isPatternH pattern)
          || ((StreamStatus.bits ss =? 9) && isPatternL pattern) then false
  else StreamStatus.bytes ss =? ProtocolStatus.maxFrameSize (Impl.protocolStatus i).

(** How one pass of the [while] loop of [decodePollFrame] ends. *)
Inductive Pass : Type :=
| Return (result : bool) (d : DecoderStatus.t) (i : Impl.t) (frames : list NfcFrame.t)
| Continue (i : Impl.t).

(** "a valid frame must contain at least one byte of data": the frame built
    from the stream, before [process]. *)
Definition buildResponse (truncated : bool) (bitrate : BitrateParams.t)
  (d : DecoderStatus.t) (i : Impl.t) : NfcFrame.t :=
  let fs := Impl.frameStatus i in
  let ss := Impl.streamStatus i in
  let response := NfcFrame.new (TechType_code NfcB) PollFrame in
  let response := response <| NfcFrame.frameRate := BitrateParams.symbolsPerSecond bitrate |> in
  let response := response <| NfcFrame.sampleStart := FrameStatus.frameStart fs |> in
  let response := response <| NfcFrame.sampleEnd := FrameStatus.frameEnd fs |> in
  let response := response <| NfcFrame.timeStart :=
                    ddiv (double_of_Z (FrameStatus.frameStart fs))
                         (double_of_Z (DecoderStatus.sampleRate d)) |> in
  let response := response <| NfcFrame.timeEnd :=
                    ddiv (double_of_Z (FrameStatus.frameEnd fs))
                         (double_of_Z (DecoderStatus.sampleRate d)) |> in
  let response :=
    if truncated then NfcFrame.setFrameFlags Truncated response else response in
  NfcFrame.put (StreamStatus.buffer ss) (StreamStatus.bytes ss) response.

(** "clear modulation status for next frame search" *)
Definition clearSymbolTimes (modulation : ModulationStatus.t) : ModulationStatus.t :=
  modulation <| ModulationStatus.symbolStartTime := 0 |>
             <| ModulationStatus.symbolEndTime := 0 |>
             <| ModulationStatus.symbolSyncTime := 0 |>
             <| ModulationStatus.filterIntegrate := fzero |>
             <| ModulationStatus.detectIntegrate := fzero |>
             <| ModulationStatus.phaseIntegrate := fzero |>.

(** "decode next bit" and "store full byte in stream buffer". The counters
    [bits] and [bytes] stay far below the range of any integer type. *)
Definition nextBit (i : Impl.t) : Impl.t :=
  let ss := Impl.streamStatus i in
  let ss :=
    if StreamStatus.bits ss <? 9 then
      let ss :=
        if StreamStatus.bits ss >? 0 then
          ss <| StreamStatus.data :=
                  Z.lor (StreamStatus.data ss)
                        (Z.shiftl (SymbolStatus.value (Impl.symbolStatus i))
                                  (StreamStatus.bits ss - 1)) |>
        else ss in
      ss <| StreamStatus.bits := StreamStatus.bits ss + 1 |>
    else
      let ss := ss <| StreamStatus.buffer :=
                  fun k => if k =? StreamStatus.bytes ss
                           then u8 (StreamStatus.data ss)
                           else StreamStatus.buffer ss k |> in
      let ss := ss <| StreamStatus.bytes := StreamStatus.bytes ss + 1 |> in
      let ss := ss <| StreamStatus.data := 0 |> in
      ss <| StreamStatus.bits := 0 |> in
  i <| Impl.streamStatus := ss |>.

(** The body of the [while] loop for the symbol [pattern]; [None] when a
    null [decoder->bitrate] or [decoder->modulation] is dereferenced. *)
Definition pollFramePass {P : Platform} (pattern : PatternType) (d : DecoderStatus.t)
  (i : Impl.t) (frames : list NfcFrame.t) : option Pass :=
  let frameEnd := frameEndFlag pattern i in
  let streamError := streamErrorFlag pattern i in
  let truncateError := truncateErrorFlag pattern i in
  if frameEnd || streamError || truncateError then
    if StreamStatus.bytes (Impl.streamStatus i) >? 0 then
      match DecoderStatus.bitrate d, DecoderStatus.modulation d with
      | Some b, Some m =>
          let i := i <| Impl.frameStatus :=
                          (Impl.frameStatus i)
                            <| FrameStatus.frameEnd :=
                                 SymbolStatus.end_ (Impl.symbolStatus i) |> |> in
          let response :=
            buildResponse (truncateError || streamError) (Impl.bitrateParams i b) d i in
          let i := i <| Impl.modulationStatus :=
                          upd (Impl.modulationStatus i) m
                              (clearSymbolTimes (Impl.modulationStatus i m)) |> in
          let i := i <| Impl.streamStatus := StreamStatus.zero |> in
          let '(i, response) := process d i response in
          Some (Return true d i (frames ++ [response]))
      | _, _ => None
      end
    else
      let '(d, i) := resetModulation d i in
      Some (Return false d i frames)
  else Some (Continue (nextBit i)).

(** [decodePollFrame(buffer, frames)], the loop running on [fuel] passes at
    most: the returned boolean, the samples left, the state and the frame
    list; [None] on a null pointer. A pass that goes on has consumed a
    sample, so that [S (length buffer)] passes are enough. *)
Fixpoint decodePollFrameLoop {P : Platform} (fuel : nat) (buffer : list float)
  (d : DecoderStatus.t) (i : Impl.t) (frames : list NfcFrame.t)
  : option (bool * list float * DecoderStatus.t * Impl.t * list NfcFrame.t) :=
  match fuel with
  | O => Some (false, buffer, d, i, frames)
  | S fuel =>
      match decodePollFrameSymbolAsk buffer d i with
      | None => None
      | Some (pattern, buffer, d, i) =>
          if PatternType_code pattern >? PatternType_code NoPattern then
            match pollFramePass pattern d i frames with
            | None => None
            | Some (Return result d i frames) => Some (result, buffer, d, i, frames)
            | Some (Continue i) => decodePollFrameLoop fuel buffer d i frames
            end
          else Some (false, buffer, d, i, frames)
      end
  end.

Definition decodePollFrame {P : Platform} (buffer : list float)
  (d : DecoderStatus.t) (i : Impl.t) (frames : list NfcFrame.t)
  : option (bool * list float * DecoderStatus.t * Impl.t * list NfcFrame.t) :=
  decodePollFrameLoop (S (List.length buffer)) buffer d i frames.

(** [decodeListenFrame]: the listen side is not decoded. *)
Definition decodeListenFrame (d : DecoderStatus.t) : bool * DecoderStatus.t :=
  (false, d <| DecoderStatus.bitrate := None |> <| DecoderStatus.modulation := None |>).

(** [decodeFrame(samples, frames)] *)
Definition decodeFrame {P : Platform} (buffer : list float)
  (d : DecoderStatus.t) (i : Impl.t) (frames : list NfcFrame.t)
  : option (list float * DecoderStatus.t * Impl.t * list NfcFrame.t) :=
  let polled :=
    if FrameStatus.frameType (Impl.frameStatus i) =? PollFrame then
      match decodePollFrame buffer d i frames with
      | Some (_, buffer, d, i, frames) => Some (buffer, d, i, frames)
      | None => None
      end
    else Some (buffer, d, i, frames) in
  match polled with
  | Some (buffer, d, i, frames) =>
      if FrameStatus.frameType (Impl.frameStatus i) =? ListenFrame then
        Some (buffer, snd (decodeListenFrame d), i, frames)
      else Some (buffer, d, i, frames)
  | None => None
  end.

(** ** Initial state and a platform for the examples *)

(** The decoder core as its member initialisers leave it. *)
Definition Impl_initial : Impl.t :=
  Impl.mk (fun _ => BitrateParams.zero) SymbolStatus.zero StreamStatus.zero
    FrameStatus.zero ProtocolStatus.zero (fun _ => ModulationStatus.zero)
    f_0_10 f_0_50 0 0.

(** A decoder status at rest for the sample rate [sampleRate], with
    [sampleTimeUnit = sampleRate / 13.56 MHz] (section 6), the power level
    threshold [threshold] and the power average [power]. *)
Definition DecoderStatus_at (sampleRate : Z) (threshold power : float) : DecoderStatus.t :=
  DecoderStatus.mk
    (SignalParams.zero
       <| SignalParams.sampleTimeUnit :=
            float_of_double (ddiv (double_of_Z sampleRate) (double_of_Z BaseFrequency)) |>)
    (SignalStatus.zero <| SignalStatus.powerAverage := power |>)
    None None sampleRate 0 threshold.

Definition uint32 (x : Z) : Z := x mod 2 ^ 32.

(** Modelled from the spec: the effect of [nextSample] on the decoder
    status for a window of 4096 samples and a 32-bit clock. The clock
    advances by one, the sample becomes the current entry of the window
    and the slow power average takes it in with the weights that
    [configure] sets. *)
Definition takeSample32 (s : float) (d : DecoderStatus.t) : DecoderStatus.t :=
  let clock := uint32 (DecoderStatus.signalClock d + 1) in
  let sp := DecoderStatus.signalParams d in
  let st := DecoderStatus.signalStatus d in
  let st := st <| SignalStatus.powerAverage :=
              fadd (fmul (SignalStatus.powerAverage st) (SignalParams.powerAverageW0 sp))
                   (fmul s (SignalParams.powerAverageW1 sp)) |> in
  let st := st <| SignalStatus.signalData :=
              fun k => if k =? Z.land clock (4096 - 1) then s
                       else SignalStatus.signalData st k |> in
  d <| DecoderStatus.signalClock := clock |> <| DecoderStatus.signalStatus := st |>.

Definition platform32 : Platform :=
  {| uint := uint32; SignalBufferLength := 4096; takeSample := takeSample32 |}.

(** ** States for the examples *)

Definition f_1 : float := float_of_Z 1.
Definition f_0_01 : float := fdiv (float_of_Z 1) (float_of_Z 100).

(** A decoder at 10 MHz, 1024 samples into a steady carrier of level
    [level], with power average 1 and power threshold 0.01. *)
Definition carrier (level : float) : DecoderStatus.t :=
  (DecoderStatus_at 10000000 f_0_01 f_1)
    <| DecoderStatus.signalStatus :=
         SignalStatus.mk f_1 (fun _ => level) |>
    <| DecoderStatus.signalClock := 1024 |>.


(** The decoder core that [configure] leaves at 10 MHz. *)
Definition configured : Impl.t :=
  match configure (P := platform32) 10000000 (carrier f_1) Impl_initial with
  | Done (_, i) => i
  | ConfigError => Impl_initial
  end.

(** The detector of rate 106k placed in a given search state. *)
Definition searching (stage start finish peak : Z) (i : Impl.t) : Impl.t :=
  i <| Impl.modulationStatus :=
         upd (Impl.modulationStatus i) r106k
           ((Impl.modulationStatus i r106k)
              <| ModulationStatus.searchStage := stage |>
              <| ModulationStatus.searchStartTime := start |>
              <| ModulationStatus.searchEndTime := finish |>
              <| ModulationStatus.searchPeakTime := peak |>
              <| ModulationStatus.symbolStartTime := 700 |>) |>.

(** The framer holding the bytes [bytes], at bit [bits] of the next one. *)
Definition framing (bits : Z) (bytes : list Z) (i : Impl.t) : Impl.t :=
  i <| Impl.streamStatus :=
         StreamStatus.mk bits 0 (Z.of_nat (List.length bytes))
           (fun k => nth (Z.to_nat k) bytes 0) |>
    <| Impl.symbolStatus := (Impl.symbolStatus i) <| SymbolStatus.end_ := 6000 |> |>.

(** A decoder that has locked on the rate 106k. *)
Definition locked (d : DecoderStatus.t) : DecoderStatus.t :=
  d <| DecoderStatus.bitrate := Some r106k |> <| DecoderStatus.modulation := Some r106k |>.

Definition REQB : list Z := [0x05; 0x00; 0x00; 0x71; 0xFF].

(** ** A synthetic poll frame, sample by sample *)

(** The level of the carrier, 1, and of the carrier modulated at 15 %. *)
Definition f_0_85 : float := fdiv (float_of_Z 85) (float_of_Z 100).
Definition level (high : bool) : float := if high then f_1 else f_0_85.

(** The signal by half ETU, [true] for the unmodulated carrier: a
    character is a start bit at L, eight data bits from the least
    significant one and a stop bit at H (section 4.5). *)
Definition character (byte : Z) : list bool :=
  [false; false]
  ++ flat_map (fun k => let b := Z.testbit byte (Z.of_nat k) in [b; b]) (seq 0 8)
  ++ [true; true].

(** Carrier, a start of frame of 10.5 ETU at L and 2.5 ETU at H, the
    characters, an end of frame of 10.5 ETU at L and carrier again. *)
Definition pollSignal (bytes : list Z) : list bool :=
  repeat true 20 ++ repeat false 21 ++ repeat true 5
  ++ flat_map character bytes ++ repeat false 21 ++ repeat true 4.

(** The samples at 10 MHz: sample [k] lies in the half ETU of index
    [k * 2 * 13.56 MHz / (128 * 10 MHz)]. *)
Definition samplesOf (halves : list bool) : list float :=
  map (fun k => level (nth (Z.to_nat (Z.of_nat k * 2 * BaseFrequency / (128 * 10000000)))
                           halves true))
      (seq 0 (Z.to_nat (Z.of_nat (List.length halves) * 128 * 10000000
                        / (2 * BaseFrequency)))).

(** Modelled from the spec: the loop of the enclosing decoder is not part
    of the sources at hand. By section 6, [detect] consumes one sample and
    [decode] consumes samples and appends the completed frames: while no
    poll frame is announced each sample goes to [detectModulation], then
    the buffer goes to [decodeFrame]. *)
Fixpoint decodeSamples {P : Platform} (fuel : nat) (buffer : list float)
  (d : DecoderStatus.t) (i : Impl.t) (frames : list NfcFrame.t)
  : option (list NfcFrame.t) :=
  match fuel with
  | O => Some frames
  | S fuel =>
      if FrameStatus.frameType (Impl.frameStatus i) =? PollFrame then
        match decodeFrame buffer d i frames with
        | Some (buffer, d, i, frames) => decodeSamples fuel buffer d i frames
        | None => None
        end
      else
        match nextSample d buffer with
        | None => Some frames
        | Some (d, buffer) =>
            let '(_, d, i) := detectModulation d i in
            decodeSamples fuel buffer d i frames
        end
  end.

(** The frames decoded from the signal of [bytes] by a decoder configured
    at 10 MHz on a steady carrier: payload, flags and phase of each. *)
Definition decodeSignal (bytes : list Z) : option (list (list Z * Z * Z)) :=
  let buffer := samplesOf (pollSignal bytes) in
  match configure (P := platform32) 10000000
          ((carrier f_1) <| DecoderStatus.signalClock := 0 |>) Impl_initial with
  | Done (d, i) =>
      match decodeSamples (P := platform32) (S (List.length buffer)) buffer d i [] with
      | Some frames =>
          Some (map (fun f => (NfcFrame.bytes f, NfcFrame.frameFlags f, NfcFrame.framePhase f))
                    frames)
      | None => None
      end
  | ConfigError => None
  end.

(** ** Predicates of the statements *)

(** [bits] in [0, 9] and [bytes] at most [maxFrameSize]. *)
Definition framerInvariant (i : Impl.t) : Prop :=
  let ss := Impl.streamStatus i in
  0 <= StreamStatus.bits ss <= 9
  /\ 0 <= StreamStatus.bytes ss <= ProtocolStatus.maxFrameSize (Impl.protocolStatus i).

(** The stage in which a call finds the detector of rate 106k. *)
Definition stageOf (i : Impl.t) : Z :=
  ModulationStatus.searchStage (Impl.modulationStatus i r106k).

(** What [resetModulation] does to the entry of one rate: nine fields
    cleared, the symbol phase a NaN, and the peak time, the symbol times
    and the integrators as they were. *)
Definition rateReset (m m' : ModulationStatus.t) : Prop :=
  ModulationStatus.searchStage m' = 0
  /\ ModulationStatus.searchStartTime m' = 0
  /\ ModulationStatus.searchEndTime m' = 0
  /\ ModulationStatus.searchPulseWidth m' = 0
  /\ ModulationStatus.searchDeepValue m' = fzero
  /\ ModulationStatus.symbolAverage m' = fzero
  /\ ModulationStatus.symbolPhase m' = fnan
  /\ ModulationStatus.detectorPeek m' = fzero
  /\ ModulationStatus.correlationPeek m' = fzero
  /\ ModulationStatus.searchPeakTime m' = ModulationStatus.searchPeakTime m
  /\ ModulationStatus.symbolStartTime m' = ModulationStatus.symbolStartTime m
  /\ ModulationStatus.symbolEndTime m' = ModulationStatus.symbolEndTime m
  /\ ModulationStatus.symbolSyncTime m' = ModulationStatus.symbolSyncTime m
  /\ ModulationStatus.filterIntegrate m' = ModulationStatus.filterIntegrate m
  /\ ModulationStatus.detectIntegrate m' = ModulationStatus.detectIntegrate m
  /\ ModulationStatus.phaseIntegrate m' = ModulationStatus.phaseIntegrate m.


(** ** Definitions for the further properties *)

(** The two halves of a step of the CRC-16 of section 4.7: the byte
    spread over its upper nibble, and the register mixed with it. *)
Definition crc16_spread (x : Z) : Z := (Z.lxor x (Z.shiftl x 4)) mod 2 ^ 8.

Definition crc16_mix (high d : Z) : Z :=
  (Z.lxor (Z.lxor (Z.lxor high (Z.shiftl d 8)) (Z.shiftl d 3)) (Z.shiftr d 4)) mod 2 ^ 16.

(** The spread byte, read back from the high byte of the register. *)
Definition crc16_unmix (crc' : Z) : Z :=
  let h := Z.shiftr crc' 8 in Z.lxor h (Z.shiftr h 5).

(** The register before a step of the CRC-16, from the register after it
    and the byte taken in. *)
Definition crc16_revert (crc' byte : Z) : Z :=
  let d := crc16_unmix crc' in
  let low := (Z.lxor (crc16_spread d) byte) mod 2 ^ 8 in
  let high := Z.lxor (crc' mod 2 ^ 8) ((Z.lxor (Z.shiftl d 3) (Z.shiftr d 4)) mod 2 ^ 8) in
  Z.lor low (Z.shiftl high 8).

(** The symbol of a bit: PatternL for 0, PatternH for 1. *)
Definition symbolBit (bit : bool) : PatternType := if bit then PatternH else PatternL.

(** What [decodePollFrameSymbolAsk] hands to a pass of the loop of
    [decodePollFrame]: the decoder status, the symbol status and the
    modulation status as it leaves them. *)
Record Heard := heardOf {
  heardStatus : DecoderStatus.t;
  heardSymbol : SymbolStatus.t;
  heardModulation : RateType -> ModulationStatus.t
}.

Definition hear (h : Heard) (i : Impl.t) : Impl.t :=
  i <| Impl.symbolStatus := heardSymbol h |>
    <| Impl.modulationStatus := heardModulation h |>.

(** The symbol heard is the one of [bit], with the value of the bit. *)
Definition carries (bit : bool) (h : Heard) : Prop :=
  SymbolStatus.pattern (heardSymbol h) = symbolBit bit
  /\ SymbolStatus.value (heardSymbol h) = (if bit then 1 else 0).

(** [decoder->bitrate] and [decoder->modulation] are selected at the
    symbol. *)
Definition selected (h : Heard) : Prop :=
  DecoderStatus.bitrate (heardStatus h) <> None
  /\ DecoderStatus.modulation (heardStatus h) <> None.

(** The passes of the loop of [decodePollFrame] on the symbols heard, up
    to the first pass that returns. *)
Fixpoint framerRun {P : Platform} (symbols : list Heard) (i : Impl.t)
  (frames : list NfcFrame.t) : option Pass :=
  match symbols with
  | [] => Some (Continue i)
  | h :: symbols =>
      match pollFramePass (SymbolStatus.pattern (heardSymbol h)) (heardStatus h)
                          (hear h i) frames with
      | Some (Continue i) => framerRun symbols i frames
      | ended => ended
      end
  end.

(** A character on the air: start bit 0, the eight data bits from the
    least significant one, stop bit 1. *)
Definition characterBits (byte : Z) : list bool :=
  [false] ++ map (fun k => Z.testbit byte (Z.of_nat k)) (seq 0 8) ++ [true].

(** The end of frame: ten symbols at 0. *)
Definition endOfFrameBits : list bool := repeat false 10.

(** The stream holds the bytes [bytes] and waits for a start bit. *)
Definition holds (bytes : list Z) (i : Impl.t) : Prop :=
  let ss := Impl.streamStatus i in
  StreamStatus.bits ss = 0
  /\ StreamStatus.data ss = 0
  /\ StreamStatus.bytes ss = Z.of_nat (List.length bytes)
  /\ forall k : nat, (k < List.length bytes)%nat ->
                     StreamStatus.buffer ss (Z.of_nat k) = nth k bytes 0.

(** Two states of the decoder core that differ by the stream, the symbol
    status and the modulation status at most. *)
Definition sameCore (i i' : Impl.t) : Prop :=
  Impl.bitrateParams i' = Impl.bitrateParams i
  /\ Impl.frameStatus i' = Impl.frameStatus i
  /\ Impl.protocolStatus i' = Impl.protocolStatus i
  /\ Impl.minimumModulationThreshold i' = Impl.minimumModulationThreshold i
  /\ Impl.maximumModulationThreshold i' = Impl.maximumModulationThreshold i
  /\ Impl.lastFrameEnd i' = Impl.lastFrameEnd i
  /\ Impl.chainedFlags i' = Impl.chainedFlags i.

(** [NfcB::setModulationThreshold(min, max)] *)
Definition setModulationThreshold (min max : float) (i : Impl.t) : Impl.t :=
  i <| Impl.minimumModulationThreshold := min |>
    <| Impl.maximumModulationThreshold := max |>.

(** Two states of the decoder core with the same bitrate table and the
    same thresholds. *)
Definition sameSetup (i i' : Impl.t) : Prop :=
  Impl.bitrateParams i' = Impl.bitrateParams i
  /\ Impl.minimumModulationThreshold i' = Impl.minimumModulationThreshold i
  /\ Impl.maximumModulationThreshold i' = Impl.maximumModulationThreshold i.

(** [nextSample] leaves [decoder->bitrate] and [decoder->modulation]. *)
Definition keepsSelection {P : Platform} : Prop :=
  forall (s : float) (d : DecoderStatus.t),
    DecoderStatus.bitrate (takeSample s d) = DecoderStatus.bitrate d
    /\ DecoderStatus.modulation (takeSample s d) = DecoderStatus.modulation d.

(** While a poll frame is being decoded the bitrate and the modulation
    are selected. *)
Definition armed (d : DecoderStatus.t) (i : Impl.t) : Prop :=
  FrameStatus.frameType (Impl.frameStatus i) = PollFrame ->
  DecoderStatus.bitrate d <> None /\ DecoderStatus.modulation d <> None.

(** ** States for the examples of the further properties *)

(** The decoder status that [configure] leaves at 10 MHz, locked on the
    rate 106k. *)
Definition tuned : DecoderStatus.t :=
  match configure (P := platform32) 10000000 (carrier f_1) Impl_initial with
  | Done (d, _) => locked d
  | ConfigError => locked (carrier f_1)
  end.

(** The symbol clock of rate 106k placed so that the next symbol is
    sampled at the clock [sync], half a symbol after its start. *)
Definition synchronised (sync : Z) (i : Impl.t) : Impl.t :=
  let bitrate := Impl.bitrateParams i r106k in
  i <| Impl.modulationStatus :=
         upd (Impl.modulationStatus i) r106k
           ((Impl.modulationStatus i r106k)
              <| ModulationStatus.symbolEndTime :=
                   sync - BitrateParams.period2SymbolSamples bitrate |>
              <| ModulationStatus.symbolSyncTime := 0 |>) |>.

(** The decoder core in the middle of a poll frame. *)
Definition polling (i : Impl.t) : Impl.t :=
  i <| Impl.frameStatus := (Impl.frameStatus i) <| FrameStatus.frameType := PollFrame |> |>.

(** The symbols of a run of bits, as heard with the decoder status [d]
    and the modulation status [ms]. *)
Definition heardBits (d : DecoderStatus.t) (ms : RateType -> ModulationStatus.t)
  (bits : list bool) : list Heard :=
  map (fun bit : bool =>
         heardOf d (SymbolStatus.zero <| SymbolStatus.value := if bit then 1 else 0 |>
                                      <| SymbolStatus.pattern := symbolBit bit |>) ms)
      bits.

(** * Properties *)

(** ** Bitwise reasoning *)

Lemma u8_mod (x : Z) : u8 x = x mod 2 ^ 8.
Proof. unfold u8. change 255 with (Z.ones 8). apply Z.land_ones. lia. Qed.

Lemma u16_mod (x : Z) : u16 x = x mod 2 ^ 16.
Proof. unfold u16. change 65535 with (Z.ones 16). apply Z.land_ones. lia. Qed.

Lemma land_255_mod (x : Z) : Z.land x 255 = x mod 2 ^ 8.
Proof. exact (u8_mod x). Qed.

(** Bit [n] of each operator of the CRC; indices may go negative. *)
Lemma testbit_shiftl_any (a k n : Z) :
  0 <= k -> Z.testbit (Z.shiftl a k) n = Z.testbit a (n - k).
Proof.
  intros Hk. destruct (Z.lt_ge_cases n 0) as [Hn | Hn].
  - rewrite !Z.testbit_neg_r by lia. reflexivity.
  - apply Z.shiftl_spec. exact Hn.
Qed.

Lemma testbit_shiftr_any (a k n : Z) :
  0 <= k -> 0 <= n -> Z.testbit (Z.shiftr a k) n = Z.testbit a (n + k).
Proof. intros _ Hn. apply Z.shiftr_spec. exact Hn. Qed.

Ltac bit_rewrite :=
  repeat first
    [ rewrite Z.lxor_spec | rewrite Z.land_spec | rewrite Z.lor_spec
    | rewrite Z.testbit_mod_pow2 by lia
    | rewrite testbit_shiftl_any by lia
    | rewrite testbit_shiftr_any by lia ].

Ltac bit_cases :=
  repeat match goal with
    | |- context [?a <? ?b] => destruct (Z.ltb_spec a b)
    end;
  cbn [andb orb xorb negb];
  repeat match goal with
    | |- context [Z.testbit ?a ?i] => rewrite (Z.testbit_neg_r a i) by lia
    | |- context [Z.testbit (Z.shiftr ?a ?k) ?i] =>
        rewrite (testbit_shiftr_any a k i) by lia
    end;
  rewrite ?orb_false_r, ?orb_false_l, ?xorb_false_r, ?xorb_false_l;
  try reflexivity; try lia; try (f_equal; lia).

Ltac bitblast :=
  apply Z.bits_inj'; intros n Hn; bit_rewrite; bit_cases.

Lemma crcByte_eq (crc b : Z) : crcByte crc b = crc16_update crc b.
Proof.
  unfold crcByte, crc16_update.
  rewrite !u16_mod, !u8_mod, !land_255_mod.
  bitblast.
Qed.

(** ** The CRC-16 check *)

Lemma fold_crcByte_eq (l : list Z) :
  forall crc, fold_left crcByte l crc = fold_left crc16_update l crc.
Proof.
  induction l as [| b l IH]; intros crc; cbn [fold_left].
  - reflexivity.
  - rewrite crcByte_eq. apply IH.
Qed.

Lemma crc16_update_range (crc b : Z) : 0 <= crc16_update crc b < 2 ^ 16.
Proof. unfold crc16_update. apply Z.mod_pos_bound. lia. Qed.

Lemma fold_crc16_range (l : list Z) :
  forall crc, 0 <= crc < 2 ^ 16 -> 0 <= fold_left crc16_update l crc < 2 ^ 16.
Proof.
  induction l as [| b l IH]; intros crc Hc; cbn [fold_left].
  - exact Hc.
  - apply IH, crc16_update_range.
Qed.

Lemma crc16_range (payload : list Z) : 0 <= crc16 payload < 2 ^ 16.
Proof.
  unfold crc16.
  pose proof (fold_crc16_range payload 0xFFFF ltac:(lia)). lia.
Qed.

(** [~crc] kept on 16 bits. *)
Lemma u16_lnot (c : Z) : 0 <= c < 2 ^ 16 -> u16 (Z.lnot c) = 0xFFFF - c.
Proof.
  intros Hc. rewrite u16_mod. unfold Z.lnot.
  replace (Z.pred (- c)) with (0xFFFF - c + (-1) * 2 ^ 16) by lia.
  rewrite Z.mod_add by lia. apply Z.mod_small. lia.
Qed.

(** The two trailer bytes put back together. *)
Lemma trailer_combine (lo hi : Z) :
  u16 (Z.lor (u16 (Z.lor 0 (Z.land lo 255))) (Z.shiftl (Z.land hi 255) 8))
  = Z.lor (lo mod 2 ^ 8) (Z.shiftl (hi mod 2 ^ 8) 8).
Proof.
  rewrite !u16_mod, !land_255_mod, Z.lor_0_l.
  bitblast.
Qed.

Lemma split_16 (c : Z) :
  0 <= c < 2 ^ 16 ->
  Z.lor ((Z.land c 255) mod 2 ^ 8) (Z.shiftl ((Z.shiftr c 8) mod 2 ^ 8) 8) = c.
Proof.
  intros Hc. rewrite land_255_mod.
  transitivity (c mod 2 ^ 16); [| apply Z.mod_small; exact Hc].
  bitblast.
Qed.

Lemma skipn_cons_nth {A : Type} (d : A) (l : list A) :
  forall k : nat, (k < List.length l)%nat -> skipn k l = nth k l d :: skipn (S k) l.
Proof.
  induction l as [| a l IH]; intros k Hk; cbn [List.length] in Hk.
  - lia.
  - destruct k as [| k]; [reflexivity |].
    cbn [skipn nth]. apply IH. lia.
Qed.

(** The loop over the indices is a fold over the bytes it visits. *)
Lemma crcLoop_fold (frame : NfcFrame.t) (n : nat) :
  forall (k : nat) (crc : Z),
    (k + n <= List.length (NfcFrame.bytes frame))%nat ->
    crcLoop frame (Z.of_nat k) n crc
    = fold_left crcByte (firstn n (skipn k (NfcFrame.bytes frame))) crc.
Proof.
  induction n as [| n IH]; intros k crc Hk; cbn [crcLoop].
  - reflexivity.
  - rewrite (skipn_cons_nth 0) by lia. cbn [firstn fold_left].
    replace (Z.of_nat k + 1) with (Z.of_nat (S k)) by lia.
    rewrite IH by lia.
    unfold NfcFrame.get. rewrite Nat2Z.id. reflexivity.
Qed.

(** What [checkCrc] compares on a frame of three bytes or more. *)
Lemma checkCrc_compare (frame : NfcFrame.t) :
  let bs := NfcFrame.bytes frame in
  let n := List.length bs in
  (3 <= n)%nat ->
  checkCrc frame
  = (Z.lor (nth (n - 2) bs 0 mod 2 ^ 8) (Z.shiftl (nth (n - 1) bs 0 mod 2 ^ 8) 8)
     =? crc16 (firstn (n - 2) bs)).
Proof.
  intros bs n Hn. unfold checkCrc, NfcFrame.limit. fold bs. fold n.
  destruct (Z.leb_spec (Z.of_nat n) 2) as [Hle | _]; [lia |].
  replace (Z.to_nat (Z.of_nat n - 2)) with (n - 2)%nat by lia.
  rewrite (crcLoop_fold frame (n - 2) 0) by (fold bs; fold n; lia).
  fold bs. cbn [skipn].
  rewrite fold_crcByte_eq, u16_lnot by (apply fold_crc16_range; lia).
  rewrite trailer_combine. unfold NfcFrame.get. fold bs.
  replace (Z.to_nat (Z.of_nat n - 2)) with (n - 2)%nat by lia.
  replace (Z.to_nat (Z.of_nat n - 1)) with (n - 1)%nat by lia.
  reflexivity.
Qed.

Lemma map_nth_seq {A : Type} (d : A) (l : list A) :
  map (fun k => nth k l d) (seq 0 (List.length l)) = l.
Proof.
  apply (nth_ext _ _ d d).
  - rewrite length_map, length_seq. reflexivity.
  - intros k Hk. rewrite length_map, length_seq in Hk.
    rewrite (nth_indep _ d (nth 0 l d)) by (rewrite length_map, length_seq; exact Hk).
    rewrite (map_nth (fun k => nth k l d)), seq_nth by exact Hk.
    reflexivity.
Qed.

Lemma frame_of_bytes (type : Z) (bs : list Z) : NfcFrame.bytes (frame_of type bs) = bs.
Proof.
  unfold frame_of, NfcFrame.put, NfcFrame.new. cbn.
  rewrite Nat2Z.id.
  rewrite <- (map_nth_seq 0 bs) at 2.
  apply map_ext. intros k. rewrite Nat2Z.id. reflexivity.
Qed.

Lemma is_byte_mod (b : Z) : is_byte b -> b mod 2 ^ 8 = b.
Proof. intros Hb. apply Z.mod_small. exact Hb. Qed.

(** C1 -- as the claim states it, for the empty payload: the frame made
    of the CRC-16 of no byte at all has two bytes and fails the check. *)
Lemma checkCrc_empty_payload_fails :
  checkCrc (frame_of PollFrame (with_crc [])) = false.
Proof. reflexivity. Qed.

(** C1 (amended) -- [checkCrc] on a frame of bytes: with three bytes or
    more it is true exactly when the little-endian trailer equals the
    CRC-16 of section 4.7 over all bytes but the last two; with two bytes
    or fewer it is false; and a non-empty payload followed by its own
    CRC-16, low byte first, passes the check. *)
Theorem checkCrc_spec (frame : NfcFrame.t) (type : Z) (payload : list Z) :
  Forall is_byte (NfcFrame.bytes frame) ->
  payload <> [] ->
  let bs := NfcFrame.bytes frame in
  (3 <= NfcFrame.limit frame ->
   checkCrc frame = (trailer bs =? crc16 (firstn (List.length bs - 2) bs)))
  /\ (NfcFrame.limit frame <= 2 -> checkCrc frame = false)
  /\ checkCrc (frame_of type (with_crc payload)) = true.
Proof.
  intros Hbytes Hpayload bs. split; [| split].
  - intros Hlen. unfold NfcFrame.limit in Hlen. fold bs in Hlen.
    rewrite checkCrc_compare by (fold bs; lia). fold bs. unfold trailer.
    rewrite !is_byte_mod; [reflexivity | |];
      apply (proj1 (Forall_nth is_byte bs) Hbytes); lia.
  - intros Hlen. unfold checkCrc.
    destruct (Z.leb_spec (NfcFrame.limit frame) 2); [reflexivity | lia].
  - assert (Hn : (1 <= List.length payload)%nat).
    { destruct payload; [contradiction | cbn; lia]. }
    rewrite checkCrc_compare; rewrite frame_of_bytes;
      unfold with_crc; rewrite ?length_app; cbn [List.length]; [| lia].
    replace (List.length payload + 2 - 2)%nat with (List.length payload) by lia.
    replace (List.length payload + 2 - 1)%nat with (S (List.length payload)) by lia.
    rewrite firstn_app, Nat.sub_diag, firstn_all, app_nil_r.
    rewrite !app_nth2 by lia.
    rewrite Nat.sub_diag. replace (S (List.length payload) - List.length payload)%nat with 1%nat by lia.
    cbn [nth firstn app]. rewrite split_16 by apply crc16_range.
    apply Z.eqb_refl.
Qed.

(** C1, witness: the REQB of the first scenario of the specification,
    [05 00 00 71 FF], and the payload [05 00 00]. *)
Lemma checkCrc_spec_witness :
  let frame := frame_of PollFrame [0x05; 0x00; 0x00; 0x71; 0xFF] in
  (3 <= NfcFrame.limit frame -> checkCrc frame = true)
  /\ checkCrc (frame_of PollFrame (with_crc [0x05; 0x00; 0x00])) = true.
Proof.
  pose proof (checkCrc_spec (frame_of PollFrame [0x05; 0x00; 0x00; 0x71; 0xFF])
                PollFrame [0x05; 0x00; 0x00]) as H.
  cbv zeta in H. intros frame. subst frame.
  destruct H as (H1 & _ & H3).
  - rewrite frame_of_bytes. repeat constructor; unfold is_byte; lia.
  - discriminate.
  - split; [| exact H3].
    intros Hlen. rewrite (H1 Hlen). reflexivity.
Defined.

(** ** The poll-frame framer *)

Lemma isPatternL_iff (pattern : PatternType) : isPatternL pattern = true <-> pattern = PatternL.
Proof. destruct pattern; cbn; split; congruence. Qed.

Lemma isPatternH_iff (pattern : PatternType) : isPatternH pattern = true <-> pattern = PatternH.
Proof. destruct pattern; cbn; split; congruence. Qed.

(** C3 -- for every symbol handed to the framer: the end of frame is
    raised exactly when [bits = 9], [data = 0] and the symbol is PatternL;
    the stream error exactly when [bits = 0] with PatternH, or [bits = 9]
    with PatternL and [data <> 0]; the truncate error exactly when neither
    holds and [bytes = maxFrameSize]; and the pass goes on to the next bit
    when none is raised. *)
Theorem pollFrame_terminators {P : Platform} (pattern : PatternType) (d : DecoderStatus.t)
  (i : Impl.t) (frames : list NfcFrame.t) :
  let bits := StreamStatus.bits (Impl.streamStatus i) in
  let data := StreamStatus.data (Impl.streamStatus i) in
  let bytes := StreamStatus.bytes (Impl.streamStatus i) in
  let maxFrameSize := ProtocolStatus.maxFrameSize (Impl.protocolStatus i) in
  let endOfFrame := bits = 9 /\ data = 0 /\ pattern = PatternL in
  let streamError :=
    (bits = 0 /\ pattern = PatternH) \/ (bits = 9 /\ pattern = PatternL /\ data <> 0) in
  (frameEndFlag pattern i = true <-> endOfFrame)
  /\ (streamErrorFlag pattern i = true <-> streamError)
  /\ (truncateErrorFlag pattern i = true
      <-> ~ endOfFrame /\ ~ streamError /\ bytes = maxFrameSize)
  /\ (frameEndFlag pattern i || streamErrorFlag pattern i || truncateErrorFlag pattern i
      = false ->
      pollFramePass pattern d i frames = Some (Continue (nextBit i))).
Proof.
  intros bits data bytes maxFrameSize endOfFrame streamError.
  cbv beta zeta delta [frameEndFlag streamErrorFlag truncateErrorFlag pollFramePass].
  fold bits data bytes maxFrameSize.
  subst endOfFrame streamError.
  pose proof (isPatternL_iff pattern) as HL.
  pose proof (isPatternH_iff pattern) as HH.
  destruct (Z.eqb_spec bits 9) as [E9 | N9];
    destruct (Z.eqb_spec bits 0) as [E0 | N0];
    destruct (Z.eqb_spec data 0) as [D0 | DN];
    destruct (Z.eqb_spec bytes maxFrameSize) as [EB | NB];
    destruct (isPatternL pattern) eqn:EL;
    destruct (isPatternH pattern) eqn:EH;
    cbn [andb orb negb];
    try (rewrite E9 in E0; discriminate);
    repeat split; intros;
    try discriminate; try reflexivity; try tauto;
    try (destruct pattern; cbn in *; intuition congruence).
Qed.

(** ** What [process] changes *)

Lemma crcLoop_bytes (f g : NfcFrame.t) (n : nat) :
  NfcFrame.bytes f = NfcFrame.bytes g ->
  forall k crc, crcLoop f k n crc = crcLoop g k n crc.
Proof.
  intros E. induction n as [| n IH]; intros k crc; cbn [crcLoop].
  - reflexivity.
  - unfold NfcFrame.get. rewrite E. apply IH.
Qed.

Lemma checkCrc_bytes (f g : NfcFrame.t) :
  NfcFrame.bytes f = NfcFrame.bytes g -> checkCrc f = checkCrc g.
Proof.
  intros E. unfold checkCrc, NfcFrame.limit, NfcFrame.get.
  rewrite (crcLoop_bytes f g _ E), E. reflexivity.
Qed.

(** The frame after [process], for a poll frame: phase by the classifier,
    flags gathered, everything else as it was. *)
Lemma process_poll_frame {P : Platform} (d : DecoderStatus.t) (i : Impl.t) (frame : NfcFrame.t) :
  NfcFrame.isPollFrame frame = true ->
  let reqb := (NfcFrame.get frame 0 =? NFCA_REQB) && (NfcFrame.limit frame =? 5) in
  let i' := fst (process d i frame) in
  let frame' := snd (process d i frame) in
  NfcFrame.bytes frame' = NfcFrame.bytes frame
  /\ NfcFrame.frameType frame' = NfcFrame.frameType frame
  /\ NfcFrame.sampleEnd frame' = NfcFrame.sampleEnd frame
  /\ NfcFrame.framePhase frame' = (if reqb then SelectionFrame else ApplicationFrame)
  /\ NfcFrame.frameFlags frame'
     = Z.lor (Z.lor (NfcFrame.frameFlags frame)
                    (if negb (checkCrc frame) then CrcError else 0))
             (Impl.chainedFlags i')
  /\ Impl.chainedFlags i' = (if reqb then 0 else Impl.chainedFlags i)
  /\ Impl.streamStatus i' = Impl.streamStatus i
  /\ Impl.symbolStatus i' = Impl.symbolStatus i
  /\ Impl.modulationStatus i' = Impl.modulationStatus i
  /\ ProtocolStatus.maxFrameSize (Impl.protocolStatus i')
     = (if reqb then 256 else ProtocolStatus.maxFrameSize (Impl.protocolStatus i)).
Proof.
  intros Hpoll reqb i' frame'. subst i' frame'.
  assert (Hlisten : NfcFrame.isListenFrame frame = false).
  { unfold NfcFrame.isPollFrame, NfcFrame.isListenFrame in *.
    apply Z.eqb_eq in Hpoll. rewrite Hpoll. reflexivity. }
  unfold process, processREQB, processOther, flagCrc.
  rewrite Hpoll, Hlisten. fold reqb. cbn [andb].
  unfold NfcFrame.isPollFrame in *.
  destruct reqb; cbn;
    rewrite (checkCrc_bytes (NfcFrame.set_framePhase _ frame) frame) by reflexivity;
    repeat split; reflexivity.
Qed.

(** The flag [flag], a single bit, in a mask made of three parts. *)
Lemma land_lor3 (a c ch flag : Z) :
  Z.land a flag = 0 -> Z.land ch flag = 0 ->
  Z.land (Z.lor (Z.lor a c) ch) flag = Z.land c flag.
Proof.
  intros Ha Hch. rewrite !Z.land_lor_distr_l, Ha, Hch.
  rewrite Z.lor_0_l, Z.lor_0_r. reflexivity.
Qed.

(** C5 -- for a poll frame handed to [process] with the CRC flag clear in
    the frame and in the chained flags: a frame of five bytes starting
    with 0x05 records [lastCommand = 0x05], resets [maxFrameSize] to 256,
    sets the frame guard time to [sampleTimeUnit * 128 * 7] and the frame
    waiting time to [sampleTimeUnit * 128 * 18] (converted to the integer
    fields), clears the chained flags, gets phase SelectionFrame and the
    CrcError flag exactly when the CRC check fails; any other poll frame
    gets phase ApplicationFrame and the CrcError flag exactly when the CRC
    check fails. *)
Theorem process_classifies {P : Platform} (d : DecoderStatus.t) (i : Impl.t)
  (frame : NfcFrame.t) :
  NfcFrame.isPollFrame frame = true ->
  Z.land (NfcFrame.frameFlags frame) CrcError = 0 ->
  Z.land (Impl.chainedFlags i) CrcError = 0 ->
  let stu := SignalParams.sampleTimeUnit (DecoderStatus.signalParams d) in
  let i' := fst (process d i frame) in
  let frame' := snd (process d i frame) in
  (NfcFrame.get frame 0 = 0x05 /\ NfcFrame.limit frame = 5 ->
   FrameStatus.lastCommand (Impl.frameStatus i') = 0x05
   /\ ProtocolStatus.maxFrameSize (Impl.protocolStatus i') = 256
   /\ FrameStatus.frameGuardTime (Impl.frameStatus i')
      = Z_of_float (fmulZ (fmulZ stu 128) 7)
   /\ FrameStatus.frameWaitingTime (Impl.frameStatus i')
      = Z_of_float (fmulZ (fmulZ stu 128) 18)
   /\ Impl.chainedFlags i' = 0
   /\ NfcFrame.framePhase frame' = SelectionFrame
   /\ (NfcFrame.hasFrameFlags CrcError frame' = true <-> checkCrc frame = false))
  /\ (~ (NfcFrame.get frame 0 = 0x05 /\ NfcFrame.limit frame = 5) ->
      NfcFrame.framePhase frame' = ApplicationFrame
      /\ (NfcFrame.hasFrameFlags CrcError frame' = true <-> checkCrc frame = false)).
Proof.
  intros Hpoll Hflags Hchained stu i' frame'.
  destruct (process_poll_frame d i frame Hpoll)
    as (_ & _ & _ & Hphase & Hmask & Hch & _ & _ & _ & Hmax).
  fold i' in Hmask, Hch, Hmax. fold frame' in Hphase, Hmask.
  assert (Hcrc : NfcFrame.hasFrameFlags CrcError frame' = true <-> checkCrc frame = false).
  { unfold NfcFrame.hasFrameFlags. rewrite Hmask, land_lor3; trivial.
    - destruct (checkCrc frame); cbn; split; congruence.
    - rewrite Hch. destruct (_ && _); [reflexivity | exact Hchained]. }
  split.
  - intros [H0 H5].
    assert (Hreqb : (NfcFrame.get frame 0 =? NFCA_REQB) && (NfcFrame.limit frame =? 5) = true).
    { rewrite H0, H5. reflexivity. }
    rewrite Hreqb in Hphase, Hch, Hmax.
    repeat split; trivial; try apply Hcrc.
    all: subst i'; unfold process, processREQB, flagCrc; rewrite Hpoll, Hreqb;
      unfold NfcFrame.isPollFrame in *; cbn; rewrite Hpoll;
      destruct (DecoderStatus.bitrate d); cbn; trivial.
  - intros Hnot.
    assert (Hreqb : (NfcFrame.get frame 0 =? NFCA_REQB) && (NfcFrame.limit frame =? 5) = false).
    { apply andb_false_iff.
      destruct (Z.eqb_spec (NfcFrame.get frame 0) NFCA_REQB) as [E0 | N0];
        destruct (Z.eqb_spec (NfcFrame.limit frame) 5) as [E5 | N5]; auto.
      exfalso. apply Hnot. split; assumption. }
    rewrite Hreqb in Hphase. split; [exact Hphase | exact Hcrc].
Qed.

(** The frame that [pollFramePass] hands to [process]. *)
Lemma buildResponse_frame (truncated : bool) (bitrate : BitrateParams.t)
  (d : DecoderStatus.t) (i : Impl.t) :
  let response := buildResponse truncated bitrate d i in
  let ss := Impl.streamStatus i in
  NfcFrame.isPollFrame response = true
  /\ NfcFrame.frameFlags response = (if truncated then Truncated else 0)
  /\ NfcFrame.bytes response
     = map (fun k => StreamStatus.buffer ss (Z.of_nat k))
           (seq 0 (Z.to_nat (StreamStatus.bytes ss)))
  /\ NfcFrame.sampleStart response = FrameStatus.frameStart (Impl.frameStatus i)
  /\ NfcFrame.sampleEnd response = FrameStatus.frameEnd (Impl.frameStatus i).
Proof.
  unfold buildResponse. destruct truncated; cbn; repeat split; reflexivity.
Qed.

(** C4 -- when a terminator fires in a pass of [decodePollFrame], with
    non-null [decoder->bitrate] and [decoder->modulation] and no
    Truncated bit in the chained flags: if at least one byte has been
    accumulated, the pass returns true with exactly one frame appended to
    the list, a poll frame that carries the accumulated bytes and ends at
    the end of the last symbol, flagged Truncated exactly when the
    terminator is the stream error or the truncate error, never for the
    end of frame; if no byte has been accumulated, the pass returns false,
    the list is unchanged and the search is reset: the state is the one
    [resetModulation] leaves, with [decoder->bitrate] and
    [decoder->modulation] null, the frame type, frame start and frame
    end at zero, the stream and the symbol status cleared and, for each
    of the rates 106k, 212k and 424k, the search stage back to BEGIN with
    the search window, the detector peak and the other search values
    cleared. *)
Theorem pollFrame_emission {P : Platform} (pattern : PatternType) (d : DecoderStatus.t)
  (i : Impl.t) (frames : list NfcFrame.t) (b m : RateType) :
  frameEndFlag pattern i || streamErrorFlag pattern i || truncateErrorFlag pattern i = true ->
  DecoderStatus.bitrate d = Some b ->
  DecoderStatus.modulation d = Some m ->
  Z.land (Impl.chainedFlags i) Truncated = 0 ->
  let ss := Impl.streamStatus i in
  (0 < StreamStatus.bytes ss ->
   exists (i' : Impl.t) (response : NfcFrame.t),
     pollFramePass pattern d i frames = Some (Return true d i' (frames ++ [response]))
     /\ NfcFrame.isPollFrame response = true
     /\ NfcFrame.bytes response
        = map (fun k => StreamStatus.buffer ss (Z.of_nat k))
              (seq 0 (Z.to_nat (StreamStatus.bytes ss)))
     /\ NfcFrame.sampleEnd response = SymbolStatus.end_ (Impl.symbolStatus i)
     /\ NfcFrame.hasFrameFlags Truncated response
        = streamErrorFlag pattern i || truncateErrorFlag pattern i
     /\ (frameEndFlag pattern i = true -> NfcFrame.hasFrameFlags Truncated response = false))
  /\ (StreamStatus.bytes ss = 0 ->
      exists (d' : DecoderStatus.t) (i' : Impl.t),
        pollFramePass pattern d i frames = Some (Return false d' i' frames)
        /\ (d', i') = resetModulation d i
        /\ DecoderStatus.bitrate d' = None
        /\ DecoderStatus.modulation d' = None
        /\ FrameStatus.frameType (Impl.frameStatus i') = 0
        /\ FrameStatus.frameStart (Impl.frameStatus i') = 0
        /\ FrameStatus.frameEnd (Impl.frameStatus i') = 0
        /\ Impl.streamStatus i' = StreamStatus.zero
        /\ Impl.symbolStatus i' = SymbolStatus.zero
        /\ stageOf i' = SOF_BEGIN
        /\ (forall rate : RateType,
              rate <> r848k ->
              let m' := Impl.modulationStatus i' rate in
              ModulationStatus.searchStage m' = SOF_BEGIN
              /\ ModulationStatus.searchStartTime m' = 0
              /\ ModulationStatus.searchEndTime m' = 0
              /\ ModulationStatus.detectorPeek m' = fzero
              /\ rateReset (Impl.modulationStatus i rate) m')).
Proof.
  intros Hterm Hb Hm Hchained ss. unfold pollFramePass. rewrite Hterm, Hb, Hm.
  fold ss. split.
  - intros Hbytes.
    destruct (Z.gtb_spec (StreamStatus.bytes ss) 0) as [_ | Hle]; [| lia].
    match goal with
    | |- context [process d ?j ?r] =>
        set (cleared := j); set (built := r);
        destruct (process d cleared built) as [i' response] eqn:Eprocess
    end.
    exists i', response.
    match goal with
    | built := buildResponse ?t ?br ?dd ?ii |- _ =>
        destruct (buildResponse_frame t br dd ii) as (Bpoll & Bflags & Bbytes & _ & Bend)
    end.
    fold built in Bpoll, Bflags, Bbytes, Bend.
    destruct (process_poll_frame d cleared built Bpoll)
      as (Pbytes & Ptype & Pend & _ & Pmask & Pch & _).
    rewrite Eprocess in Pbytes, Ptype, Pend, Pmask, Pch. cbn [fst snd] in *.
    assert (Htrunc : NfcFrame.hasFrameFlags Truncated response
                     = streamErrorFlag pattern i || truncateErrorFlag pattern i).
    { unfold NfcFrame.hasFrameFlags.
      rewrite Pmask, Z.land_lor_distr_l, Z.land_lor_distr_l.
      replace (Z.land (Impl.chainedFlags i') Truncated) with 0
        by (rewrite Pch; destruct (_ && _); [reflexivity | symmetry; exact Hchained]).
      rewrite Bflags, orb_comm.
      destruct (streamErrorFlag pattern i || truncateErrorFlag pattern i);
        destruct (checkCrc built); reflexivity. }
    repeat split.
    + unfold NfcFrame.isPollFrame in *. rewrite Ptype. exact Bpoll.
    + rewrite Pbytes. exact Bbytes.
    + rewrite Pend. exact Bend.
    + exact Htrunc.
    + intros Hend. rewrite Htrunc.
      unfold streamErrorFlag, truncateErrorFlag. rewrite Hend. reflexivity.
  - intros Hzero. rewrite Hzero. cbn [Z.gtb Z.compare].
    exists (fst (resetModulation d i)), (snd (resetModulation d i)).
    split; [destruct (resetModulation d i); reflexivity |].
    split; [destruct (resetModulation d i); reflexivity |].
    do 8 (split; [reflexivity |]).
    intros rate Hrate.
    destruct rate; [| | | contradiction Hrate; reflexivity];
      unfold rateReset; cbn; repeat split; reflexivity.
Qed.

(** ** The invariant of the framer *)

Lemma resetModulation_stream (d : DecoderStatus.t) (i : Impl.t) :
  Impl.streamStatus (snd (resetModulation d i)) = StreamStatus.zero
  /\ Impl.protocolStatus (snd (resetModulation d i)) = Impl.protocolStatus i.
Proof. split; reflexivity. Qed.

(** [configure] ends normally, with the stream cleared and the defaults of
    the protocol set. *)
Lemma configure_post {P : Platform} (sampleRate : Z) (d : DecoderStatus.t) (i : Impl.t) :
  match configure sampleRate d i with
  | Done (d', i') =>
      Impl.streamStatus i' = StreamStatus.zero
      /\ Impl.symbolStatus i' = SymbolStatus.zero
      /\ ProtocolStatus.maxFrameSize (Impl.protocolStatus i') = 256
      /\ Impl.lastFrameEnd i' = 0
      /\ Impl.chainedFlags i' = 0
      /\ FrameStatus.frameType (Impl.frameStatus i') = 0
      /\ FrameStatus.frameGuardTime (Impl.frameStatus i')
         = ProtocolStatus.frameGuardTime (Impl.protocolStatus i')
      /\ FrameStatus.frameWaitingTime (Impl.frameStatus i')
         = ProtocolStatus.frameWaitingTime (Impl.protocolStatus i')
      /\ DecoderStatus.sampleRate d' = DecoderStatus.sampleRate d
      /\ DecoderStatus.bitrate d' = DecoderStatus.bitrate d
      /\ DecoderStatus.modulation d' = DecoderStatus.modulation d
  | ConfigError => False
  end.
Proof. unfold configure. cbv zeta. repeat split; reflexivity. Qed.

Lemma configure_framerInvariant {P : Platform} (sampleRate : Z) (d d' : DecoderStatus.t)
  (i i' : Impl.t) :
  configure sampleRate d i = Done (d', i') -> framerInvariant i'.
Proof.
  intros E. pose proof (configure_post sampleRate d i) as Hpost.
  rewrite E in Hpost. destruct Hpost as (Ps & _ & Pm & _).
  unfold framerInvariant. rewrite Ps, Pm. cbn. lia.
Qed.

Lemma nextBit_invariant (pattern : PatternType) (i : Impl.t) :
  framerInvariant i ->
  frameEndFlag pattern i || streamErrorFlag pattern i || truncateErrorFlag pattern i = false ->
  framerInvariant (nextBit i).
Proof.
  unfold framerInvariant. intros [Hbits Hbytes] Hnone.
  apply orb_false_iff in Hnone as [Hnone Htrunc].
  apply orb_false_iff in Hnone as [Hend Hstream].
  unfold truncateErrorFlag, streamErrorFlag in *. rewrite Hend in *.
  rewrite Hstream in Htrunc.
  unfold nextBit.
  destruct (Z.ltb_spec (StreamStatus.bits (Impl.streamStatus i)) 9) as [Hlt | Hge].
  - destruct (StreamStatus.bits (Impl.streamStatus i) >? 0); cbn; lia.
  - apply Z.eqb_neq in Htrunc. cbn. lia.
Qed.

Lemma pollFramePass_invariant {P : Platform} (pattern : PatternType) (d : DecoderStatus.t)
  (i : Impl.t) (frames : list NfcFrame.t) :
  framerInvariant i ->
  match pollFramePass pattern d i frames with
  | Some (Return _ _ i' _) | Some (Continue i') => framerInvariant i'
  | None => True
  end.
Proof.
  intros Hinv. unfold pollFramePass.
  destruct (frameEndFlag pattern i || streamErrorFlag pattern i
            || truncateErrorFlag pattern i) eqn:Hterm.
  - destruct (StreamStatus.bytes (Impl.streamStatus i) >? 0).
    + destruct (DecoderStatus.bitrate d) as [b |]; [| exact I].
      destruct (DecoderStatus.modulation d) as [m |]; [| exact I].
      match goal with
      | |- context [process d ?j ?r] =>
          pose proof (buildResponse_frame
                        (truncateErrorFlag pattern i || streamErrorFlag pattern i)
                        (Impl.bitrateParams i b) d
                        (i <| Impl.frameStatus :=
                                (Impl.frameStatus i)
                                  <| FrameStatus.frameEnd :=
                                       SymbolStatus.end_ (Impl.symbolStatus i) |> |>))
            as (Bpoll & _);
          destruct (process_poll_frame d j r Bpoll)
            as (_ & _ & _ & _ & _ & _ & Pstream & _ & _ & Pmax);
          destruct (process d j r) as [i' response]
      end.
      cbn [fst snd] in *. unfold framerInvariant in *.
      rewrite Pstream, Pmax. cbn.
      destruct (_ && _); lia.
    + destruct (resetModulation_stream d i) as [Rs Rp].
      destruct (resetModulation d i) as [d' i']. cbn [snd] in *.
      unfold framerInvariant in *. rewrite Rs, Rp. cbn. lia.
  - apply (nextBit_invariant pattern); assumption.
Qed.

Lemma Some_pair_inj {A B : Type} (a a' : A) (b b' : B) :
  Some (a, b) = Some (a', b') -> a = a' /\ b = b'.
Proof. intros E. injection E as -> ->. auto. Qed.

Lemma Some_triple_inj {A B C : Type} (a a' : A) (b b' : B) (c c' : C) :
  Some (a, b, c) = Some (a', b', c') -> a = a' /\ b = b' /\ c = c'.
Proof. intros E. injection E as -> -> ->. auto. Qed.

(** The loop of the symbol decoder reads the buffer through [nextSample]. *)
Lemma symbolLoop_nextSample {P : Platform} (b m : option RateType) (buffer : list float)
  (d : DecoderStatus.t) (i : Impl.t) :
  symbolLoop b m buffer d i
  = match nextSample d buffer with
    | None => Some (buffer, d, i)
    | Some (d', rest) =>
        match symbolSample b m d' i with
        | Some (true, i') => Some (rest, d', i')
        | Some (false, i') => symbolLoop b m rest d' i'
        | None => None
        end
    end.
Proof. destruct buffer; reflexivity. Qed.

(** One sample of the symbol decoder leaves the stream and the protocol
    parameters, and the symbol status too unless it ends the symbol. *)
Lemma symbolSample_stream {P : Platform} (b m : option RateType)
  (d : DecoderStatus.t) (i i' : Impl.t) (found : bool) :
  symbolSample b m d i = Some (found, i') ->
  Impl.streamStatus i' = Impl.streamStatus i
  /\ Impl.protocolStatus i' = Impl.protocolStatus i
  /\ (found = false -> Impl.symbolStatus i' = Impl.symbolStatus i).
Proof.
  unfold symbolSample.
  destruct b as [rb |]; [| discriminate].
  destruct m as [rm |]; [| discriminate].
  destruct (DecoderStatus.bitrate d) as [rb' |]; [| discriminate].
  destruct (integrateSample _ _ _) as [modulation signalData].
  match goal with
  | |- (if ?c then _ else _) = _ -> _ => destruct c
  end; intros E; apply Some_pair_inj in E as [<- <-]; cbn;
    repeat split; intros; try reflexivity; discriminate.
Qed.

(** The symbol decoder leaves the stream and the protocol parameters; a
    symbol comes with at least one sample consumed. *)
Lemma symbolLoop_stream {P : Platform} (b m : option RateType) (buffer : list float) :
  forall (d : DecoderStatus.t) (i : Impl.t) buffer' d' i',
    symbolLoop b m buffer d i = Some (buffer', d', i') ->
    Impl.streamStatus i' = Impl.streamStatus i
    /\ Impl.protocolStatus i' = Impl.protocolStatus i
    /\ (Impl.symbolStatus i' = Impl.symbolStatus i
        \/ (List.length buffer' < List.length buffer)%nat).
Proof.
  induction buffer as [| s buffer IH]; intros d i buffer' d' i' E; cbn [symbolLoop] in E.
  - apply Some_triple_inj in E as (<- & <- & <-). auto.
  - destruct (symbolSample b m (takeSample s d) i) as [[[|] i1] |] eqn:Esample;
      [| | discriminate].
    + apply Some_triple_inj in E as (<- & <- & <-).
      apply symbolSample_stream in Esample as (Es & Ep & _).
      cbn [List.length]. repeat split; auto.
    + apply symbolSample_stream in Esample as (Es & Ep & Ey).
      apply IH in E as (Es' & Ep' & Ey').
      rewrite Es', Ep'. repeat split; trivial.
      destruct Ey' as [Ey' | Ey']; [left | right; cbn [List.length]; lia].
      rewrite Ey'. auto.
Qed.

Lemma decodePollFrameLoop_invariant {P : Platform} (fuel : nat) :
  forall buffer d i frames,
    framerInvariant i ->
    match decodePollFrameLoop fuel buffer d i frames with
    | Some (_, _, _, i', _) => framerInvariant i'
    | None => True
    end.
Proof.
  induction fuel as [| fuel IH]; intros buffer d i frames Hinv; cbn [decodePollFrameLoop].
  - exact Hinv.
  - unfold decodePollFrameSymbolAsk.
    destruct (symbolLoop _ _ buffer d _) as [[[buffer' d'] i'] |] eqn:E; [| exact I].
    apply symbolLoop_stream in E. cbn in E. destruct E as (Es & Ep & _).
    assert (Hinv' : framerInvariant i').
    { unfold framerInvariant in *. rewrite Es, Ep. exact Hinv. }
    destruct (_ >? _); [| exact Hinv'].
    pose proof (pollFramePass_invariant
                  (SymbolStatus.pattern (Impl.symbolStatus i')) d' i' frames Hinv') as Hpass.
    destruct (pollFramePass _ d' i' frames) as [[result d'' i'' frames' | i''] |];
      [exact Hpass | | exact I].
    apply IH. exact Hpass.
Qed.

(** C8 -- the framer keeps [bits] in [0, 9] and [bytes] at most
    [maxFrameSize]: if it holds before a pass of the loop it holds after
    it, however the pass ends, and a byte is stored only while [bytes] is
    below [maxFrameSize]; so it holds after [decodePollFrame] as well. *)
Theorem framer_bounds {P : Platform} (pattern : PatternType) (buffer : list float)
  (d : DecoderStatus.t) (i : Impl.t) (frames : list NfcFrame.t) :
  framerInvariant i ->
  match pollFramePass pattern d i frames with
  | Some (Return _ _ i' _) => framerInvariant i'
  | Some (Continue i') =>
      framerInvariant i'
      /\ (StreamStatus.bytes (Impl.streamStatus i') <> StreamStatus.bytes (Impl.streamStatus i) ->
          StreamStatus.bytes (Impl.streamStatus i)
          < ProtocolStatus.maxFrameSize (Impl.protocolStatus i))
  | None => True
  end
  /\ match decodePollFrame buffer d i frames with
     | Some (_, _, _, i', _) => framerInvariant i'
     | None => True
     end.
Proof.
  intros Hinv. split.
  - pose proof (pollFramePass_invariant pattern d i frames Hinv) as Hpass.
    destruct (pollFramePass pattern d i frames) as [[result d' i' frames' | i'] |] eqn:E;
      trivial.
    split; [exact Hpass |].
    intros Hstored.
    unfold pollFramePass in E.
    destruct (frameEndFlag pattern i || streamErrorFlag pattern i
              || truncateErrorFlag pattern i) eqn:Hterm.
    + destruct (_ >? _); [| destruct (resetModulation d i); discriminate].
      destruct (DecoderStatus.bitrate d); [| discriminate].
      destruct (DecoderStatus.modulation d); [| discriminate].
      destruct (process _ _ _). discriminate.
    + injection E as <-.
      apply orb_false_iff in Hterm as [Hterm Htrunc].
      apply orb_false_iff in Hterm as [Hend Hstream].
      unfold truncateErrorFlag, streamErrorFlag in *. rewrite Hend in *.
      rewrite Hstream in Htrunc. apply Z.eqb_neq in Htrunc.
      destruct Hinv as [_ Hbytes]. lia.
  - apply decodePollFrameLoop_invariant. exact Hinv.
Qed.

(** ** The loop of [decodePollFrame] *)

(** A symbol returned to the framer has consumed a sample. *)
Lemma decodePollFrameSymbolAsk_progress {P : Platform} (buffer buffer' : list float)
  (d d' : DecoderStatus.t) (i i' : Impl.t) (pattern : PatternType) :
  decodePollFrameSymbolAsk buffer d i = Some (pattern, buffer', d', i') ->
  (PatternType_code pattern >? PatternType_code NoPattern) = true ->
  (List.length buffer' < List.length buffer)%nat.
Proof.
  unfold decodePollFrameSymbolAsk. intros E Hpattern.
  destruct (symbolLoop _ _ buffer d _) as [[[buffer1 d1] i1] |] eqn:Eloop; [| discriminate].
  apply symbolLoop_stream in Eloop as (_ & _ & [Esame | Hlt]).
  - exfalso.
    assert (Epattern : pattern = SymbolStatus.pattern (Impl.symbolStatus i1)).
    { apply (f_equal (fun o => match o with
                               | Some (p, _, _, _) => p
                               | None => pattern
                               end)) in E.
      symmetry. exact E. }
    rewrite Esame in Epattern. cbn in Epattern. subst pattern. discriminate Hpattern.
  - assert (Ebuffer : buffer1 = buffer').
    { apply (f_equal (fun o => match o with
                               | Some (_, b, _, _) => b
                               | None => buffer'
                               end)) in E.
      exact E. }
    subst buffer1. exact Hlt.
Qed.

(** More passes than samples: the result no longer depends on the fuel. *)
Lemma decodePollFrameLoop_fuel {P : Platform} (fuel : nat) :
  forall (fuel' : nat) buffer d i frames,
    (List.length buffer < fuel)%nat ->
    (List.length buffer < fuel')%nat ->
    decodePollFrameLoop fuel buffer d i frames
    = decodePollFrameLoop fuel' buffer d i frames.
Proof.
  induction fuel as [| fuel IH]; intros fuel' buffer d i frames Hfuel Hfuel'; [lia |].
  destruct fuel' as [| fuel']; [lia |].
  cbn [decodePollFrameLoop].
  destruct (decodePollFrameSymbolAsk buffer d i) as [[[[pattern buffer'] d'] i'] |] eqn:E;
    [| reflexivity].
  destruct (PatternType_code pattern >? PatternType_code NoPattern) eqn:Hpattern;
    [| reflexivity].
  pose proof (decodePollFrameSymbolAsk_progress _ _ _ _ _ _ _ E Hpattern) as Hlt.
  destruct (pollFramePass pattern d' i' frames) as [[result d'' i'' frames' | i''] |];
    try reflexivity.
  apply IH; lia.
Qed.

(** [decodePollFrame] returns true with one frame appended, or false with
    the list as it was. *)
Lemma decodePollFrameLoop_frames {P : Platform} (fuel : nat) :
  forall buffer d i frames,
    match decodePollFrameLoop fuel buffer d i frames with
    | Some (result, _, _, _, frames') =>
        (result = true /\ exists frame, frames' = frames ++ [frame])
        \/ (result = false /\ frames' = frames)
    | None => True
    end.
Proof.
  induction fuel as [| fuel IH]; intros buffer d i frames; cbn [decodePollFrameLoop].
  - right. auto.
  - destruct (decodePollFrameSymbolAsk buffer d i) as [[[[pattern buffer'] d'] i'] |];
      [| exact I].
    destruct (_ >? _); [| right; auto].
    destruct (pollFramePass pattern d' i' frames)
      as [[result d'' i'' frames' | i''] |] eqn:Epass; [| apply IH | exact I].
    unfold pollFramePass in Epass.
    destruct (_ || _ || _); [| discriminate].
    destruct (_ >? _).
    + destruct (DecoderStatus.bitrate d'); [| discriminate].
      destruct (DecoderStatus.modulation d'); [| discriminate].
      destruct (process _ _ _) as [i1 response].
      left.
      assert (Er : result = true /\ frames' = frames ++ [response]).
      { apply (f_equal (fun o => match o with
                                 | Some (Return r _ _ f) => (r, f)
                                 | _ => (result, frames')
                                 end)) in Epass.
        split; [exact (eq_sym (f_equal fst Epass)) | exact (eq_sym (f_equal snd Epass))]. }
      destruct Er as [-> ->]. eauto.
    + destruct (resetModulation d' i') as [d1 i1].
      right.
      apply (f_equal (fun o => match o with
                               | Some (Return r _ _ f) => (r, f)
                               | _ => (result, frames')
                               end)) in Epass.
      split; [exact (eq_sym (f_equal fst Epass)) | exact (eq_sym (f_equal snd Epass))].
Qed.

(** ** The start-of-frame detector *)

(** The integrators leave the search and symbol fields alone. *)
Lemma integrateSample_search {P : Platform} (d : DecoderStatus.t) (bitrate : BitrateParams.t)
  (m : ModulationStatus.t) :
  let m' := fst (integrateSample d bitrate m) in
  ModulationStatus.searchStage m' = ModulationStatus.searchStage m
  /\ ModulationStatus.searchStartTime m' = ModulationStatus.searchStartTime m
  /\ ModulationStatus.searchEndTime m' = ModulationStatus.searchEndTime m
  /\ ModulationStatus.searchPeakTime m' = ModulationStatus.searchPeakTime m
  /\ ModulationStatus.detectorPeek m' = ModulationStatus.detectorPeek m
  /\ ModulationStatus.symbolStartTime m' = ModulationStatus.symbolStartTime m
  /\ ModulationStatus.symbolEndTime m' = ModulationStatus.symbolEndTime m.
Proof. unfold integrateSample. cbv zeta. repeat split; reflexivity. Qed.

Lemma upd_same {A : Type} (a : RateType -> A) (r : RateType) (v : A) : upd a r v r = v.
Proof. unfold upd. destruct r; reflexivity. Qed.

Ltac case_if :=
  match goal with
  | |- context [if ?c then _ else _] => destruct c eqn:?
  end.

(** C10 -- a call of [detectModulation] that returns true leaves
    [frameType = PollFrame] and both [decoder->bitrate] and
    [decoder->modulation] on the entries of rate 106k; a call that returns
    false leaves the two pointers as they were. *)
Theorem detect_selection {P : Platform} (d : DecoderStatus.t) (i : Impl.t) :
  let result := detectModulation d i in
  let detected := fst (fst result) in
  let d' := snd (fst result) in
  let i' := snd result in
  (detected = true ->
   FrameStatus.frameType (Impl.frameStatus i') = PollFrame
   /\ DecoderStatus.bitrate d' = Some r106k
   /\ DecoderStatus.modulation d' = Some r106k)
  /\ (detected = false ->
      DecoderStatus.bitrate d' = DecoderStatus.bitrate d
      /\ DecoderStatus.modulation d' = DecoderStatus.modulation d).
Proof.
  cbv zeta. unfold detectModulation.
  destruct (integrateSample d _ _) as [modulation signalData].
  repeat case_if; try destruct (sofConfirm _ _ _) as [confirmed fs] eqn:Econfirm;
    cbn [fst snd]; split; intros E; try discriminate E; try (split; reflexivity).
  unfold sofConfirm in Econfirm.
  apply (f_equal snd) in Econfirm. cbn [snd] in Econfirm. subst fs.
  repeat split; reflexivity.
Qed.

(** A detection is reported from the stage END only. *)
Lemma detect_needs_end {P : Platform} (d : DecoderStatus.t) (i : Impl.t) :
  fst (fst (detectModulation d i)) = true -> stageOf i = SOF_END.
Proof.
  unfold detectModulation, stageOf.
  destruct (integrateSample_search d (Impl.bitrateParams i r106k)
              (Impl.modulationStatus i r106k)) as (Hstage & _).
  destruct (integrateSample d _ _) as [modulation signalData]. cbn [fst] in Hstage.
  rewrite <- Hstage.
  repeat case_if; try destruct (sofConfirm _ _ _) as [confirmed fs];
    cbn [fst snd]; intros E; try discriminate E.
  apply Z.eqb_eq. assumption.
Qed.

(** From BEGIN a call leads to BEGIN or to IDLE. *)
Lemma detect_from_begin {P : Platform} (d : DecoderStatus.t) (i : Impl.t) :
  stageOf i = SOF_BEGIN ->
  stageOf (snd (detectModulation d i)) = SOF_BEGIN
  \/ stageOf (snd (detectModulation d i)) = SOF_IDLE.
Proof.
  unfold detectModulation, stageOf. intros Hbegin.
  destruct (integrateSample_search d (Impl.bitrateParams i r106k)
              (Impl.modulationStatus i r106k)) as (Hstage & _).
  destruct (integrateSample d _ _) as [modulation signalData]. cbn [fst] in Hstage.
  rewrite Hbegin in Hstage.
  destruct (fgt (SignalStatus.powerAverage _) _); [| left; exact Hbegin].
  destruct (fgt (deepValue _ _) _).
  - left. cbn [snd]. cbn. reflexivity.
  - rewrite Hstage. cbn [Z.eqb SOF_BEGIN snd]. cbn [Impl.modulationStatus set Impl.set_modulationStatus].
    rewrite upd_same.
    unfold sofBeginClose, sofBeginPeak, sofPeak.
    repeat case_if; cbn; auto.
Qed.








(** C6 -- the windows of the start-of-frame machine, on a sample that
    passes the power gate and does not overshoot. In BEGIN, when the
    clock reaches [searchEndTime] with a recorded peak [p]:
    [symbolStartTime = p - period8], the stage is IDLE and the window is
    [p + 10 period1 - period2, p + 11 period1 + period2]. In END, inside
    the window, when the clock reaches [searchEndTime] with a recorded
    peak [q]: [symbolEndTime = q - period8], [symbolSyncTime = 0], the
    frame status announces a poll frame at the symbol rate of the
    bitrate, starting at [symbolStartTime - symbolDelayDetect] with
    [frameEnd = 0], the bitrate and the modulation are selected and the
    call returns true. With no recorded peak either window leaves the
    machine in BEGIN and the call returns false. Sums and differences
    are taken in the integer type of the sample clock. *)
Theorem sof_window_close {P : Platform} (d : DecoderStatus.t) (i : Impl.t) :
  let bitrate := Impl.bitrateParams i r106k in
  let period1 := BitrateParams.period1SymbolSamples bitrate in
  let period2 := BitrateParams.period2SymbolSamples bitrate in
  let period8 := BitrateParams.period8SymbolSamples bitrate in
  let clock := DecoderStatus.signalClock d in
  let minimum := Impl.minimumModulationThreshold i in
  let sample := integrateSample d bitrate (Impl.modulationStatus i r106k) in
  let modulation := fst sample in
  let edge := edgeValue bitrate bitrate modulation in
  let depth := deepValue d (snd sample) in
  let result := detectModulation d i in
  let detected := fst (fst result) in
  let d' := snd (fst result) in
  let m' := Impl.modulationStatus (snd result) r106k in
  let fs' := Impl.frameStatus (snd result) in
  fgt (SignalStatus.powerAverage (DecoderStatus.signalStatus d))
      (DecoderStatus.powerLevelThreshold d) = true ->
  fgt depth (Impl.maximumModulationThreshold i) = false ->
  (stageOf i = SOF_BEGIN ->
   let tracked := sofBeginPeak clock minimum bitrate edge depth modulation in
   let p := ModulationStatus.searchPeakTime tracked in
   clock = ModulationStatus.searchEndTime tracked ->
   (p <> 0 ->
    detected = false
    /\ ModulationStatus.symbolStartTime m' = uint (p - period8)
    /\ ModulationStatus.searchStage m' = SOF_IDLE
    /\ ModulationStatus.searchStartTime m' = uint (p + 10 * period1 - period2)
    /\ ModulationStatus.searchEndTime m' = uint (p + 11 * period1 + period2))
   /\ (p = 0 ->
       detected = false
       /\ ModulationStatus.searchStage m' = SOF_BEGIN
       /\ ModulationStatus.searchStartTime m' = 0
       /\ ModulationStatus.searchEndTime m' = 0))
  /\ (stageOf i = SOF_END ->
      inSearchWindow clock modulation = true ->
      let tracked := sofEndPeak clock minimum bitrate edge depth modulation in
      let q := ModulationStatus.searchPeakTime tracked in
      clock = ModulationStatus.searchEndTime tracked ->
      (q <> 0 ->
       detected = true
       /\ ModulationStatus.symbolEndTime m' = uint (q - period8)
       /\ ModulationStatus.symbolSyncTime m' = 0
       /\ FrameStatus.frameType fs' = PollFrame
       /\ FrameStatus.symbolRate fs' = BitrateParams.symbolsPerSecond bitrate
       /\ FrameStatus.frameStart fs'
          = uint (ModulationStatus.symbolStartTime (Impl.modulationStatus i r106k)
                  - BitrateParams.symbolDelayDetect bitrate)
       /\ FrameStatus.frameEnd fs' = 0
       /\ DecoderStatus.bitrate d' = Some r106k
       /\ DecoderStatus.modulation d' = Some r106k)
      /\ (q = 0 ->
          detected = false
          /\ ModulationStatus.searchStage m' = SOF_BEGIN
          /\ DecoderStatus.bitrate d' = DecoderStatus.bitrate d
          /\ DecoderStatus.modulation d' = DecoderStatus.modulation d)).
Proof.
  intros bitrate period1 period2 period8 clock minimum sample modulation edge depth
    result detected d' m' fs' Hpower Hdepth.
  destruct (integrateSample_search d bitrate (Impl.modulationStatus i r106k))
    as (Hstage & _ & _ & _ & _ & Hstart & _).
  fold sample in Hstage, Hstart. fold modulation in Hstage, Hstart.
  subst detected d' m' fs' result. unfold detectModulation, stageOf.
  rewrite Hpower. fold bitrate clock minimum sample.
  unfold depth, edge, modulation in *. clear depth edge modulation.
  destruct sample as [modulation signalData]. cbn [fst snd] in *.
  rewrite Hdepth, Hstage.
  split.
  - intros Hbegin. rewrite Hbegin. cbn [Z.eqb SOF_BEGIN].
    intros Hclose.
    set (tracked := sofBeginPeak _ _ _ _ _ _) in *.
    set (p := ModulationStatus.searchPeakTime tracked) in *.
    cbn [fst snd Impl.modulationStatus set Impl.set_modulationStatus].
    rewrite upd_same. unfold sofBeginClose.
    rewrite <- Hclose, Z.eqb_refl. fold p.
    split; intros Hp.
    + apply Z.eqb_neq in Hp. rewrite Hp. cbn. auto.
    + rewrite Hp. cbn.
      assert (Htracked : ModulationStatus.searchStage tracked
                         = ModulationStatus.searchStage modulation).
      { subst p tracked. unfold sofBeginPeak, sofPeak. case_if; reflexivity. }
      rewrite Htracked, Hstage, Hbegin. auto.
  - intros Hend Hwindow. rewrite Hend. cbn [Z.eqb Pos.eqb SOF_BEGIN SOF_IDLE SOF_END].
    rewrite Hwindow. intros Hclose.
    set (tracked := sofEndPeak _ _ _ _ _ _) in *.
    set (q := ModulationStatus.searchPeakTime tracked) in *.
    rewrite <- Hclose, Z.eqb_refl.
    split; intros Hq.
    + apply Z.eqb_neq in Hq. rewrite Hq. cbn [negb].
      unfold sofConfirm. cbv zeta.
      cbn [fst snd Impl.modulationStatus Impl.frameStatus set
           Impl.set_modulationStatus Impl.set_frameStatus].
      rewrite upd_same. cbn. fold q.
      assert (Htracked : ModulationStatus.symbolStartTime tracked
                         = ModulationStatus.symbolStartTime modulation).
      { subst tracked. unfold sofEndPeak, sofPeak. case_if; reflexivity. }
      rewrite Htracked, Hstart. repeat split; reflexivity.
    + rewrite Hq. cbn [negb Z.eqb].
      cbn. auto.
Qed.

Lemma resetModulation_framerInvariant (d : DecoderStatus.t) (i : Impl.t) :
  0 <= ProtocolStatus.maxFrameSize (Impl.protocolStatus i) ->
  framerInvariant (snd (resetModulation d i)).
Proof.
  intros Hmax. destruct (resetModulation_stream d i) as [Rs Rp].
  unfold framerInvariant. rewrite Rs, Rp. cbn. lia.
Qed.

(** ** The chained flags

    Nothing but 0 is ever assigned to [chainedFlags]: once zero, it stays
    zero through the classifier, the framer, the detector and the reset. *)

Lemma process_chainedFlags {P : Platform} (d : DecoderStatus.t) (i : Impl.t)
  (frame : NfcFrame.t) :
  Impl.chainedFlags i = 0 -> Impl.chainedFlags (fst (process d i frame)) = 0.
Proof.
  intros Hzero. unfold process, processREQB.
  destruct (NfcFrame.isPollFrame frame); cbn [andb];
    repeat case_if; cbn; exact Hzero || reflexivity.
Qed.

Lemma pollFramePass_chainedFlags {P : Platform} (pattern : PatternType)
  (d : DecoderStatus.t) (i : Impl.t) (frames : list NfcFrame.t) :
  Impl.chainedFlags i = 0 ->
  match pollFramePass pattern d i frames with
  | Some (Return _ _ i' _) | Some (Continue i') => Impl.chainedFlags i' = 0
  | None => True
  end.
Proof.
  intros Hzero. unfold pollFramePass.
  destruct (_ || _ || _); [| exact Hzero].
  destruct (_ >? _); [| exact Hzero].
  destruct (DecoderStatus.bitrate d); [| exact I].
  destruct (DecoderStatus.modulation d); [| exact I].
  match goal with
  | |- context [process d ?j ?r] =>
      pose proof (process_chainedFlags d j r Hzero) as Hprocess;
      destruct (process d j r) as [i' response]
  end.
  exact Hprocess.
Qed.

Lemma detectModulation_chainedFlags {P : Platform} (d : DecoderStatus.t) (i : Impl.t) :
  Impl.chainedFlags (snd (detectModulation d i)) = Impl.chainedFlags i.
Proof.
  unfold detectModulation.
  destruct (integrateSample d _ _) as [modulation signalData].
  repeat case_if; try destruct (sofConfirm _ _ _); reflexivity.
Qed.

(** The frame that a pass emits meets what the classifier asks of its
    input: a poll frame with no CrcError flag yet. With chained flags at
    zero it comes out in the phase of its kind, flagged CrcError exactly
    when its CRC fails. *)
Lemma emitted_frame_classified {P : Platform} (pattern : PatternType)
  (d : DecoderStatus.t) (i i' : Impl.t) (frames : list NfcFrame.t)
  (response : NfcFrame.t) :
  Impl.chainedFlags i = 0 ->
  pollFramePass pattern d i frames = Some (Return true d i' (frames ++ [response])) ->
  NfcFrame.framePhase response
  = (if (NfcFrame.get response 0 =? NFCA_REQB) && (NfcFrame.limit response =? 5)
     then SelectionFrame else ApplicationFrame)
  /\ (NfcFrame.hasFrameFlags CrcError response = true <-> checkCrc response = false).
Proof.
  intros Hzero. unfold pollFramePass.
  destruct (_ || _ || _); [| discriminate].
  destruct (_ >? _); [| destruct (resetModulation d i); discriminate].
  destruct (DecoderStatus.bitrate d) as [b |]; [| discriminate].
  destruct (DecoderStatus.modulation d) as [m |]; [| discriminate].
  match goal with
  | |- context [process d ?j ?r] => set (cleared := j); set (built := r)
  end.
  match goal with
  | built := buildResponse ?t ?br ?dd ?ii |- _ =>
      destruct (buildResponse_frame t br dd ii) as (Bpoll & Bflags & _)
  end.
  fold built in Bpoll, Bflags.
  destruct (process_poll_frame d cleared built Bpoll)
    as (Pbytes & _ & _ & Pphase & Pmask & Pch & _).
  destruct (process d cleared built) as [i1 response1]. cbn [fst snd] in *.
  intros E.
  assert (Eresponse : response1 = response).
  { apply (f_equal (fun o => match o with
                             | Some (Return _ _ _ f) => last f response
                             | _ => response
                             end)) in E.
    rewrite !last_last in E. exact E. }
  subst response1.
  assert (Hget : NfcFrame.get response 0 = NfcFrame.get built 0)
    by (unfold NfcFrame.get; rewrite Pbytes; reflexivity).
  assert (Hlimit : NfcFrame.limit response = NfcFrame.limit built)
    by (unfold NfcFrame.limit; rewrite Pbytes; reflexivity).
  rewrite Hget, Hlimit. split; [exact Pphase |].
  rewrite (checkCrc_bytes response built Pbytes).
  unfold NfcFrame.hasFrameFlags.
  rewrite Pmask, land_lor3.
  - destruct (checkCrc built); cbn; split; congruence.
  - rewrite Bflags. destruct (_ || _); reflexivity.
  - rewrite Pch. destruct (_ && _); [reflexivity |].
    change (Impl.chainedFlags cleared) with (Impl.chainedFlags i).
    rewrite Hzero. reflexivity.
Qed.

(** ** Reset and configuration *)

(** C9 -- as the claim states it: a symbol start time, a peak time and
    an integrator that are not zero before [resetModulation] are not zero
    after it. *)
Lemma resetModulation_keeps_symbol_times :
  let i := searching SOF_END 900 1024 1000
             (configured <| Impl.modulationStatus :=
                              fun _ => ModulationStatus.zero
                                         <| ModulationStatus.filterIntegrate := f_1 |> |>) in
  let m' := Impl.modulationStatus (snd (resetModulation (locked (carrier f_1)) i)) r106k in
  ModulationStatus.symbolStartTime m' = 700
  /\ ModulationStatus.searchPeakTime m' = 1000
  /\ ModulationStatus.filterIntegrate m' = f_1
  /\ f_1 <> fzero.
Proof. vm_compute. repeat split; discriminate. Qed.

(** C9 (amended) -- after [resetModulation], for each of the rates 106k,
    212k and 424k the search stage, the search start and end times, the
    pulse width, the depth value, the symbol average, the detector peak
    and the correlation peak are zero and the symbol phase is a NaN, while
    the search peak time, the symbol start, end and sync times and the
    three integrators keep their values; the entry of 848k is untouched;
    [streamStatus] and [symbolStatus] are all zero; [frameType],
    [frameStart] and [frameEnd] are zero; [decoder->bitrate] and
    [decoder->modulation] are null. *)
Theorem resetModulation_clears (d : DecoderStatus.t) (i : Impl.t) :
  let d' := fst (resetModulation d i) in
  let i' := snd (resetModulation d i) in
  rateReset (Impl.modulationStatus i r106k) (Impl.modulationStatus i' r106k)
  /\ rateReset (Impl.modulationStatus i r212k) (Impl.modulationStatus i' r212k)
  /\ rateReset (Impl.modulationStatus i r424k) (Impl.modulationStatus i' r424k)
  /\ Impl.modulationStatus i' r848k = Impl.modulationStatus i r848k
  /\ Impl.streamStatus i' = StreamStatus.zero
  /\ Impl.symbolStatus i' = SymbolStatus.zero
  /\ FrameStatus.frameType (Impl.frameStatus i') = 0
  /\ FrameStatus.frameStart (Impl.frameStatus i') = 0
  /\ FrameStatus.frameEnd (Impl.frameStatus i') = 0
  /\ DecoderStatus.bitrate d' = None
  /\ DecoderStatus.modulation d' = None.
Proof. unfold rateReset. cbn. repeat split; reflexivity. Qed.

(** C2 -- as the claim states it: at 500 kHz, below four times the
    carrier frequency, [configure] ends normally, with a symbol period of
    5 samples, below 8. *)
Lemma configure_low_rate_succeeds :
  let d := DecoderStatus_at 500000 f_0_01 fzero in
  500000 < 4 * BaseFrequency
  /\ configure (P := platform32) 500000 d Impl_initial <> ConfigError
  /\ match configure (P := platform32) 500000 d Impl_initial with
     | Done (_, i') =>
         BitrateParams.period1SymbolSamples (Impl.bitrateParams i' r106k) = 5
     | ConfigError => False
     end.
Proof.
  cbv zeta. split; [reflexivity |]. split; [discriminate |].
  vm_compute. reflexivity.
Qed.

(** C2 (amended) -- [configure] has no failure mode: whatever the sample
    rate, it ends normally and never with a ConfigError. Its parameter is
    not even read; the stream and symbol status are cleared, the last
    frame end and the chained flags are zero, [maxFrameSize] is 256, the
    frame timings are those of the protocol defaults and the active
    selections of the decoder are kept. *)
Theorem configure_total {P : Platform} (sampleRate other : Z) (d : DecoderStatus.t)
  (i : Impl.t) :
  configure sampleRate d i = configure other d i
  /\ exists (d' : DecoderStatus.t) (i' : Impl.t),
       configure sampleRate d i = Done (d', i')
       /\ Impl.streamStatus i' = StreamStatus.zero
       /\ Impl.symbolStatus i' = SymbolStatus.zero
       /\ ProtocolStatus.maxFrameSize (Impl.protocolStatus i') = 256
       /\ Impl.lastFrameEnd i' = 0
       /\ Impl.chainedFlags i' = 0
       /\ FrameStatus.frameType (Impl.frameStatus i') = 0
       /\ FrameStatus.frameGuardTime (Impl.frameStatus i')
          = ProtocolStatus.frameGuardTime (Impl.protocolStatus i')
       /\ FrameStatus.frameWaitingTime (Impl.frameStatus i')
          = ProtocolStatus.frameWaitingTime (Impl.protocolStatus i')
       /\ DecoderStatus.sampleRate d' = DecoderStatus.sampleRate d
       /\ DecoderStatus.bitrate d' = DecoderStatus.bitrate d
       /\ DecoderStatus.modulation d' = DecoderStatus.modulation d.
Proof.
  split; [reflexivity |].
  pose proof (configure_post sampleRate d i) as Hpost.
  destruct (configure sampleRate d i) as [[d' i'] |]; [| contradiction].
  exists d', i'. split; [reflexivity | exact Hpost].
Qed.

(** ** The theorems at concrete states *)

(** C3, witness: at bit 3 of a byte a PatternH raises no terminator and
    the pass goes on; at bit 9 with an empty accumulator a PatternL is the
    end of frame. *)
Lemma pollFrame_terminators_witness :
  pollFramePass (P := platform32) PatternH (locked (carrier f_1)) (framing 3 REQB configured) []
  = Some (Continue (nextBit (framing 3 REQB configured)))
  /\ frameEndFlag PatternL (framing 9 REQB configured) = true.
Proof.
  split.
  - apply (pollFrame_terminators (P := platform32) PatternH (locked (carrier f_1))
             (framing 3 REQB configured) []).
    vm_compute. reflexivity.
  - apply (pollFrame_terminators (P := platform32) PatternL (locked (carrier f_1))
             (framing 9 REQB configured) []).
    repeat split; vm_compute; reflexivity.
Defined.

(** C4, witness: the end of frame after the five bytes of a REQB appends
    one frame with these bytes and no Truncated flag. *)
Lemma pollFrame_emission_witness :
  exists (i' : Impl.t) (response : NfcFrame.t),
    pollFramePass (P := platform32) PatternL (locked (carrier f_1))
      (framing 9 REQB configured) []
    = Some (Return true (locked (carrier f_1)) i' [response])
    /\ NfcFrame.bytes response = REQB
    /\ NfcFrame.sampleEnd response = 6000
    /\ NfcFrame.hasFrameFlags Truncated response = false.
Proof.
  destruct (pollFrame_emission (P := platform32) PatternL (locked (carrier f_1))
              (framing 9 REQB configured) [] r106k r106k)
    as [Hemit _]; try (vm_compute; reflexivity).
  destruct Hemit as (i' & response & Epass & _ & Ebytes & Eend & Eflags & _);
    [vm_compute; reflexivity |].
  exists i', response.
  split; [exact Epass |]. split; [rewrite Ebytes; vm_compute; reflexivity |].
  split; [rewrite Eend; vm_compute; reflexivity |].
  rewrite Eflags. vm_compute. reflexivity.
Defined.

(** C5, witness: the REQB of the first scenario of the specification. *)
Lemma process_classifies_witness :
  let result := process (P := platform32) (locked (carrier f_1)) configured
                  (frame_of PollFrame REQB) in
  FrameStatus.lastCommand (Impl.frameStatus (fst result)) = 0x05
  /\ ProtocolStatus.maxFrameSize (Impl.protocolStatus (fst result)) = 256
  /\ FrameStatus.frameGuardTime (Impl.frameStatus (fst result)) = 660
  /\ FrameStatus.frameWaitingTime (Impl.frameStatus (fst result)) = 1699
  /\ NfcFrame.framePhase (snd result) = SelectionFrame
  /\ NfcFrame.hasFrameFlags CrcError (snd result) = false.
Proof.
  destruct (process_classifies (P := platform32) (locked (carrier f_1)) configured
              (frame_of PollFrame REQB))
    as [Hreqb _]; try (vm_compute; reflexivity).
  destruct Hreqb as (Hcommand & Hmax & Hguard & Hwaiting & _ & Hphase & _);
    [split; vm_compute; reflexivity |].
  cbv zeta. split; [exact Hcommand |]. split; [exact Hmax |].
  split; [rewrite Hguard; vm_compute; reflexivity |].
  split; [rewrite Hwaiting; vm_compute; reflexivity |].
  split; [exact Hphase |]. vm_compute. reflexivity.
Defined.

(** C6, witness: at 10 MHz, a window of BEGIN that closes at clock 1024
    on the peak seen at 1000, and a window of END that closes likewise. *)
Lemma sof_window_close_witness :
  (let result := detectModulation (P := platform32) (carrier f_1)
                   (searching SOF_BEGIN 0 1024 1000 configured) in
   let m' := Impl.modulationStatus (snd result) r106k in
   fst (fst result) = false
   /\ ModulationStatus.symbolStartTime m' = 988
   /\ ModulationStatus.searchStage m' = SOF_IDLE
   /\ ModulationStatus.searchStartTime m' = 1893
   /\ ModulationStatus.searchEndTime m' = 2081)
  /\ (let result := detectModulation (P := platform32) (carrier f_1)
                      (searching SOF_END 900 1024 1000 configured) in
      fst (fst result) = true
      /\ ModulationStatus.symbolEndTime (Impl.modulationStatus (snd result) r106k) = 988
      /\ FrameStatus.frameType (Impl.frameStatus (snd result)) = PollFrame
      /\ FrameStatus.frameStart (Impl.frameStatus (snd result)) = 700
      /\ DecoderStatus.bitrate (snd (fst result)) = Some r106k).
Proof.
  split.
  - destruct (sof_window_close (P := platform32) (carrier f_1)
                (searching SOF_BEGIN 0 1024 1000 configured))
      as [Hbegin _]; try (vm_compute; reflexivity).
    destruct Hbegin as [Hpeak _]; try (vm_compute; reflexivity).
    destruct Hpeak as (Hr & Hs & Hstage & Hstart & Hend);
      [vm_compute; discriminate |].
    cbv zeta. split; [exact Hr |].
    split; [rewrite Hs; vm_compute; reflexivity |]. split; [exact Hstage |].
    split; [rewrite Hstart; vm_compute; reflexivity |].
    rewrite Hend. vm_compute. reflexivity.
  - destruct (sof_window_close (P := platform32) (carrier f_1)
                (searching SOF_END 900 1024 1000 configured))
      as [_ Hend]; try (vm_compute; reflexivity).
    destruct Hend as [Hpeak _]; try (vm_compute; reflexivity).
    destruct Hpeak as (Hr & He & _ & Htype & _ & Hstart & _ & Hbitrate & _);
      [vm_compute; discriminate |].
    cbv zeta. split; [exact Hr |].
    split; [rewrite He; vm_compute; reflexivity |]. split; [exact Htype |].
    split; [rewrite Hstart; vm_compute; reflexivity |]. exact Hbitrate.
Defined.



(** C8, witness: the state that [configure] leaves, and the framer at bit
    9 of the sixth byte. *)
Lemma framer_bounds_witness :
  framerInvariant configured
  /\ framerInvariant (nextBit (framing 9 REQB configured))
  /\ StreamStatus.bytes (Impl.streamStatus (nextBit (framing 9 REQB configured))) = 6.
Proof.
  assert (Hinv : framerInvariant (framing 9 REQB configured)).
  { unfold framerInvariant. vm_compute. repeat split; discriminate. }
  split; [| split].
  - unfold framerInvariant. vm_compute. repeat split; discriminate.
  - destruct (framer_bounds (P := platform32) PatternH [] (locked (carrier f_1))
                (framing 9 REQB configured) [] Hinv) as [Hpass _].
    exact (proj1 Hpass).
  - vm_compute. reflexivity.
Defined.

(** C10, witness: the call that confirms the start of frame, and a call
    that does not. *)
Lemma detect_selection_witness :
  (let result := detectModulation (P := platform32) (carrier f_1)
                   (searching SOF_END 900 1024 1000 configured) in
   FrameStatus.frameType (Impl.frameStatus (snd result)) = PollFrame
   /\ DecoderStatus.bitrate (snd (fst result)) = Some r106k
   /\ DecoderStatus.modulation (snd (fst result)) = Some r106k)
  /\ (let result := detectModulation (P := platform32) (carrier f_1)
                      (searching SOF_BEGIN 0 1024 1000 configured) in
      DecoderStatus.bitrate (snd (fst result)) = None
      /\ DecoderStatus.modulation (snd (fst result)) = None).
Proof.
  split.
  - apply (detect_selection (P := platform32) (carrier f_1)
             (searching SOF_END 900 1024 1000 configured)).
    vm_compute. reflexivity.
  - apply (detect_selection (P := platform32) (carrier f_1)
             (searching SOF_BEGIN 0 1024 1000 configured)).
    vm_compute. reflexivity.
Defined.

(** ** The first scenario of the specification *)

(** A clean REQB comes out as one frame, [05 00 00 71 FF], in the
    selection phase and with no flag. *)
Example decode_clean_REQB :
  decodeSignal REQB = Some [(REQB, 0, SelectionFrame)].
Proof. vm_compute. reflexivity. Qed.

(** * Further properties *)

(** ** Error detection of the CRC-16 *)

(** Equality of two numbers bit by bit: the bits below [k] one index at
    a time, the others by comparison of the index with the bounds. *)
Ltac bit_atoms :=
  repeat match goal with
    | |- context [Z.testbit ?a ?k] => destruct (Z.testbit a k)
    end;
  reflexivity.

Ltac bit_indices :=
  repeat match goal with
    | |- context [?a <? ?b] =>
        let v := eval cbv in (a <? b) in change (a <? b) with v
    | |- context [Z.testbit ?a ?i] =>
        let j := eval cbv in i in progress change i with j
    end;
  repeat match goal with
    | |- context [Z.testbit ?a (Z.neg ?p)] => rewrite (Z.testbit_neg_r a (Z.neg p)) by lia
    end.

Ltac bits_upto k :=
  apply Z.bits_inj';
  let n := fresh "n" in
  let Hn := fresh "Hn" in
  intros n Hn;
  destruct (Z.lt_ge_cases n k);
  [ let rec go i :=
      (lazymatch eval cbv in (i <? k) with
       | true =>
           destruct (Z.eq_dec n i) as [-> |];
           [bit_rewrite; bit_indices; bit_atoms
           | let j := eval cbv in (i + 1) in go j]
       | false => lia
       end) in
    go 0
  | bit_rewrite; bit_cases ].

Lemma crc16_update_mix (crc b : Z) :
  crc16_update crc b = crc16_mix (Z.shiftr crc 8) (crc16_spread (Z.lxor b (Z.land crc 0xFF))).
Proof. reflexivity. Qed.

Lemma crc16_spread_range (x : Z) : 0 <= crc16_spread x < 2 ^ 8.
Proof. apply Z.mod_pos_bound. lia. Qed.

Lemma crc16_spread_twice (x : Z) : crc16_spread (crc16_spread x) = x mod 2 ^ 8.
Proof. unfold crc16_spread. bits_upto 8. Qed.

Lemma crc16_unmix_mix (high d : Z) :
  0 <= d < 2 ^ 8 -> crc16_unmix (crc16_mix (high mod 2 ^ 8) d) = d.
Proof.
  intros Hd. rewrite <- (Z.mod_small d (2 ^ 8)) by exact Hd.
  unfold crc16_unmix, crc16_mix. bits_upto 8.
Qed.

Lemma crc16_mix_low (high d : Z) :
  0 <= d < 2 ^ 8 ->
  Z.lxor (crc16_mix (high mod 2 ^ 8) d mod 2 ^ 8)
         ((Z.lxor (Z.shiftl d 3) (Z.shiftr d 4)) mod 2 ^ 8)
  = high mod 2 ^ 8.
Proof.
  intros Hd. rewrite <- (Z.mod_small d (2 ^ 8)) by exact Hd.
  unfold crc16_mix. bits_upto 8.
Qed.

Lemma lxor_cancel_mod (x y : Z) : (Z.lxor (Z.lxor x y mod 2 ^ 8) x) mod 2 ^ 8 = y mod 2 ^ 8.
Proof. bitblast. destruct (Z.testbit x n), (Z.testbit y n); reflexivity. Qed.

Lemma lxor_cancel_mod_l (x y : Z) :
  (Z.lxor (Z.lxor (x mod 2 ^ 8) y mod 2 ^ 8) y) mod 2 ^ 8 = (x mod 2 ^ 8) mod 2 ^ 8.
Proof. bitblast. destruct (Z.testbit x n), (Z.testbit y n); reflexivity. Qed.

Lemma shiftr_8_range (crc : Z) : 0 <= crc < 2 ^ 16 -> (Z.shiftr crc 8) mod 2 ^ 8 = Z.shiftr crc 8.
Proof.
  intros Hc. apply Z.mod_small. rewrite Z.shiftr_div_pow2 by lia.
  split; [apply Z.div_pos; lia | apply Z.div_lt_upper_bound; lia].
Qed.

(** A step of the CRC-16 can be undone: the register before it is a
    function of the register after it and of the byte. *)
Lemma crc16_revert_update (crc b : Z) :
  0 <= crc < 2 ^ 16 -> crc16_revert (crc16_update crc b) b = crc.
Proof.
  intros Hc. rewrite crc16_update_mix, <- (shiftr_8_range crc Hc).
  unfold crc16_revert.
  rewrite crc16_unmix_mix, crc16_mix_low by apply crc16_spread_range.
  rewrite crc16_spread_twice, land_255_mod.
  rewrite (Z.lxor_comm b), lxor_cancel_mod_l.
  rewrite <- (land_255_mod crc). apply split_16. exact Hc.
Qed.

Lemma lxor_cancel_r_mod (x y : Z) : (Z.lxor (Z.lxor x y mod 2 ^ 8) y) mod 2 ^ 8 = x mod 2 ^ 8.
Proof. bitblast. destruct (Z.testbit x n), (Z.testbit y n); reflexivity. Qed.

(** The register after a step tells the byte that was taken in. *)
Lemma crc16_update_byte_inj (crc b b' : Z) :
  0 <= crc < 2 ^ 16 ->
  crc16_update crc b = crc16_update crc b' -> b mod 2 ^ 8 = b' mod 2 ^ 8.
Proof.
  intros Hc E. rewrite !crc16_update_mix, <- (shiftr_8_range crc Hc) in E.
  apply (f_equal crc16_unmix) in E.
  rewrite !crc16_unmix_mix in E by apply crc16_spread_range.
  apply (f_equal crc16_spread) in E. rewrite !crc16_spread_twice in E.
  rewrite <- (lxor_cancel_r_mod b (Z.land crc 255)), E.
  apply lxor_cancel_r_mod.
Qed.

(** Two registers that differ keep differing, whatever bytes follow. *)
Lemma fold_crc16_inj (l : list Z) :
  forall crc crc' : Z,
    0 <= crc < 2 ^ 16 -> 0 <= crc' < 2 ^ 16 ->
    fold_left crc16_update l crc = fold_left crc16_update l crc' -> crc = crc'.
Proof.
  induction l as [| b l IH]; intros crc crc' Hc Hc' E; cbn [fold_left] in E.
  - exact E.
  - apply IH in E; try apply crc16_update_range.
    rewrite <- (crc16_revert_update crc b Hc), <- (crc16_revert_update crc' b Hc'), E.
    reflexivity.
Qed.

(** The CRC-16 tells apart two payloads that differ in one byte. *)
Lemma crc16_single_byte (before after : list Z) (b b' : Z) :
  b mod 2 ^ 8 <> b' mod 2 ^ 8 ->
  crc16 (before ++ b :: after) <> crc16 (before ++ b' :: after).
Proof.
  intros Hb E. unfold crc16 in E.
  assert (E' : fold_left crc16_update (before ++ b :: after) 0xFFFF
               = fold_left crc16_update (before ++ b' :: after) 0xFFFF) by lia.
  rewrite !fold_left_app in E'. cbn [fold_left] in E'.
  apply fold_crc16_inj in E'; try apply crc16_update_range.
  apply crc16_update_byte_inj in E'; [contradiction |].
  apply fold_crc16_range. lia.
Qed.

Lemma lor_bytes_low (lo hi : Z) :
  (Z.lor (lo mod 2 ^ 8) (Z.shiftl (hi mod 2 ^ 8) 8)) mod 2 ^ 8 = lo mod 2 ^ 8.
Proof. bitblast. Qed.

Lemma lor_bytes_high (lo hi : Z) :
  Z.shiftr (Z.lor (lo mod 2 ^ 8) (Z.shiftl (hi mod 2 ^ 8) 8)) 8 = hi mod 2 ^ 8.
Proof. bitblast. Qed.

(** X1 -- a frame that passes [checkCrc] no longer passes it once any
    single one of its bytes, in the payload or in the trailer, is replaced
    by a different byte. *)
Theorem checkCrc_detects_byte_error (frame frame' : NfcFrame.t)
  (before after : list Z) (b b' : Z) :
  NfcFrame.bytes frame = before ++ b :: after ->
  NfcFrame.bytes frame' = before ++ b' :: after ->
  is_byte b -> is_byte b' -> b <> b' ->
  checkCrc frame = true ->
  checkCrc frame' = false.
Proof.
  intros Ef Ef' Hb Hb' Hneq Hcheck.
  assert (Hmod : b mod 2 ^ 8 <> b' mod 2 ^ 8).
  { rewrite !is_byte_mod by assumption. exact Hneq. }
  assert (Hlen : (3 <= List.length (before ++ b :: after))%nat).
  { destruct (Nat.le_gt_cases 3 (List.length (before ++ b :: after))) as [H | H]; trivial.
    exfalso. unfold checkCrc, NfcFrame.limit in Hcheck. rewrite Ef in Hcheck.
    destruct (Z.leb_spec (Z.of_nat (List.length (before ++ b :: after))) 2);
      [discriminate | lia]. }
  assert (Hlen' : List.length (before ++ b' :: after) = List.length (before ++ b :: after)).
  { rewrite !length_app. reflexivity. }
  rewrite checkCrc_compare in Hcheck by (rewrite Ef; exact Hlen).
  rewrite checkCrc_compare by (rewrite Ef', Hlen'; exact Hlen).
  rewrite Ef in Hcheck. rewrite Ef', Hlen'.
  set (n := List.length (before ++ b :: after)) in *.
  assert (Hn : n = (List.length before + S (List.length after))%nat).
  { subst n. rewrite length_app. reflexivity. }
  apply Z.eqb_eq in Hcheck. apply Z.eqb_neq. intros Hcheck'.
  destruct (Nat.le_gt_cases 2 (List.length after)) as [Hpayload | Htrailer].
  - (* the byte is in the payload: same trailer, another CRC *)
    rewrite !app_nth2 in Hcheck, Hcheck' by lia.
    replace (n - 2 - List.length before)%nat with (S (List.length after - 2)) in * by lia.
    replace (n - 1 - List.length before)%nat with (S (List.length after - 1)) in * by lia.
    cbn [nth] in Hcheck, Hcheck'.
    rewrite !firstn_app in Hcheck, Hcheck'.
    rewrite !firstn_all2 in Hcheck, Hcheck' by lia.
    replace (n - 2 - List.length before)%nat with (S (List.length after - 2)) in * by lia.
    cbn [firstn] in Hcheck, Hcheck'.
    apply (crc16_single_byte before (firstn (List.length after - 2) after) b b' Hmod).
    rewrite <- Hcheck, <- Hcheck'. reflexivity.
  - (* the byte is in the trailer: same CRC, another trailer *)
    assert (Hfirst : firstn (n - 2) (before ++ b :: after)
                     = firstn (n - 2) (before ++ b' :: after)).
    { rewrite !firstn_app. f_equal.
      replace (n - 2 - List.length before)%nat with 0%nat by lia. reflexivity. }
    rewrite <- Hfirst, <- Hcheck in Hcheck'. clear Hcheck Hfirst.
    destruct after as [| hi after].
    + (* last byte *)
      apply (f_equal (fun x => Z.shiftr x 8)) in Hcheck'.
      rewrite !lor_bytes_high in Hcheck'.
      rewrite !app_nth2 in Hcheck' by (cbn [List.length] in Hn; lia).
      replace (n - 1 - List.length before)%nat with 0%nat in Hcheck'
        by (cbn [List.length] in Hn; lia).
      cbn [nth] in Hcheck'. auto.
    + (* last byte but one *)
      assert (after = []) by (destruct after; [reflexivity | cbn [List.length] in Htrailer; lia]).
      subst after. cbn [List.length] in Hn.
      apply (f_equal (fun x => x mod 2 ^ 8)) in Hcheck'.
      rewrite !lor_bytes_low in Hcheck'.
      rewrite !app_nth2 in Hcheck' by lia.
      replace (n - 2 - List.length before)%nat with 0%nat in Hcheck' by lia.
      cbn [nth] in Hcheck'. auto.
Qed.

(** ** Response timing and listen frames in [process] *)

(** The frame status after [process], for a poll frame and a selected
    bitrate. *)
Lemma process_poll_status {P : Platform} (d : DecoderStatus.t) (i : Impl.t)
  (frame : NfcFrame.t) (rb : RateType) :
  NfcFrame.isPollFrame frame = true ->
  DecoderStatus.bitrate d = Some rb ->
  let stu := SignalParams.sampleTimeUnit (DecoderStatus.signalParams d) in
  let reqb := (NfcFrame.get frame 0 =? NFCA_REQB) && (NfcFrame.limit frame =? 5) in
  let fs := Impl.frameStatus i in
  let delay := BitrateParams.symbolDelayDetect (Impl.bitrateParams i rb) in
  let guard :=
    if reqb then Z_of_float (fmulZ (fmulZ stu 128) 7) else FrameStatus.frameGuardTime fs in
  let waiting :=
    if reqb then Z_of_float (fmulZ (fmulZ stu 128) 18)
    else ProtocolStatus.frameWaitingTime (Impl.protocolStatus i) in
  let i' := fst (process d i frame) in
  let fs' := Impl.frameStatus i' in
  FrameStatus.guardEnd fs' = uint (FrameStatus.frameEnd fs + guard + delay)
  /\ FrameStatus.waitingEnd fs' = uint (FrameStatus.frameEnd fs + waiting + delay)
  /\ FrameStatus.frameType fs' = ListenFrame
  /\ Impl.lastFrameEnd i' = FrameStatus.frameEnd fs mod 2 ^ 32
  /\ FrameStatus.frameStart fs' = 0
  /\ FrameStatus.frameEnd fs' = 0
  /\ Impl.bitrateParams i' = Impl.bitrateParams i.
Proof.
  intros Hpoll Hrate stu reqb fs delay guard waiting i' fs'.
  subst i' fs' guard waiting delay fs.
  assert (Hlisten : NfcFrame.isListenFrame frame = false).
  { unfold NfcFrame.isPollFrame, NfcFrame.isListenFrame in *.
    apply Z.eqb_eq in Hpoll. rewrite Hpoll. reflexivity. }
  unfold process, processREQB, processOther, flagCrc.
  rewrite Hpoll, Hlisten, Hrate. fold reqb. cbn [andb].
  unfold NfcFrame.isPollFrame in *.
  destruct reqb; cbn; rewrite Hpoll; cbn; repeat split; reflexivity.
Qed.

(** X2 -- for a poll frame, with [decoder->bitrate] selected, [process]
    opens the listen window: the guard ends at [frameEnd + guard time +
    symbolDelayDetect] and the waiting at [frameEnd + waiting time +
    symbolDelayDetect], with the REQB timings for a REQB, else with the
    guard time in force and the default waiting time of the protocol; the
    next frame expected is a listen frame, [lastFrameEnd] takes the frame
    end and the frame boundaries are cleared. *)
Theorem process_poll_timing {P : Platform} (d : DecoderStatus.t) (i : Impl.t)
  (frame : NfcFrame.t) (rb : RateType) :
  NfcFrame.isPollFrame frame = true ->
  DecoderStatus.bitrate d = Some rb ->
  let stu := SignalParams.sampleTimeUnit (DecoderStatus.signalParams d) in
  let reqb := (NfcFrame.get frame 0 =? NFCA_REQB) && (NfcFrame.limit frame =? 5) in
  let fs := Impl.frameStatus i in
  let delay := BitrateParams.symbolDelayDetect (Impl.bitrateParams i rb) in
  let guard :=
    if reqb then Z_of_float (fmulZ (fmulZ stu 128) 7) else FrameStatus.frameGuardTime fs in
  let waiting :=
    if reqb then Z_of_float (fmulZ (fmulZ stu 128) 18)
    else ProtocolStatus.frameWaitingTime (Impl.protocolStatus i) in
  let i' := fst (process d i frame) in
  let fs' := Impl.frameStatus i' in
  FrameStatus.guardEnd fs' = uint (FrameStatus.frameEnd fs + guard + delay)
  /\ FrameStatus.waitingEnd fs' = uint (FrameStatus.frameEnd fs + waiting + delay)
  /\ FrameStatus.frameType fs' = ListenFrame
  /\ Impl.lastFrameEnd i' = FrameStatus.frameEnd fs mod 2 ^ 32
  /\ FrameStatus.frameStart fs' = 0
  /\ FrameStatus.frameEnd fs' = 0
  /\ Impl.bitrateParams i' = Impl.bitrateParams i.
Proof.
  intros Hpoll Hrate stu reqb fs delay guard waiting i' fs'.
  subst i' fs' guard waiting delay fs.
  assert (Hlisten : NfcFrame.isListenFrame frame = false).
  { unfold NfcFrame.isPollFrame, NfcFrame.isListenFrame in *.
    apply Z.eqb_eq in Hpoll. rewrite Hpoll. reflexivity. }
  unfold process, processREQB, processOther, flagCrc.
  rewrite Hpoll, Hlisten, Hrate. fold reqb. cbn [andb].
  unfold NfcFrame.isPollFrame in *.
  destruct reqb; cbn; rewrite Hpoll; cbn; repeat split; reflexivity.
Qed.

(** X3 -- a frame that is not a poll frame ends the exchange: [process]
    puts [frameType] and [lastCommand] back to zero and leaves the guard
    and waiting times. A listen frame that answers a REQB is put in the
    selection phase and its CRC is not checked; any other frame is put in
    the application phase and flagged CrcError when its CRC fails. *)
Theorem process_listen_frame {P : Platform} (d : DecoderStatus.t) (i : Impl.t)
  (frame : NfcFrame.t) :
  NfcFrame.isPollFrame frame = false ->
  let answer :=
    NfcFrame.isListenFrame frame
    && (FrameStatus.lastCommand (Impl.frameStatus i) =? NFCA_REQB) in
  let i' := fst (process d i frame) in
  let frame' := snd (process d i frame) in
  FrameStatus.frameType (Impl.frameStatus i') = 0
  /\ FrameStatus.lastCommand (Impl.frameStatus i') = 0
  /\ FrameStatus.guardEnd (Impl.frameStatus i') = FrameStatus.guardEnd (Impl.frameStatus i)
  /\ FrameStatus.waitingEnd (Impl.frameStatus i')
     = FrameStatus.waitingEnd (Impl.frameStatus i)
  /\ Impl.protocolStatus i' = Impl.protocolStatus i
  /\ NfcFrame.framePhase frame' = (if answer then SelectionFrame else ApplicationFrame)
  /\ NfcFrame.frameFlags frame'
     = Z.lor (Z.lor (NfcFrame.frameFlags frame)
                    (if answer then 0 else if checkCrc frame then 0 else CrcError))
             (Impl.chainedFlags i)
  /\ NfcFrame.bytes frame' = NfcFrame.bytes frame.
Proof.
  intros Hpoll answer i' frame'. subst i' frame'.
  unfold process, processREQB, processOther, flagCrc.
  rewrite Hpoll. fold answer. cbn [andb].
  unfold NfcFrame.isPollFrame in *.
  destruct answer; cbn; rewrite Hpoll; cbn.
  - rewrite Z.lor_0_r. repeat split; reflexivity.
  - rewrite (checkCrc_bytes (NfcFrame.set_framePhase _ frame) frame) by reflexivity.
    destruct (checkCrc frame); repeat split; reflexivity.
Qed.
(** ** The framer on a run of symbols *)

Lemma pollFramePass_continue {P : Platform} (pattern : PatternType) (d : DecoderStatus.t)
  (i : Impl.t) (frames : list NfcFrame.t) :
  frameEndFlag pattern i || streamErrorFlag pattern i || truncateErrorFlag pattern i = false ->
  pollFramePass pattern d i frames = Some (Continue (nextBit i)).
Proof. intros Hnone. unfold pollFramePass. rewrite Hnone. reflexivity. Qed.

(** A data bit, at position 1 to 8 of a character, goes into the
    accumulator. *)
Lemma pass_data_bit {P : Platform} (bit : bool) (h : Heard) (i : Impl.t)
  (frames : list NfcFrame.t) :
  let ss := Impl.streamStatus i in
  carries bit h ->
  1 <= StreamStatus.bits ss <= 8 ->
  StreamStatus.bytes ss <> ProtocolStatus.maxFrameSize (Impl.protocolStatus i) ->
  pollFramePass (SymbolStatus.pattern (heardSymbol h)) (heardStatus h) (hear h i) frames
  = Some (Continue
            ((hear h i)
               <| Impl.streamStatus :=
                    ss <| StreamStatus.data :=
                            Z.lor (StreamStatus.data ss)
                                  (Z.shiftl (if bit then 1 else 0) (StreamStatus.bits ss - 1)) |>
                       <| StreamStatus.bits := StreamStatus.bits ss + 1 |> |>)).
Proof.
  intros ss [Hpattern Hvalue] Hbits Hbytes. rewrite pollFramePass_continue.
  - unfold nextBit.
    cbn [Impl.streamStatus Impl.symbolStatus hear set Impl.set_symbolStatus
         Impl.set_modulationStatus].
    fold ss. rewrite Hvalue.
    destruct (Z.ltb_spec (StreamStatus.bits ss) 9) as [_ | H]; [| lia].
    destruct (Z.gtb_spec (StreamStatus.bits ss) 0) as [_ | H]; [| lia].
    reflexivity.
  - unfold frameEndFlag, streamErrorFlag, truncateErrorFlag, frameEndFlag.
    cbn [Impl.streamStatus Impl.protocolStatus hear set Impl.set_symbolStatus
         Impl.set_modulationStatus].
    fold ss.
    destruct (Z.eqb_spec (StreamStatus.bits ss) 9) as [H | _]; [lia |].
    destruct (Z.eqb_spec (StreamStatus.bits ss) 0) as [H | _]; [lia |].
    apply Z.eqb_neq in Hbytes. rewrite Hbytes. reflexivity.
Qed.

Lemma sameCore_refl (i : Impl.t) : sameCore i i.
Proof. unfold sameCore. repeat split; reflexivity. Qed.

Lemma sameCore_trans (i j k : Impl.t) : sameCore i j -> sameCore j k -> sameCore i k.
Proof.
  unfold sameCore.
  intros (A1 & A2 & A3 & A4 & A5 & A6 & A7) (B1 & B2 & B3 & B4 & B5 & B6 & B7).
  repeat split; congruence.
Qed.

Lemma testbit_bit (c : bool) (m : Z) :
  Z.testbit (if c then 1 else 0) m = c && (m =? 0).
Proof. destruct c, m; reflexivity. Qed.

(** One more bit on top of the low bits of a number. *)
Lemma mod_pow2_succ (v k : Z) :
  0 <= k ->
  Z.lor (v mod 2 ^ k) (Z.shiftl (if Z.testbit v k then 1 else 0) k) = v mod 2 ^ (k + 1).
Proof.
  intros Hk. apply Z.bits_inj'. intros n Hn.
  rewrite Z.lor_spec, testbit_shiftl_any, testbit_bit, !Z.testbit_mod_pow2 by lia.
  destruct (Z.ltb_spec n k), (Z.ltb_spec n (k + 1)), (Z.eqb_spec (n - k) 0);
    try lia; cbn [andb orb]; rewrite ?andb_false_r, ?andb_true_r, ?orb_false_r;
    try reflexivity.
  f_equal. lia.
Qed.

(** The data bits [j], [j + 1], ... of [v], fed from position [j + 1] of
    a character on, are gathered in the accumulator. *)
Lemma run_data_bits {P : Platform} (v : Z) (frames : list NfcFrame.t)
  (rest : list Heard) (n : nat) :
  forall (j : nat) (symbols : list Heard) (i : Impl.t),
    let ss := Impl.streamStatus i in
    Forall2 carries (map (fun k => Z.testbit v (Z.of_nat k)) (seq j n)) symbols ->
    (j + n <= 8)%nat ->
    StreamStatus.bits ss = Z.of_nat j + 1 ->
    StreamStatus.data ss = v mod 2 ^ Z.of_nat j ->
    StreamStatus.bytes ss <> ProtocolStatus.maxFrameSize (Impl.protocolStatus i) ->
    exists i' : Impl.t,
      framerRun (symbols ++ rest) i frames = framerRun rest i' frames
      /\ StreamStatus.bits (Impl.streamStatus i') = Z.of_nat (j + n) + 1
      /\ StreamStatus.data (Impl.streamStatus i') = v mod 2 ^ Z.of_nat (j + n)
      /\ StreamStatus.bytes (Impl.streamStatus i') = StreamStatus.bytes ss
      /\ StreamStatus.buffer (Impl.streamStatus i') = StreamStatus.buffer ss
      /\ sameCore i i'.
Proof.
  induction n as [| n IH]; intros j symbols i ss Hsymbols Hj Hbits Hdata Hbytes.
  - cbn [seq map] in Hsymbols. inversion Hsymbols; subst.
    exists i. rewrite Nat.add_0_r. cbn [app].
    split; [reflexivity |]. repeat split; trivial.
  - cbn [seq map] in Hsymbols.
    inversion Hsymbols as [| bit h bits symbols' Hcarries Hrest]; subst.
    cbn [app framerRun].
    rewrite (pass_data_bit (Z.testbit v (Z.of_nat j)) h i frames Hcarries)
      by (fold ss; lia || exact Hbytes).
    fold ss.
    match goal with
    | |- context [framerRun _ ?next frames] => set (i1 := next)
    end.
    destruct (IH (S j) symbols' i1 Hrest)
      as (i' & Erun & Ebits & Edata & Ebytes & Ebuffer & Ecore).
    + lia.
    + subst i1. cbn. fold ss. rewrite Hbits. lia.
    + subst i1. cbn. fold ss. rewrite Hdata, Hbits.
      replace (Z.of_nat j + 1 - 1) with (Z.of_nat j) by lia.
      rewrite mod_pow2_succ by lia. f_equal. f_equal. lia.
    + subst i1. cbn. exact Hbytes.
    + exists i'. rewrite Erun.
      replace (j + S n)%nat with (S j + n)%nat by lia.
      split; [reflexivity |]. split; [exact Ebits |]. split; [exact Edata |].
      split; [rewrite Ebytes; reflexivity |]. split; [rewrite Ebuffer; reflexivity |].
      apply (sameCore_trans i i1 i'); [| exact Ecore].
      subst i1. unfold sameCore. cbn. repeat split; reflexivity.
Qed.

(** The start bit opens a character. *)
Lemma pass_start_bit {P : Platform} (h : Heard) (i : Impl.t) (frames : list NfcFrame.t) :
  let ss := Impl.streamStatus i in
  carries false h ->
  StreamStatus.bits ss = 0 ->
  StreamStatus.bytes ss <> ProtocolStatus.maxFrameSize (Impl.protocolStatus i) ->
  pollFramePass (SymbolStatus.pattern (heardSymbol h)) (heardStatus h) (hear h i) frames
  = Some (Continue ((hear h i)
                      <| Impl.streamStatus := ss <| StreamStatus.bits := 1 |> |>)).
Proof.
  intros ss [Hpattern Hvalue] Hbits Hbytes. rewrite Hpattern. cbn [symbolBit].
  rewrite pollFramePass_continue.
  - unfold nextBit.
    cbn [Impl.streamStatus hear set Impl.set_symbolStatus Impl.set_modulationStatus].
    fold ss.
    rewrite Hbits. cbn [Z.ltb Z.gtb Z.compare Pos.compare Pos.compare_cont].
    rewrite ?Hbits. reflexivity.
  - unfold frameEndFlag, streamErrorFlag, truncateErrorFlag, frameEndFlag.
    cbn [Impl.streamStatus Impl.protocolStatus hear set Impl.set_symbolStatus
         Impl.set_modulationStatus].
    fold ss.
    rewrite Hbits. apply Z.eqb_neq in Hbytes. rewrite Hbytes.
    change (isPatternH PatternL) with false. rewrite ?andb_false_r. reflexivity.
Qed.

(** The stop bit stores the byte gathered. *)
Lemma pass_stop_bit {P : Platform} (h : Heard) (i : Impl.t) (frames : list NfcFrame.t) :
  let ss := Impl.streamStatus i in
  carries true h ->
  StreamStatus.bits ss = 9 ->
  StreamStatus.bytes ss <> ProtocolStatus.maxFrameSize (Impl.protocolStatus i) ->
  pollFramePass (SymbolStatus.pattern (heardSymbol h)) (heardStatus h) (hear h i) frames
  = Some (Continue
            ((hear h i)
               <| Impl.streamStatus :=
                    StreamStatus.mk 0 0 (StreamStatus.bytes ss + 1)
                      (fun k => if k =? StreamStatus.bytes ss
                                then u8 (StreamStatus.data ss)
                                else StreamStatus.buffer ss k) |>)).
Proof.
  intros ss [Hpattern Hvalue] Hbits Hbytes. rewrite Hpattern. cbn [symbolBit].
  rewrite pollFramePass_continue.
  - unfold nextBit.
    cbn [Impl.streamStatus hear set Impl.set_symbolStatus Impl.set_modulationStatus].
    fold ss.
    rewrite Hbits. cbn [Z.ltb Z.gtb Z.compare Pos.compare Pos.compare_cont].
    rewrite ?Hbits. reflexivity.
  - unfold frameEndFlag, streamErrorFlag, truncateErrorFlag, frameEndFlag.
    cbn [Impl.streamStatus Impl.protocolStatus hear set Impl.set_symbolStatus
         Impl.set_modulationStatus].
    fold ss.
    rewrite Hbits. apply Z.eqb_neq in Hbytes. rewrite Hbytes.
    change (isPatternL PatternH) with false. rewrite ?andb_false_r. reflexivity.
Qed.

(** A whole character: the byte lands in the buffer. *)
Lemma run_character {P : Platform} (v : Z) (symbols rest : list Heard) (i : Impl.t)
  (frames : list NfcFrame.t) :
  let ss := Impl.streamStatus i in
  Forall2 carries (characterBits v) symbols ->
  is_byte v ->
  StreamStatus.bits ss = 0 ->
  StreamStatus.data ss = 0 ->
  StreamStatus.bytes ss <> ProtocolStatus.maxFrameSize (Impl.protocolStatus i) ->
  exists i' : Impl.t,
    let ss' := Impl.streamStatus i' in
    framerRun (symbols ++ rest) i frames = framerRun rest i' frames
    /\ StreamStatus.bits ss' = 0
    /\ StreamStatus.data ss' = 0
    /\ StreamStatus.bytes ss' = StreamStatus.bytes ss + 1
    /\ StreamStatus.buffer ss' (StreamStatus.bytes ss) = v
    /\ (forall k, k <> StreamStatus.bytes ss ->
                  StreamStatus.buffer ss' k = StreamStatus.buffer ss k)
    /\ sameCore i i'.
Proof.
  intros ss Hsymbols Hv Hbits Hdata Hbytes.
  unfold characterBits in Hsymbols.
  apply Forall2_app_inv_l in Hsymbols as (start & others & Hstart & Hothers & ->).
  apply Forall2_app_inv_l in Hothers as (data & stop & Hdatabits & Hstop & ->).
  inversion Hstart as [| bit0 h0 bits0 nil0 Hc0 Hnil0]; subst.
  inversion Hnil0; subst.
  inversion Hstop as [| bit9 h9 bits9 nil9 Hc9 Hnil9]; subst.
  inversion Hnil9; subst.
  rewrite <- !app_assoc. cbn [app framerRun].
  rewrite (pass_start_bit h0 i frames Hc0) by assumption. fold ss.
  match goal with
  | |- context [framerRun _ ?next frames] => set (i1 := next)
  end.
  destruct (run_data_bits v frames (h9 :: rest) 8 0 data i1 Hdatabits)
    as (i2 & Erun & Ebits & Edata & Ebytes & Ebuffer & Ecore); try reflexivity.
  - subst i1. cbn. fold ss. rewrite Hdata. symmetry. apply Z.mod_1_r.
  - subst i1. cbn. exact Hbytes.
  - rewrite Erun. cbn [framerRun].
    assert (Hcore2 : sameCore i i2).
    { apply (sameCore_trans i i1 i2); [| exact Ecore].
      subst i1. unfold sameCore. cbn. repeat split; reflexivity. }
    assert (Hmax : ProtocolStatus.maxFrameSize (Impl.protocolStatus i2)
                   = ProtocolStatus.maxFrameSize (Impl.protocolStatus i)).
    { destruct Hcore2 as (_ & _ & Hp & _). rewrite Hp. reflexivity. }
    assert (Ebytes' : StreamStatus.bytes (Impl.streamStatus i2) = StreamStatus.bytes ss).
    { rewrite Ebytes. subst i1. reflexivity. }
    assert (Ebuffer' : StreamStatus.buffer (Impl.streamStatus i2) = StreamStatus.buffer ss).
    { rewrite Ebuffer. subst i1. reflexivity. }
    rewrite (pass_stop_bit h9 i2 frames Hc9) by (rewrite ?Ebytes', ?Hmax; assumption).
    eexists. split; [reflexivity |].
    cbn. rewrite Ebytes', Ebuffer', Edata.
    change (Z.of_nat (0 + 8)) with 8.
    rewrite Z.eqb_refl, u8_mod, Z.mod_mod, (is_byte_mod v Hv) by lia.
    split; [reflexivity |]. split; [reflexivity |]. split; [reflexivity |].
    split; [reflexivity |].
    split; [intros k Hk; apply Z.eqb_neq in Hk; rewrite Hk; reflexivity |].
    repeat split; apply Hcore2.
Qed.

(** A run of characters: the bytes land in the buffer in order. *)
Lemma run_characters {P : Platform} (frames : list NfcFrame.t)
  (rest : list Heard) (todo : list Z) :
  forall (done : list Z) (symbols : list Heard) (i : Impl.t),
    Forall2 carries (flat_map characterBits todo) symbols ->
    holds done i ->
    Forall is_byte todo ->
    Z.of_nat (List.length done + List.length todo)
    <= ProtocolStatus.maxFrameSize (Impl.protocolStatus i) ->
    exists i' : Impl.t,
      framerRun (symbols ++ rest) i frames = framerRun rest i' frames
      /\ holds (done ++ todo) i'
      /\ sameCore i i'.
Proof.
  induction todo as [| v todo IH]; intros done symbols i Hsymbols Hholds Hbytes Hmax.
  - cbn [flat_map] in Hsymbols. inversion Hsymbols; subst.
    exists i. rewrite app_nil_r. cbn [app].
    split; [reflexivity |]. split; [exact Hholds | apply sameCore_refl].
  - destruct Hholds as (Hbits & Hdata & Hcount & Hbuffer).
    inversion Hbytes as [| v' todo' Hv Htodo]; subst.
    cbn [flat_map List.length] in *.
    apply Forall2_app_inv_l in Hsymbols as (first & others & Hfirst & Hothers & ->).
    rewrite <- app_assoc.
    destruct (run_character v first (others ++ rest) i frames Hfirst)
      as (i1 & Erun & Ebits & Edata & Ecount & Estored & Ekept & Ecore); trivial.
    { rewrite Hcount. lia. }
    destruct (IH (done ++ [v]) others i1 Hothers) as (i' & Erun' & Hholds' & Ecore').
    + unfold holds. rewrite Ebits, Edata, Ecount, Hcount, length_app. cbn [List.length].
      repeat split; try lia.
      intros k Hk. destruct (Nat.eq_dec k (List.length done)) as [-> | Hneq].
      * rewrite <- Hcount, Estored, app_nth2, Nat.sub_diag by lia. reflexivity.
      * rewrite Ekept by lia. rewrite app_nth1 by lia. apply Hbuffer. lia.
    + exact Htodo.
    + destruct Ecore as (_ & _ & Hp & _). rewrite Hp, length_app. cbn [List.length]. lia.
    + exists i'. rewrite Erun, Erun'. rewrite <- app_assoc in Hholds'.
      split; [reflexivity |]. split; [exact Hholds' |].
      apply (sameCore_trans i i1 i'); assumption.
Qed.
(** [process] leaves the boundaries, the rate and the bytes of the
    frame. *)
Lemma process_frame_timing {P : Platform} (d : DecoderStatus.t) (i : Impl.t)
  (frame : NfcFrame.t) :
  let frame' := snd (process d i frame) in
  NfcFrame.sampleStart frame' = NfcFrame.sampleStart frame
  /\ NfcFrame.sampleEnd frame' = NfcFrame.sampleEnd frame
  /\ NfcFrame.timeStart frame' = NfcFrame.timeStart frame
  /\ NfcFrame.timeEnd frame' = NfcFrame.timeEnd frame
  /\ NfcFrame.frameRate frame' = NfcFrame.frameRate frame
  /\ NfcFrame.bytes frame' = NfcFrame.bytes frame.
Proof.
  unfold process, processREQB, processOther, flagCrc.
  destruct (NfcFrame.isPollFrame frame); cbn [andb];
    repeat case_if; cbn; repeat split; reflexivity.
Qed.

(** What a pass that emits a frame leaves: the frame by its bytes and
    flags, the stream cleared and the protocol parameters. *)
Lemma pollFramePass_return {P : Platform} (pattern : PatternType) (d : DecoderStatus.t)
  (i : Impl.t) (frames : list NfcFrame.t) (b m : RateType) :
  frameEndFlag pattern i || streamErrorFlag pattern i || truncateErrorFlag pattern i = true ->
  0 < StreamStatus.bytes (Impl.streamStatus i) ->
  DecoderStatus.bitrate d = Some b ->
  DecoderStatus.modulation d = Some m ->
  exists (i' : Impl.t) (response : NfcFrame.t),
    pollFramePass pattern d i frames = Some (Return true d i' (frames ++ [response]))
    /\ NfcFrame.isPollFrame response = true
    /\ NfcFrame.bytes response
       = map (fun k => StreamStatus.buffer (Impl.streamStatus i) (Z.of_nat k))
             (seq 0 (Z.to_nat (StreamStatus.bytes (Impl.streamStatus i))))
    /\ NfcFrame.frameFlags response
       = Z.lor (Z.lor (if truncateErrorFlag pattern i || streamErrorFlag pattern i
                       then Truncated else 0)
                      (if negb (checkCrc response) then CrcError else 0))
               (Impl.chainedFlags i')
    /\ NfcFrame.framePhase response
       = (if (NfcFrame.get response 0 =? NFCA_REQB) && (NfcFrame.limit response =? 5)
          then SelectionFrame else ApplicationFrame)
    /\ Impl.chainedFlags i'
       = (if (NfcFrame.get response 0 =? NFCA_REQB) && (NfcFrame.limit response =? 5)
          then 0 else Impl.chainedFlags i)
    /\ Impl.streamStatus i' = StreamStatus.zero
    /\ FrameStatus.frameType (Impl.frameStatus i') = ListenFrame
    /\ Impl.lastFrameEnd i' = SymbolStatus.end_ (Impl.symbolStatus i) mod 2 ^ 32
    /\ NfcFrame.sampleStart response = FrameStatus.frameStart (Impl.frameStatus i)
    /\ NfcFrame.sampleEnd response = SymbolStatus.end_ (Impl.symbolStatus i).
Proof.
  intros Hterm Hbytes Hb Hm. unfold pollFramePass. rewrite Hterm, Hb, Hm.
  destruct (Z.gtb_spec (StreamStatus.bytes (Impl.streamStatus i)) 0) as [_ | Hle]; [| lia].
  match goal with
  | |- context [process d ?j ?r] => set (cleared := j); set (built := r)
  end.
  match goal with
  | built := buildResponse ?t ?br ?dd ?ii |- _ =>
      destruct (buildResponse_frame t br dd ii) as (Bpoll & Bflags & Bbytes & Bstart & Bend)
  end.
  fold built in Bpoll, Bflags, Bbytes, Bstart, Bend.
  pose proof (process_frame_timing d cleared built) as (Tstart & Tend & _).
  destruct (process_poll_frame d cleared built Bpoll)
    as (Pbytes & Ptype & _ & Pphase & Pmask & Pch & Pstream & _).
  destruct (process_poll_status d cleared built b Bpoll Hb)
    as (_ & _ & Plisten & Plast & _).
  destruct (process d cleared built) as [i' response]. cbn [fst snd] in *.
  exists i', response.
  assert (Hget : NfcFrame.get response 0 = NfcFrame.get built 0)
    by (unfold NfcFrame.get; rewrite Pbytes; reflexivity).
  assert (Hlimit : NfcFrame.limit response = NfcFrame.limit built)
    by (unfold NfcFrame.limit; rewrite Pbytes; reflexivity).
  rewrite Hget, Hlimit, (checkCrc_bytes response built Pbytes).
  split; [reflexivity |].
  split; [unfold NfcFrame.isPollFrame in *; rewrite Ptype; exact Bpoll |].
  split; [rewrite Pbytes; exact Bbytes |].
  split; [rewrite Pmask, Bflags; reflexivity |].
  split; [exact Pphase |]. split; [exact Pch |]. split; [exact Pstream |].
  split; [exact Plisten |]. split; [exact Plast |].
  split; [rewrite Tstart, Bstart; reflexivity | rewrite Tend, Bend; reflexivity].
Qed.

(** The frame bytes read back from a stream that holds them. *)
Lemma holds_bytes (bs : list Z) (i : Impl.t) :
  holds bs i ->
  map (fun k => StreamStatus.buffer (Impl.streamStatus i) (Z.of_nat k))
      (seq 0 (Z.to_nat (StreamStatus.bytes (Impl.streamStatus i)))) = bs.
Proof.
  intros (_ & _ & Hcount & Hbuffer). rewrite Hcount, Nat2Z.id.
  rewrite <- (map_nth_seq 0 bs) at 2.
  apply map_ext_in. intros k Hk. apply in_seq in Hk. apply Hbuffer. lia.
Qed.

(** What [hear] leaves of a stream that holds bytes. *)
Lemma holds_hear (bs : list Z) (h : Heard) (i : Impl.t) : holds bs i -> holds bs (hear h i).
Proof. intros H. exact H. Qed.

Lemma sameCore_hear (h : Heard) (i : Impl.t) : sameCore i (hear h i).
Proof. unfold sameCore. cbn. repeat split; reflexivity. Qed.

(** A payload followed by its CRC-16 passes the check. *)
Lemma checkCrc_with_crc (frame : NfcFrame.t) (payload : list Z) :
  payload <> [] ->
  NfcFrame.bytes frame = with_crc payload ->
  checkCrc frame = true.
Proof.
  intros Hpayload Hbytes.
  assert (Hn : (1 <= List.length payload)%nat).
  { destruct payload; [contradiction | cbn; lia]. }
  rewrite checkCrc_compare; rewrite Hbytes;
    unfold with_crc; rewrite ?length_app; cbn [List.length]; [| lia].
  replace (List.length payload + 2 - 2)%nat with (List.length payload) by lia.
  replace (List.length payload + 2 - 1)%nat with (S (List.length payload)) by lia.
  rewrite firstn_app, Nat.sub_diag, firstn_all, app_nil_r.
  rewrite !app_nth2 by lia.
  rewrite Nat.sub_diag.
  replace (S (List.length payload) - List.length payload)%nat with 1%nat by lia.
  cbn [nth firstn app]. rewrite split_16 by apply crc16_range.
  apply Z.eqb_refl.
Qed.

Lemma last_app_nonempty {A : Type} (l l' : list A) (d : A) :
  l' <> [] -> last (l ++ l') d = last l' d.
Proof.
  intros Hl'. induction l as [| a l IH]; cbn [app]; [reflexivity |].
  destruct (l ++ l') as [| x xs] eqn:E.
  - apply app_eq_nil in E as [_ E]. contradiction.
  - rewrite <- IH. reflexivity.
Qed.

Lemma last_app_cons {A : Type} (l l' : list A) (x d : A) :
  last (l ++ l' ++ [x]) d = x.
Proof. rewrite app_assoc. apply last_last. Qed.

(** The ten symbols at 0 of the end of frame close the frame: the bytes
    held go out, not truncated. *)
Lemma run_end_of_frame {P : Platform} (bs : list Z) (symbols rest : list Heard) (i : Impl.t)
  (frames : list NfcFrame.t) :
  Forall2 carries endOfFrameBits symbols ->
  Forall selected symbols ->
  holds bs i ->
  bs <> [] ->
  Z.of_nat (List.length bs) <> ProtocolStatus.maxFrameSize (Impl.protocolStatus i) ->
  exists (d' : DecoderStatus.t) (i' : Impl.t) (response : NfcFrame.t),
    framerRun (symbols ++ rest) i frames = Some (Return true d' i' (frames ++ [response]))
    /\ NfcFrame.isPollFrame response = true
    /\ NfcFrame.bytes response = bs
    /\ NfcFrame.frameFlags response
       = Z.lor (if checkCrc response then 0 else CrcError) (Impl.chainedFlags i')
    /\ NfcFrame.framePhase response
       = (if (NfcFrame.get response 0 =? NFCA_REQB) && (NfcFrame.limit response =? 5)
          then SelectionFrame else ApplicationFrame)
    /\ Impl.chainedFlags i'
       = (if (NfcFrame.get response 0 =? NFCA_REQB) && (NfcFrame.limit response =? 5)
          then 0 else Impl.chainedFlags i)
    /\ Impl.streamStatus i' = StreamStatus.zero
    /\ FrameStatus.frameType (Impl.frameStatus i') = ListenFrame
    /\ NfcFrame.sampleStart response = FrameStatus.frameStart (Impl.frameStatus i)
    /\ (forall h : Heard,
          NfcFrame.sampleEnd response = SymbolStatus.end_ (heardSymbol (last symbols h))).
Proof.
  intros Hsymbols Hselected Hholds Hbs Hmax.
  change endOfFrameBits
    with ([false] ++ map (fun k => Z.testbit 0 (Z.of_nat k)) (seq 0 8) ++ [false])
    in Hsymbols.
  apply Forall2_app_inv_l in Hsymbols as (start & others & Hstart & Hothers & ->).
  apply Forall2_app_inv_l in Hothers as (data & stop & Hdatabits & Hstop & ->).
  inversion Hstart as [| bit0 h0 bits0 nil0 Hc0 Hnil0]; subst.
  inversion Hnil0; subst.
  inversion Hstop as [| bit9 h9 bits9 nil9 Hc9 Hnil9]; subst.
  inversion Hnil9; subst.
  assert (Hsel9 : selected h9).
  { rewrite Forall_forall in Hselected. apply Hselected.
    apply in_or_app. right. apply in_or_app. right. left. reflexivity. }
  pose proof Hholds as (Hbits & Hdata & Hcount & Hbuffer).
  rewrite <- !app_assoc. cbn [app framerRun].
  rewrite (pass_start_bit h0 i frames Hc0) by (rewrite ?Hcount; assumption).
  match goal with
  | |- context [framerRun _ ?next frames] => set (i1 := next)
  end.
  destruct (run_data_bits 0 frames (h9 :: rest) 8 0 data i1 Hdatabits)
    as (i2 & Erun & Ebits & Edata & Ebytes & Ebuffer & Ecore); try reflexivity.
  - subst i1. cbn. exact Hdata.
  - subst i1. cbn. rewrite Hcount. exact Hmax.
  - rewrite Erun. cbn [framerRun].
    assert (Hcore2 : sameCore i i2).
    { apply (sameCore_trans i i1 i2); [| exact Ecore].
      subst i1. unfold sameCore. cbn. repeat split; reflexivity. }
    assert (Ebytes' : StreamStatus.bytes (Impl.streamStatus i2)
                      = StreamStatus.bytes (Impl.streamStatus i)).
    { rewrite Ebytes. subst i1. reflexivity. }
    assert (Ebuffer' : StreamStatus.buffer (Impl.streamStatus i2)
                       = StreamStatus.buffer (Impl.streamStatus i)).
    { rewrite Ebuffer. subst i1. reflexivity. }
    destruct Hc9 as [Hpattern9 Hvalue9]. cbn [symbolBit] in Hpattern9.
    destruct Hsel9 as [Hrate Hmodulation].
    destruct (DecoderStatus.bitrate (heardStatus h9)) as [b |] eqn:Eb; [| contradiction].
    destruct (DecoderStatus.modulation (heardStatus h9)) as [m |] eqn:Em; [| contradiction].
    assert (Hend : frameEndFlag PatternL (hear h9 i2) = true).
    { unfold frameEndFlag. cbn [Impl.streamStatus hear set Impl.set_symbolStatus
                                 Impl.set_modulationStatus].
      rewrite Ebits, Edata. reflexivity. }
    assert (Hstream : streamErrorFlag PatternL (hear h9 i2) = false).
    { unfold streamErrorFlag. rewrite Hend. reflexivity. }
    assert (Htruncate : truncateErrorFlag PatternL (hear h9 i2) = false).
    { unfold truncateErrorFlag. rewrite Hend. reflexivity. }
    rewrite Hpattern9.
    destruct (pollFramePass_return PatternL (heardStatus h9) (hear h9 i2) frames b m)
      as (i' & response & Epass & Rpoll & Rbytes & Rflags & Rphase & Rchained & Rstream
          & Rtype & _ & Rstart & Rend).
    + rewrite Hend. reflexivity.
    + cbn [Impl.streamStatus hear set Impl.set_symbolStatus Impl.set_modulationStatus].
      rewrite Ebytes', Hcount. destruct bs; [contradiction | cbn [List.length]; lia].
    + exact Eb.
    + exact Em.
    + exists (heardStatus h9), i', response. rewrite Epass.
      split; [reflexivity |]. split; [exact Rpoll |].
      split.
      { rewrite Rbytes.
        cbn [Impl.streamStatus hear set Impl.set_symbolStatus Impl.set_modulationStatus].
        rewrite Ebytes', Ebuffer'. apply holds_bytes. exact Hholds. }
      split.
      { rewrite Rflags, Hstream, Htruncate. cbn [orb]. rewrite Z.lor_0_l.
        destruct (checkCrc response); reflexivity. }
      split; [exact Rphase |].
      split.
      { rewrite Rchained. cbn [Impl.chainedFlags hear set Impl.set_symbolStatus
                                Impl.set_modulationStatus].
        destruct Hcore2 as (_ & _ & _ & _ & _ & _ & Hc). rewrite Hc. reflexivity. }
      split; [exact Rstream |]. split; [exact Rtype |].
      split.
      { rewrite Rstart.
        cbn [Impl.frameStatus hear set Impl.set_symbolStatus Impl.set_modulationStatus].
        destruct Hcore2 as (_ & Hf & _). rewrite Hf. reflexivity. }
      intros h. rewrite Rend.
      change (h0 :: data ++ [h9]) with ([h0] ++ data ++ [h9]).
      rewrite (last_app_cons [h0] data h9 h). reflexivity.
Qed.

(** X4 -- what goes on the air comes out of the framer: the characters of
    the bytes [bs] (start bit 0, eight data bits from the least
    significant one, stop bit 1) followed by ten symbols at 0, heard from
    an empty stream, make [decodePollFrame] return true with one frame
    appended that holds exactly [bs]; the frame is not flagged Truncated,
    it is flagged CrcError exactly when [checkCrc] fails on it, and not at
    all when [bs] is a payload followed by its CRC-16. It starts at the
    frame start that the detection has recorded and ends where the last
    symbol ends. *)
Theorem framer_round_trip {P : Platform} (bs : list Z) (symbols rest : list Heard)
  (i : Impl.t) (frames : list NfcFrame.t) :
  Forall2 carries (flat_map characterBits bs ++ endOfFrameBits) symbols ->
  Forall selected symbols ->
  Forall is_byte bs ->
  bs <> [] ->
  Z.of_nat (List.length bs) < ProtocolStatus.maxFrameSize (Impl.protocolStatus i) ->
  holds [] i ->
  exists (d' : DecoderStatus.t) (i' : Impl.t) (response : NfcFrame.t),
    framerRun (symbols ++ rest) i frames = Some (Return true d' i' (frames ++ [response]))
    /\ NfcFrame.isPollFrame response = true
    /\ NfcFrame.bytes response = bs
    /\ NfcFrame.frameFlags response
       = Z.lor (if checkCrc response then 0 else CrcError) (Impl.chainedFlags i')
    /\ (forall payload : list Z,
          payload <> [] -> bs = with_crc payload ->
          NfcFrame.frameFlags response = Impl.chainedFlags i')
    /\ Impl.chainedFlags i'
       = (if (NfcFrame.get response 0 =? NFCA_REQB) && (NfcFrame.limit response =? 5)
          then 0 else Impl.chainedFlags i)
    /\ Impl.streamStatus i' = StreamStatus.zero
    /\ FrameStatus.frameType (Impl.frameStatus i') = ListenFrame
    /\ NfcFrame.sampleStart response = FrameStatus.frameStart (Impl.frameStatus i)
    /\ (forall h : Heard,
          NfcFrame.sampleEnd response = SymbolStatus.end_ (heardSymbol (last symbols h))).
Proof.
  intros Hsymbols Hselected Hbytes Hbs Hmax Hholds.
  apply Forall2_app_inv_l in Hsymbols as (characters & closing & Hcharacters & Hclosing & ->).
  apply Forall_app in Hselected as [_ Hselected].
  rewrite <- app_assoc.
  destruct (run_characters frames (closing ++ rest) bs [] characters i Hcharacters Hholds Hbytes)
    as (i1 & Erun & Hholds1 & Hcore).
  { cbn [List.length]. lia. }
  cbn [app] in Hholds1.
  destruct (run_end_of_frame bs closing rest i1 frames Hclosing Hselected Hholds1 Hbs)
    as (d' & i' & response & Erun' & Rpoll & Rbytes & Rflags & _ & Rchained & Rstream & Rtype
        & Rstart & Rend).
  { destruct Hcore as (_ & _ & Hp & _). rewrite Hp. lia. }
  exists d', i', response. rewrite Erun, Erun'.
  split; [reflexivity |]. split; [exact Rpoll |]. split; [exact Rbytes |].
  split; [exact Rflags |].
  split.
  { intros payload Hpayload Ebs. rewrite Rflags.
    rewrite (checkCrc_with_crc response payload Hpayload) by congruence.
    apply Z.lor_0_l. }
  split.
  { rewrite Rchained. destruct Hcore as (_ & _ & _ & _ & _ & _ & Hc). rewrite Hc.
    reflexivity. }
  split; [exact Rstream |]. split; [exact Rtype |].
  split.
  { rewrite Rstart. destruct Hcore as (_ & Hf & _). rewrite Hf. reflexivity. }
  intros h. rewrite (Rend h).
  assert (Hclosed : closing <> []).
  { intros ->. inversion Hclosing. }
  rewrite (last_app_nonempty characters closing h Hclosed). reflexivity.
Qed.

(** Once the stream holds [maxFrameSize] bytes, whatever symbol comes
    next ends the frame, with the bytes held and the Truncated flag. *)
Lemma pass_full_buffer {P : Platform} (bs : list Z) (bit : bool) (h : Heard)
  (i : Impl.t) (frames : list NfcFrame.t) :
  carries bit h ->
  selected h ->
  holds bs i ->
  bs <> [] ->
  Z.of_nat (List.length bs) = ProtocolStatus.maxFrameSize (Impl.protocolStatus i) ->
  exists (i' : Impl.t) (response : NfcFrame.t),
    pollFramePass (SymbolStatus.pattern (heardSymbol h)) (heardStatus h) (hear h i) frames
    = Some (Return true (heardStatus h) i' (frames ++ [response]))
    /\ NfcFrame.bytes response = bs
    /\ Z.land (NfcFrame.frameFlags response) Truncated = Truncated
    /\ Impl.streamStatus i' = StreamStatus.zero.
Proof.
  intros [Hpattern Hvalue] [Hrate Hmodulation] Hholds Hbs Hmax.
  pose proof Hholds as (Hbits & Hdata & Hcount & Hbuffer).
  destruct (DecoderStatus.bitrate (heardStatus h)) as [b |] eqn:Eb; [| contradiction].
  destruct (DecoderStatus.modulation (heardStatus h)) as [m |] eqn:Em; [| contradiction].
  rewrite Hpattern.
  assert (Hend : frameEndFlag (symbolBit bit) (hear h i) = false).
  { unfold frameEndFlag. cbn [Impl.streamStatus hear set Impl.set_symbolStatus
                               Impl.set_modulationStatus].
    rewrite Hbits. reflexivity. }
  assert (Hcut : truncateErrorFlag (symbolBit bit) (hear h i)
                 || streamErrorFlag (symbolBit bit) (hear h i) = true).
  { unfold truncateErrorFlag, streamErrorFlag. rewrite Hend.
    cbn [Impl.streamStatus Impl.protocolStatus hear set Impl.set_symbolStatus
         Impl.set_modulationStatus].
    rewrite Hbits, Hcount, Hmax.
    destruct bit; cbn [symbolBit];
      [change (isPatternH PatternH) with true | change (isPatternH PatternL) with false];
      cbn; [reflexivity |].
    rewrite Z.eqb_refl. reflexivity. }
  destruct (pollFramePass_return (symbolBit bit) (heardStatus h) (hear h i) frames b m)
    as (i' & response & Epass & _ & Rbytes & Rflags & _ & _ & Rstream & _).
  - rewrite Hend. cbn [orb]. rewrite orb_comm. exact Hcut.
  - cbn [Impl.streamStatus hear set Impl.set_symbolStatus Impl.set_modulationStatus].
    rewrite Hcount. destruct bs; [contradiction | cbn [List.length]; lia].
  - exact Eb.
  - exact Em.
  - exists i', response. split; [exact Epass |].
    split.
    { rewrite Rbytes. apply (holds_bytes bs (hear h i)). exact Hholds. }
    split; [| exact Rstream].
    rewrite Rflags, Hcut. apply Z.bits_inj'. intros n Hn.
    rewrite Z.land_spec, !Z.lor_spec.
    destruct (Z.testbit Truncated n); [| apply andb_false_r].
    reflexivity.
Qed.

(** X5 -- a frame never grows beyond [maxFrameSize]: when the characters
    of [maxFrameSize] bytes have been heard from an empty stream,
    whatever symbol comes next ends the frame; [decodePollFrame] returns
    true with one frame appended that holds these bytes and is flagged
    Truncated, and the stream is cleared. *)
Theorem framer_truncates {P : Platform} (bs : list Z) (bit : bool)
  (symbols rest : list Heard) (i : Impl.t) (frames : list NfcFrame.t) :
  Forall2 carries (flat_map characterBits bs ++ [bit]) symbols ->
  Forall selected symbols ->
  Forall is_byte bs ->
  bs <> [] ->
  Z.of_nat (List.length bs) = ProtocolStatus.maxFrameSize (Impl.protocolStatus i) ->
  holds [] i ->
  exists (d' : DecoderStatus.t) (i' : Impl.t) (response : NfcFrame.t),
    framerRun (symbols ++ rest) i frames = Some (Return true d' i' (frames ++ [response]))
    /\ NfcFrame.bytes response = bs
    /\ Z.land (NfcFrame.frameFlags response) Truncated = Truncated
    /\ Impl.streamStatus i' = StreamStatus.zero.
Proof.
  intros Hsymbols Hselected Hbytes Hbs Hmax Hholds.
  apply Forall2_app_inv_l in Hsymbols as (characters & last & Hcharacters & Hlast & ->).
  inversion Hlast as [| bit' h bits' nil' Hcarries Hnil]; subst.
  inversion Hnil; subst.
  apply Forall_app in Hselected as [_ Hselected].
  inversion Hselected as [| h' l' Hsel _]; subst.
  rewrite <- app_assoc.
  destruct (run_characters frames ([h] ++ rest) bs [] characters i Hcharacters Hholds Hbytes)
    as (i1 & Erun & Hholds1 & Hcore).
  { cbn [List.length]. lia. }
  cbn [app] in Hholds1.
  destruct (pass_full_buffer bs bit h i1 frames Hcarries Hsel Hholds1 Hbs)
    as (i' & response & Epass & Rbytes & Rflags & Rstream).
  { destruct Hcore as (_ & _ & Hp & _). rewrite Hp. exact Hmax. }
  exists (heardStatus h), i', response. rewrite Erun. cbn [app framerRun].
  rewrite Epass. auto.
Qed.

(** ** The symbol decoder *)

(** One sample of the symbol decoder changes the symbol status and the
    modulation status only; the symbol status changes when a symbol ends,
    and then to PatternL with the value 0 or to PatternH with the value 1. *)
Lemma symbolSample_outcome {P : Platform} (b m : option RateType)
  (d : DecoderStatus.t) (i i' : Impl.t) (found : bool) :
  symbolSample b m d i = Some (found, i') ->
  exists (ss : SymbolStatus.t) (ms : RateType -> ModulationStatus.t),
    i' = i <| Impl.symbolStatus := ss |> <| Impl.modulationStatus := ms |>
    /\ (if found
        then exists bit : bool, carries bit (heardOf d ss ms)
        else ss = Impl.symbolStatus i).
Proof.
  unfold symbolSample.
  destruct b as [rb |]; [| discriminate].
  destruct m as [rm |]; [| discriminate].
  destruct (DecoderStatus.bitrate d) as [rb' |]; [| discriminate].
  destruct (integrateSample _ _ _) as [modulation signalData].
  match goal with
  | |- (if ?c then _ else _) = _ -> _ => destruct c
  end; intros E; apply Some_pair_inj in E as [<- <-].
  - eexists. eexists. split; [reflexivity |].
    exists (negb (fgt (deepValue d signalData) (Impl.minimumModulationThreshold i))).
    unfold carries. cbn.
    destruct (fgt _ _); split; reflexivity.
  - exists (Impl.symbolStatus i). eexists. split; [| reflexivity].
    destruct i. reflexivity.
Qed.

Lemma hear_twice (ss ss' : SymbolStatus.t) (ms ms' : RateType -> ModulationStatus.t)
  (i : Impl.t) :
  (i <| Impl.symbolStatus := ss |> <| Impl.modulationStatus := ms |>)
    <| Impl.symbolStatus := ss' |> <| Impl.modulationStatus := ms' |>
  = i <| Impl.symbolStatus := ss' |> <| Impl.modulationStatus := ms' |>.
Proof. reflexivity. Qed.

(** The loop of the symbol decoder: it stops on a symbol, with a sample
    consumed at least, or at the end of the buffer with the symbol status
    as it was. *)
Lemma symbolLoop_outcome {P : Platform} (b m : option RateType) (buffer : list float) :
  forall (d : DecoderStatus.t) (i : Impl.t) buffer' d' i',
    symbolLoop b m buffer d i = Some (buffer', d', i') ->
    exists (ss : SymbolStatus.t) (ms : RateType -> ModulationStatus.t),
      i' = i <| Impl.symbolStatus := ss |> <| Impl.modulationStatus := ms |>
      /\ ((ss = Impl.symbolStatus i /\ buffer' = [])
          \/ ((exists bit : bool, carries bit (heardOf d' ss ms))
              /\ (List.length buffer' < List.length buffer)%nat)).
Proof.
  induction buffer as [| s buffer IH]; intros d i buffer' d' i' E; cbn [symbolLoop] in E.
  - apply Some_triple_inj in E as (<- & <- & <-).
    exists (Impl.symbolStatus i), (Impl.modulationStatus i).
    split; [destruct i; reflexivity | left; auto].
  - destruct (symbolSample b m (takeSample s d) i) as [[[|] i1] |] eqn:Esample;
      [| | discriminate].
    + apply Some_triple_inj in E as (<- & <- & <-).
      apply symbolSample_outcome in Esample as (ss & ms & Ei & Hbit).
      exists ss, ms. split; [exact Ei |]. right. split; [exact Hbit |].
      cbn [List.length]. lia.
    + apply symbolSample_outcome in Esample as (ss1 & ms1 & Ei1 & Ess1).
      apply IH in E as (ss & ms & Ei & Hcases).
      exists ss, ms. subst i1. rewrite hear_twice in Ei.
      split; [exact Ei |].
      cbn [Impl.symbolStatus set Impl.set_symbolStatus Impl.set_modulationStatus] in Hcases.
      destruct Hcases as [[Ess Ebuffer] | [Hbit Hlt]].
      * left. split; [congruence | exact Ebuffer].
      * right. split; [exact Hbit |]. cbn [List.length]. lia.
Qed.

(** What [decodePollFrameSymbolAsk] returns. *)
Lemma decodePollFrameSymbolAsk_outcome {P : Platform} (buffer buffer' : list float)
  (d d' : DecoderStatus.t) (i i' : Impl.t) (pattern : PatternType) :
  decodePollFrameSymbolAsk buffer d i = Some (pattern, buffer', d', i') ->
  exists (ss : SymbolStatus.t) (ms : RateType -> ModulationStatus.t),
    i' = i <| Impl.symbolStatus := ss |> <| Impl.modulationStatus := ms |>
    /\ pattern = SymbolStatus.pattern ss
    /\ ((pattern = Invalid
         /\ ss = (Impl.symbolStatus i) <| SymbolStatus.pattern := Invalid |>
         /\ buffer' = [])
        \/ ((exists bit : bool, carries bit (heardOf d' ss ms))
            /\ (List.length buffer' < List.length buffer)%nat)).
Proof.
  unfold decodePollFrameSymbolAsk. intros E.
  destruct (symbolLoop _ _ buffer d _) as [[[buffer1 d1] i1] |] eqn:Eloop; [| discriminate].
  assert (E4 : SymbolStatus.pattern (Impl.symbolStatus i1) = pattern
               /\ buffer1 = buffer' /\ d1 = d' /\ i1 = i').
  { injection E as <- <- <- <-. auto. }
  destruct E4 as (<- & <- & <- & <-). clear E.
  apply symbolLoop_outcome in Eloop as (ss & ms & Ei & Hcases).
  exists ss, ms.
  split; [rewrite Ei; destruct i; reflexivity |].
  split; [rewrite Ei; reflexivity |].
  cbn [Impl.symbolStatus set Impl.set_symbolStatus] in Hcases.
  destruct Hcases as [[Ess Ebuffer] | Hbit].
  - left. rewrite Ei, Ess. auto.
  - right. exact Hbit.
Qed.

(** X6 -- [decodePollFrameSymbolAsk] never returns NoPattern. It returns
    Invalid only with the buffer read to its end, the symbol status left
    as it was but for the pattern. Else it returns PatternL with the
    symbol value 0 or PatternH with the symbol value 1, and has consumed a
    sample at least. In both cases it changes nothing of the decoder core
    but the symbol status and the modulation status. *)
Theorem decodePollFrameSymbolAsk_returns {P : Platform} (buffer buffer' : list float)
  (d d' : DecoderStatus.t) (i i' : Impl.t) (pattern : PatternType) :
  decodePollFrameSymbolAsk buffer d i = Some (pattern, buffer', d', i') ->
  pattern = SymbolStatus.pattern (Impl.symbolStatus i')
  /\ pattern <> NoPattern
  /\ (pattern = Invalid ->
      buffer' = []
      /\ Impl.symbolStatus i'
         = (Impl.symbolStatus i) <| SymbolStatus.pattern := Invalid |>)
  /\ (pattern <> Invalid ->
      (List.length buffer' < List.length buffer)%nat
      /\ ((pattern = PatternL /\ SymbolStatus.value (Impl.symbolStatus i') = 0)
          \/ (pattern = PatternH /\ SymbolStatus.value (Impl.symbolStatus i') = 1)))
  /\ Impl.streamStatus i' = Impl.streamStatus i
  /\ sameCore i i'.
Proof.
  intros E. apply decodePollFrameSymbolAsk_outcome in E as (ss & ms & -> & -> & Hcases).
  cbn [Impl.symbolStatus Impl.streamStatus set Impl.set_symbolStatus
       Impl.set_modulationStatus].
  split; [reflexivity |].
  assert (Hcore : sameCore i (i <| Impl.symbolStatus := ss |>
                                <| Impl.modulationStatus := ms |>)).
  { unfold sameCore. cbn. repeat split; reflexivity. }
  destruct Hcases as [(Einvalid & Ess & Ebuffer) | [[bit [Hpattern Hvalue]] Hlt]].
  - rewrite Einvalid. split; [discriminate |].
    split; [auto |]. split; [intros H; contradiction H; reflexivity |].
    split; [reflexivity | exact Hcore].
  - cbn [heardSymbol] in Hpattern, Hvalue. rewrite Hpattern, Hvalue.
    split; [destruct bit; discriminate |].
    split; [destruct bit; discriminate |].
    split; [| split; [reflexivity | exact Hcore]].
    intros _. split; [exact Hlt |]. destruct bit; auto.
Qed.

(** ** [decodePollFrame] as a run of the framer *)

Lemma decodePollFrameLoop_symbols {P : Platform} (fuel : nat) :
  forall buffer d i frames result buffer' d' i' frames',
    (List.length buffer < fuel)%nat ->
    decodePollFrameLoop fuel buffer d i frames = Some (result, buffer', d', i', frames') ->
    exists symbols : list Heard,
      Forall (fun h => exists bit : bool, carries bit h) symbols
      /\ (List.length symbols + List.length buffer' <= List.length buffer)%nat
      /\ (framerRun symbols i frames = Some (Return result d' i' frames')
          \/ (result = false /\ frames' = frames /\ buffer' = []
              /\ exists (i0 : Impl.t) (ms : RateType -> ModulationStatus.t),
                  framerRun symbols i frames = Some (Continue i0)
                  /\ i' = i0 <| Impl.symbolStatus :=
                                  (Impl.symbolStatus i0)
                                    <| SymbolStatus.pattern := Invalid |> |>
                             <| Impl.modulationStatus := ms |>)).
Proof.
  induction fuel as [| fuel IH];
    intros buffer d i frames result buffer' d' i' frames' Hfuel E; [lia |].
  cbn [decodePollFrameLoop] in E.
  destruct (decodePollFrameSymbolAsk buffer d i) as [[[[pattern buffer1] d1] i1] |] eqn:Eask;
    [| discriminate].
  apply decodePollFrameSymbolAsk_outcome in Eask as (ss & ms & Ei1 & Epattern & Hcases).
  destruct Hcases as [(Einvalid & Ess & Ebuffer) | [Hbit Hlt]].
  - rewrite Einvalid in E. cbn in E.
    injection E as <- <- <- <- <-.
    exists []. split; [constructor |]. split; [subst buffer1; cbn; lia |].
    right. split; [reflexivity |]. split; [reflexivity |]. split; [exact Ebuffer |].
    exists i, ms. split; [reflexivity |]. rewrite Ei1, Ess. reflexivity.
  - assert (Hcode : (PatternType_code pattern >? PatternType_code NoPattern) = true).
    { destruct Hbit as [bit [Hpattern _]]. cbn [heardSymbol] in Hpattern.
      rewrite Epattern, Hpattern. destruct bit; reflexivity. }
    rewrite Hcode in E.
    set (h := heardOf d1 ss ms).
    assert (Epass : pollFramePass pattern d1 i1 frames
                    = pollFramePass (SymbolStatus.pattern (heardSymbol h)) (heardStatus h)
                                    (hear h i) frames).
    { rewrite Epattern, Ei1. reflexivity. }
    rewrite Epass in E.
    destruct (pollFramePass (SymbolStatus.pattern (heardSymbol h)) (heardStatus h)
                            (hear h i) frames)
      as [[result2 d2 i2 frames2 | i2] |] eqn:Erun; [| | discriminate].
    + injection E as <- <- <- <- <-.
      exists [h]. split; [constructor; [exact Hbit | constructor] |].
      split; [cbn [List.length]; lia |].
      left. cbn [framerRun]. rewrite Erun. reflexivity.
    + apply IH in E as (symbols & Hsymbols & Hcount & Hrun); [| lia].
      exists (h :: symbols). split; [constructor; [exact Hbit | exact Hsymbols] |].
      split; [cbn [List.length]; lia |].
      cbn [framerRun]. rewrite Erun. exact Hrun.
Qed.

(** X7 -- [decodePollFrame] is the run of the framer over the symbols that
    the symbol decoder hears in the buffer: each of them is a PatternL
    with the value 0 or a PatternH with the value 1 and has taken a sample
    at least, and either a pass of the framer returns, with the result of
    [decodePollFrame], or the buffer comes to its end, and
    [decodePollFrame] returns false with the frame list as it was and the
    state of the framer kept for the next buffer. *)
Theorem decodePollFrame_symbols {P : Platform} (buffer buffer' : list float)
  (d d' : DecoderStatus.t) (i i' : Impl.t) (frames frames' : list NfcFrame.t)
  (result : bool) :
  decodePollFrame buffer d i frames = Some (result, buffer', d', i', frames') ->
  exists symbols : list Heard,
    Forall (fun h => exists bit : bool, carries bit h) symbols
    /\ (List.length symbols + List.length buffer' <= List.length buffer)%nat
    /\ (framerRun symbols i frames = Some (Return result d' i' frames')
        \/ (result = false /\ frames' = frames /\ buffer' = []
            /\ exists i0 : Impl.t,
                framerRun symbols i frames = Some (Continue i0)
                /\ Impl.streamStatus i' = Impl.streamStatus i0
                /\ sameCore i0 i')).
Proof.
  unfold decodePollFrame. intros E.
  apply decodePollFrameLoop_symbols in E as (symbols & Hsymbols & Hcount & Hrun); [| lia].
  exists symbols. split; [exact Hsymbols |]. split; [exact Hcount |].
  destruct Hrun as [Hrun | (-> & -> & -> & i0 & ms & Hrun & ->)]; [left; exact Hrun |].
  right. split; [reflexivity |]. split; [reflexivity |]. split; [reflexivity |].
  exists i0. split; [exact Hrun |]. split; [reflexivity |].
  unfold sameCore. cbn. repeat split; reflexivity.
Qed.

(** ** The symbol clock *)

Lemma integrateSample_symbol {P : Platform} (d : DecoderStatus.t) (bitrate : BitrateParams.t)
  (m : ModulationStatus.t) :
  let m' := fst (integrateSample d bitrate m) in
  ModulationStatus.searchStartTime m' = ModulationStatus.searchStartTime m
  /\ ModulationStatus.searchEndTime m' = ModulationStatus.searchEndTime m
  /\ ModulationStatus.detectorPeek m' = ModulationStatus.detectorPeek m
  /\ ModulationStatus.symbolStartTime m' = ModulationStatus.symbolStartTime m
  /\ ModulationStatus.symbolEndTime m' = ModulationStatus.symbolEndTime m
  /\ ModulationStatus.symbolSyncTime m' = ModulationStatus.symbolSyncTime m.
Proof. unfold integrateSample. cbv zeta. repeat split; reflexivity. Qed.

(** X15 -- the symbol clock of [decodePollFrameSymbolAsk], sample by
    sample. An edge is accepted when the clock is strictly inside the
    search window and the rectified edge detector is above 0.001, above
    the detector peak, with a modulation depth above the minimum
    threshold. An accepted edge restarts the symbol an eighth of a period
    before the sample; else, after a symbol has been returned (sync time
    0), the next symbol starts where the last one ended; else the symbol
    in progress keeps its start and its end. A symbol that starts ends a
    period later and is sampled half a period after its start. A symbol
    is returned exactly when the clock is at the sync time: its value is
    0 with the pattern L when the depth is above the minimum threshold,
    else 1 with the pattern H, its start and end are those of the symbol
    clock less the detection delay, the sync time and the detector peak
    are cleared and the search window for the next edge is a quarter of a
    period on either side of the symbol end. Else the symbol status is
    left as it is. *)
Theorem symbol_clock {P : Platform} (rb rm rb' : RateType) (d : DecoderStatus.t)
  (i i' : Impl.t) (found : bool) :
  symbolSample (Some rb) (Some rm) d i = Some (found, i') ->
  DecoderStatus.bitrate d = Some rb' ->
  let bitrate := Impl.bitrateParams i rb in
  let period1 := BitrateParams.period1SymbolSamples bitrate in
  let period2 := BitrateParams.period2SymbolSamples bitrate in
  let period4 := BitrateParams.period4SymbolSamples bitrate in
  let period8 := BitrateParams.period8SymbolSamples bitrate in
  let delay := BitrateParams.symbolDelayDetect bitrate in
  let clock := DecoderStatus.signalClock d in
  let minimum := Impl.minimumModulationThreshold i in
  let ms := Impl.modulationStatus i rm in
  let sample := integrateSample d bitrate ms in
  let edge := fabs (edgeValue bitrate (Impl.bitrateParams i rb') (fst sample)) in
  let depth := deepValue d (snd sample) in
  let accepted :=
    (clock >? ModulationStatus.searchStartTime ms)
    && (clock <? ModulationStatus.searchEndTime ms)
    && (above_0_001 edge && flt (ModulationStatus.detectorPeek ms) edge
        && fgt depth minimum) in
  let starts := accepted || (ModulationStatus.symbolSyncTime ms =? 0) in
  let start' :=
    if accepted then uint (clock - period8)
    else if ModulationStatus.symbolSyncTime ms =? 0 then ModulationStatus.symbolEndTime ms
    else ModulationStatus.symbolStartTime ms in
  let end' := if starts then uint (start' + period1)
              else ModulationStatus.symbolEndTime ms in
  let sync' := if starts then uint (start' + period2)
               else ModulationStatus.symbolSyncTime ms in
  let ms' := Impl.modulationStatus i' rm in
  let ss' := Impl.symbolStatus i' in
  ModulationStatus.symbolStartTime ms' = start'
  /\ ModulationStatus.symbolEndTime ms' = end'
  /\ found = (clock =? sync')
  /\ (found = true ->
      ModulationStatus.symbolSyncTime ms' = 0
      /\ ModulationStatus.detectorPeek ms' = fzero
      /\ ModulationStatus.searchStartTime ms' = uint (end' - period4)
      /\ ModulationStatus.searchEndTime ms' = uint (end' + period4)
      /\ SymbolStatus.value ss' = (if fgt depth minimum then 0 else 1)
      /\ SymbolStatus.pattern ss' = (if fgt depth minimum then PatternL else PatternH)
      /\ SymbolStatus.start ss' = uint (start' - delay)
      /\ SymbolStatus.end_ ss' = uint (end' - delay)
      /\ SymbolStatus.length ss' = uint (uint (end' - delay) - uint (start' - delay)))
  /\ (found = false ->
      ModulationStatus.symbolSyncTime ms' = sync'
      /\ ModulationStatus.detectorPeek ms'
         = (if accepted then edge else ModulationStatus.detectorPeek ms)
      /\ ModulationStatus.searchStartTime ms' = ModulationStatus.searchStartTime ms
      /\ ModulationStatus.searchEndTime ms' = ModulationStatus.searchEndTime ms
      /\ Impl.symbolStatus i' = Impl.symbolStatus i).
Proof.
  intros E Hrate. cbv zeta.
  unfold symbolSample in E. rewrite Hrate in E.
  destruct (integrateSample_symbol d (Impl.bitrateParams i rb) (Impl.modulationStatus i rm))
    as (Hs & He & Hk & Hstart & Hend & Hsync).
  rewrite <- Hs, <- He, <- Hk, <- Hstart, <- Hend, <- Hsync.
  destruct (integrateSample d (Impl.bitrateParams i rb) (Impl.modulationStatus i rm))
    as [modulation signalData].
  cbn [fst snd] in *. clear Hs He Hk Hstart Hend Hsync.
  revert E.
  destruct ((DecoderStatus.signalClock d >? ModulationStatus.searchStartTime modulation)
            && (DecoderStatus.signalClock d <? ModulationStatus.searchEndTime modulation));
    [match goal with
     | |- context [if ?c then _ else modulation] => destruct c
     end |];
    cbn [andb orb ModulationStatus.symbolSyncTime ModulationStatus.symbolEndTime
         ModulationStatus.symbolStartTime set ModulationStatus.set_detectorPeek
         ModulationStatus.set_symbolEndTime ModulationStatus.set_symbolSyncTime
         ModulationStatus.set_symbolStartTime Z.eqb];
    try destruct (ModulationStatus.symbolSyncTime modulation =? 0);
    cbn [ModulationStatus.symbolSyncTime ModulationStatus.symbolEndTime
         ModulationStatus.symbolStartTime set ModulationStatus.set_detectorPeek
         ModulationStatus.set_symbolEndTime ModulationStatus.set_symbolSyncTime
         ModulationStatus.set_symbolStartTime];
    match goal with
    | |- (if ?c then _ else _) = _ -> _ => destruct c
    end;
    intros E; apply Some_pair_inj in E as [<- <-];
    cbn [Impl.modulationStatus Impl.symbolStatus set Impl.set_modulationStatus
         Impl.set_symbolStatus];
    rewrite upd_same;
    cbn [ModulationStatus.symbolSyncTime ModulationStatus.symbolEndTime
         ModulationStatus.symbolStartTime ModulationStatus.searchStartTime
         ModulationStatus.searchEndTime ModulationStatus.detectorPeek
         SymbolStatus.start SymbolStatus.end_ SymbolStatus.length
         SymbolStatus.value SymbolStatus.pattern
         set ModulationStatus.set_detectorPeek
         ModulationStatus.set_symbolEndTime ModulationStatus.set_symbolSyncTime
         ModulationStatus.set_symbolStartTime ModulationStatus.set_searchStartTime
         ModulationStatus.set_searchEndTime
         SymbolStatus.set_value SymbolStatus.set_start SymbolStatus.set_end_
         SymbolStatus.set_length SymbolStatus.set_pattern];
    (split; [reflexivity |]); (split; [reflexivity |]); (split; [reflexivity |]);
    (split; [intros Hfound; first [discriminate Hfound | repeat split; reflexivity] |]);
    intros Hfound; first [discriminate Hfound | idtac];
    repeat split; try reflexivity; destruct i; reflexivity.
Qed.

(** ** The start-of-frame machine between its two edges *)

(** X8 -- the stage IDLE of [detectModulation], on a sample that passes
    the power gate and does not overshoot. The call returns false and
    leaves the decoder status and the frame status. An edge is recorded
    when the edge detector is below -0.001 and below the detector peak:
    the peak time is then the clock and the window closes a quarter of a
    period later. Inside the window
    [searchStartTime < clock <= searchEndTime], when the clock reaches
    the close of the window with an edge recorded at [p], the stage is
    END and the window [p + 2 period1 - period2, p + 3 period1 + period2],
    with the peak time and the detector peak cleared and the symbol times
    kept; with no edge recorded the search is abandoned: the stage is
    BEGIN and the window, the peak time, the detector peak and the symbol
    start and end are zero; before the close the stage stays IDLE.
    Outside the window an edge detector above 0.001 in absolute value
    abandons the search in the same way, and a quiet sample leaves the
    stage, the window, the peak and the symbol times. *)
Theorem sof_idle_window {P : Platform} (d : DecoderStatus.t) (i : Impl.t) :
  let bitrate := Impl.bitrateParams i r106k in
  let period1 := BitrateParams.period1SymbolSamples bitrate in
  let period2 := BitrateParams.period2SymbolSamples bitrate in
  let period4 := BitrateParams.period4SymbolSamples bitrate in
  let clock := DecoderStatus.signalClock d in
  let ms := Impl.modulationStatus i r106k in
  let sample := integrateSample d bitrate ms in
  let edge := edgeValue bitrate bitrate (fst sample) in
  let depth := deepValue d (snd sample) in
  let result := detectModulation d i in
  let m' := Impl.modulationStatus (snd result) r106k in
  let inside :=
    (clock >? ModulationStatus.searchStartTime ms)
    && (clock <=? ModulationStatus.searchEndTime ms) in
  let recorded :=
    below_minus_0_001 edge && fgt (ModulationStatus.detectorPeek ms) edge in
  let p := if recorded then clock else ModulationStatus.searchPeakTime ms in
  let close := if recorded then uint (clock + period4)
               else ModulationStatus.searchEndTime ms in
  let abandoned :=
    ModulationStatus.searchStage m' = SOF_BEGIN
    /\ ModulationStatus.searchStartTime m' = 0
    /\ ModulationStatus.searchEndTime m' = 0
    /\ ModulationStatus.searchPeakTime m' = 0
    /\ ModulationStatus.detectorPeek m' = fzero
    /\ ModulationStatus.symbolStartTime m' = 0
    /\ ModulationStatus.symbolEndTime m' = 0 in
  fgt (SignalStatus.powerAverage (DecoderStatus.signalStatus d))
      (DecoderStatus.powerLevelThreshold d) = true ->
  fgt depth (Impl.maximumModulationThreshold i) = false ->
  stageOf i = SOF_IDLE ->
  fst (fst result) = false
  /\ snd (fst result) = d
  /\ Impl.frameStatus (snd result) = Impl.frameStatus i
  /\ (inside = true -> clock = close -> p <> 0 ->
      ModulationStatus.searchStage m' = SOF_END
      /\ ModulationStatus.searchStartTime m' = uint (p + 2 * period1 - period2)
      /\ ModulationStatus.searchEndTime m' = uint (p + 3 * period1 + period2)
      /\ ModulationStatus.searchPeakTime m' = 0
      /\ ModulationStatus.detectorPeek m' = fzero
      /\ ModulationStatus.symbolStartTime m' = ModulationStatus.symbolStartTime ms
      /\ ModulationStatus.symbolEndTime m' = ModulationStatus.symbolEndTime ms)
  /\ (inside = true -> clock = close -> p = 0 -> abandoned)
  /\ (inside = true -> clock <> close ->
      ModulationStatus.searchStage m' = SOF_IDLE
      /\ ModulationStatus.searchStartTime m' = ModulationStatus.searchStartTime ms
      /\ ModulationStatus.searchEndTime m' = close
      /\ ModulationStatus.searchPeakTime m' = p
      /\ ModulationStatus.detectorPeek m'
         = (if recorded then edge else ModulationStatus.detectorPeek ms)
      /\ ModulationStatus.symbolStartTime m' = ModulationStatus.symbolStartTime ms
      /\ ModulationStatus.symbolEndTime m' = ModulationStatus.symbolEndTime ms)
  /\ (inside = false -> above_0_001 (fabs edge) = true -> abandoned)
  /\ (inside = false -> above_0_001 (fabs edge) = false ->
      ModulationStatus.searchStage m' = SOF_IDLE
      /\ ModulationStatus.searchStartTime m' = ModulationStatus.searchStartTime ms
      /\ ModulationStatus.searchEndTime m' = ModulationStatus.searchEndTime ms
      /\ ModulationStatus.searchPeakTime m' = ModulationStatus.searchPeakTime ms
      /\ ModulationStatus.detectorPeek m' = ModulationStatus.detectorPeek ms
      /\ ModulationStatus.symbolStartTime m' = ModulationStatus.symbolStartTime ms
      /\ ModulationStatus.symbolEndTime m' = ModulationStatus.symbolEndTime ms).
Proof.
  intros bitrate period1 period2 period4 clock ms sample edge depth result m'
    inside recorded p close abandoned Hpower Hdepth Hidle.
  destruct (integrateSample_search d bitrate ms)
    as (Hstage & Hs & He & Hp & Hk & Hstart & Hend).
  fold sample in Hstage, Hs, He, Hp, Hk, Hstart, Hend.
  unfold stageOf in Hidle. fold ms in Hidle. rewrite Hidle in Hstage.
  assert (Hresult :
            result
            = (false, d,
               i <| Impl.modulationStatus :=
                      upd (Impl.modulationStatus i) r106k
                          (sofIdle clock bitrate edge (fst sample)) |>)).
  { subst result. unfold detectModulation. rewrite Hpower.
    fold bitrate clock ms sample. unfold depth, edge in *.
    destruct sample as [modulation0 signalData]. cbn [fst snd] in *.
    rewrite Hdepth, Hstage. reflexivity. }
  subst abandoned m'. rewrite Hresult.
  cbn [fst snd Impl.modulationStatus Impl.frameStatus set Impl.set_modulationStatus].
  rewrite upd_same.
  split; [reflexivity |]. split; [reflexivity |]. split; [reflexivity |].
  unfold sofIdle, inSearchWindow. rewrite Hs, He. fold inside.
  unfold sofIdleClose, sofIdlePeak, sofPeak, sofAbandon. rewrite Hk. fold recorded.
  subst p close period1 period2 period4.
  destruct inside.
  - destruct recorded;
      cbn [ModulationStatus.searchEndTime ModulationStatus.searchPeakTime set
           ModulationStatus.set_detectorPeek ModulationStatus.set_searchPeakTime
           ModulationStatus.set_searchEndTime];
      rewrite ?He, ?Hp;
      (split; [intros _ Hclose Hpeak; rewrite <- Hclose, Z.eqb_refl;
                 apply Z.eqb_neq in Hpeak; rewrite Hpeak; cbn;
                 rewrite ?Hstart, ?Hend; repeat split; reflexivity |]);
      (split; [intros _ Hclose Hpeak; rewrite <- Hclose, Z.eqb_refl, Hpeak; cbn;
                 repeat split; reflexivity |]);
      (split; [intros _ Hopen; apply Z.eqb_neq in Hopen; rewrite Hopen; cbn;
                 rewrite ?Hstage, ?Hidle, ?Hs, ?He, ?Hp, ?Hk, ?Hstart, ?Hend;
                 repeat split; reflexivity |]);
      (split; intros Hout; discriminate Hout).
  - do 3 (split; [intros Hin; discriminate Hin |]).
    split; intros _ Hedge; rewrite Hedge; cbn;
      rewrite ?Hstage, ?Hidle, ?Hs, ?He, ?Hp, ?Hk, ?Hstart, ?Hend; repeat split; reflexivity.
Qed.

(** From IDLE a call leads to BEGIN, IDLE or END. *)
Lemma detect_from_idle {P : Platform} (d : DecoderStatus.t) (i : Impl.t) :
  stageOf i = SOF_IDLE ->
  stageOf (snd (detectModulation d i)) = SOF_BEGIN
  \/ stageOf (snd (detectModulation d i)) = SOF_IDLE
  \/ stageOf (snd (detectModulation d i)) = SOF_END.
Proof.
  unfold detectModulation, stageOf. intros Hidle.
  destruct (integrateSample_search d (Impl.bitrateParams i r106k)
              (Impl.modulationStatus i r106k)) as (Hstage & _).
  destruct (integrateSample d _ _) as [modulation signalData]. cbn [fst] in Hstage.
  rewrite Hidle in Hstage.
  destruct (fgt (SignalStatus.powerAverage _) _); [| right; left; exact Hidle].
  destruct (fgt (deepValue _ _) _).
  - left. reflexivity.
  - rewrite Hstage. cbn [Z.eqb Pos.eqb SOF_BEGIN SOF_IDLE snd].
    cbn [Impl.modulationStatus set Impl.set_modulationStatus].
    rewrite upd_same.
    unfold sofIdle, sofIdleClose, sofIdlePeak, sofPeak, sofAbandon.
    repeat case_if; cbn; auto.
Qed.

(** From END a call leads to BEGIN or to END, and to BEGIN when it
    detects. *)
Lemma detect_from_end {P : Platform} (d : DecoderStatus.t) (i : Impl.t) :
  stageOf i = SOF_END ->
  (stageOf (snd (detectModulation d i)) = SOF_BEGIN
   \/ stageOf (snd (detectModulation d i)) = SOF_END)
  /\ (fst (fst (detectModulation d i)) = true ->
      stageOf (snd (detectModulation d i)) = SOF_BEGIN).
Proof.
  unfold detectModulation, stageOf. intros Hend.
  destruct (integrateSample_search d (Impl.bitrateParams i r106k)
              (Impl.modulationStatus i r106k)) as (Hstage & _).
  destruct (integrateSample d _ _) as [modulation signalData]. cbn [fst] in Hstage.
  rewrite Hend in Hstage.
  destruct (fgt (SignalStatus.powerAverage _) _);
    [| split; [right; exact Hend | discriminate]].
  destruct (fgt (deepValue _ _) _).
  - split; [left; reflexivity | discriminate].
  - rewrite Hstage. cbn [Z.eqb Pos.eqb SOF_BEGIN SOF_IDLE SOF_END snd].
    unfold sofEndPeak, sofPeak, sofAbandon, sofConfirm.
    repeat case_if;
      cbn [fst snd Impl.modulationStatus set Impl.set_modulationStatus
           Impl.set_frameStatus];
      rewrite upd_same; cbn; (split; [auto | try discriminate; auto]).
Qed.

(** X9 -- the order of the stages of the start-of-frame machine: a call
    of [detectModulation] leads from BEGIN to BEGIN or IDLE, from IDLE to
    BEGIN, IDLE or END, from END to BEGIN or END; it returns true from
    END only and is then back in BEGIN. Hence, from BEGIN, neither of the
    next two calls reports a frame, whatever the samples. *)
Theorem detect_stage_order {P : Platform} (d : DecoderStatus.t) (i : Impl.t) :
  let detected := fst (fst (detectModulation d i)) in
  let stage := stageOf i in
  let stage' := stageOf (snd (detectModulation d i)) in
  (stage = SOF_BEGIN -> stage' = SOF_BEGIN \/ stage' = SOF_IDLE)
  /\ (stage = SOF_IDLE -> stage' = SOF_BEGIN \/ stage' = SOF_IDLE \/ stage' = SOF_END)
  /\ (stage = SOF_END -> stage' = SOF_BEGIN \/ stage' = SOF_END)
  /\ (detected = true -> stage = SOF_END /\ stage' = SOF_BEGIN)
  /\ (stage = SOF_BEGIN ->
      forall d2 : DecoderStatus.t,
        detected = false
        /\ fst (fst (detectModulation d2 (snd (detectModulation d i)))) = false).
Proof.
  cbv zeta.
  split; [apply detect_from_begin |].
  split; [apply detect_from_idle |].
  split; [intros Hend; apply (detect_from_end d i Hend) |].
  split.
  - intros Hdetected. pose proof (detect_needs_end d i Hdetected) as Hend.
    split; [exact Hend |]. apply (detect_from_end d i Hend). exact Hdetected.
  - intros Hbegin d2. split.
    + destruct (fst (fst (detectModulation d i))) eqn:E; [| reflexivity].
      apply detect_needs_end in E. rewrite Hbegin in E. discriminate E.
    + destruct (fst (fst (detectModulation d2 _))) eqn:E; [| reflexivity].
      apply detect_needs_end in E.
      destruct (detect_from_begin d i Hbegin) as [Hs | Hs]; rewrite Hs in E; discriminate E.
Qed.

Lemma upd_other {A : Type} (a : RateType -> A) (r r' : RateType) (v : A) :
  r' <> r -> upd a r v r' = a r'.
Proof. unfold upd. destruct r, r'; intros H; try reflexivity; contradiction H; reflexivity. Qed.

(** X10 -- what [detectModulation] leaves alone: the stream, the symbol
    status, the protocol parameters, the bitrate table, the two
    thresholds, [lastFrameEnd], the chained flags and the modulation
    status of the rates other than 106k, always; the decoder status and
    the frame status when it returns false; the decoder core as a whole
    when the power average is not above [powerLevelThreshold]. When it
    returns true the frame status keeps its guard and waiting times and
    the decoder status changes by the two selections only. *)
Theorem detect_frame {P : Platform} (d : DecoderStatus.t) (i : Impl.t) :
  let result := detectModulation d i in
  let detected := fst (fst result) in
  let d' := snd (fst result) in
  let i' := snd result in
  Impl.streamStatus i' = Impl.streamStatus i
  /\ Impl.symbolStatus i' = Impl.symbolStatus i
  /\ Impl.bitrateParams i' = Impl.bitrateParams i
  /\ Impl.protocolStatus i' = Impl.protocolStatus i
  /\ Impl.minimumModulationThreshold i' = Impl.minimumModulationThreshold i
  /\ Impl.maximumModulationThreshold i' = Impl.maximumModulationThreshold i
  /\ Impl.lastFrameEnd i' = Impl.lastFrameEnd i
  /\ Impl.chainedFlags i' = Impl.chainedFlags i
  /\ (forall rate : RateType,
        rate <> r106k -> Impl.modulationStatus i' rate = Impl.modulationStatus i rate)
  /\ (detected = false -> d' = d /\ Impl.frameStatus i' = Impl.frameStatus i)
  /\ (detected = true ->
      d' = d <| DecoderStatus.bitrate := Some r106k |>
             <| DecoderStatus.modulation := Some r106k |>
      /\ Impl.frameStatus i'
         = (Impl.frameStatus i)
             <| FrameStatus.frameType := PollFrame |>
             <| FrameStatus.symbolRate := FrameStatus.symbolRate (Impl.frameStatus i') |>
             <| FrameStatus.frameStart := FrameStatus.frameStart (Impl.frameStatus i') |>
             <| FrameStatus.frameEnd := 0 |>)
  /\ (fgt (SignalStatus.powerAverage (DecoderStatus.signalStatus d))
          (DecoderStatus.powerLevelThreshold d) = false -> i' = i).
Proof.
  cbv zeta. unfold detectModulation.
  destruct (integrateSample d _ _) as [modulation signalData].
  destruct (fgt (SignalStatus.powerAverage _) _).
  - repeat case_if; try destruct (sofConfirm _ _ _) as [confirmed fs] eqn:Econfirm;
      cbn [fst snd Impl.streamStatus Impl.symbolStatus Impl.frameStatus
           Impl.modulationStatus set Impl.set_modulationStatus Impl.set_frameStatus];
      do 8 (split; [reflexivity |]);
      (split; [intros rate Hrate; apply upd_other; exact Hrate |]);
      (split; [intros E; first [discriminate E | split; reflexivity] |]);
      (split; [| intros E; discriminate E]);
      intros E; try discriminate E.
    unfold sofConfirm in Econfirm.
    apply (f_equal snd) in Econfirm. cbn [snd] in Econfirm. subst fs.
    split; reflexivity.
  - cbn [fst snd]. do 8 (split; [reflexivity |]).
    split; [reflexivity |]. split; [auto |]. split; [discriminate | reflexivity].
Qed.

(** ** [decodeFrame] *)

(** How a pass of the loop of [decodePollFrame] ends. *)
Lemma pollFramePass_cases {P : Platform} (pattern : PatternType) (d : DecoderStatus.t)
  (i : Impl.t) (frames : list NfcFrame.t) :
  match pollFramePass pattern d i frames with
  | Some (Return true d' i' frames') =>
      d' = d
      /\ (exists response : NfcFrame.t, frames' = frames ++ [response])
      /\ FrameStatus.frameType (Impl.frameStatus i') = ListenFrame
      /\ Impl.streamStatus i' = StreamStatus.zero
  | Some (Return false d' i' frames') =>
      (d', i') = resetModulation d i /\ frames' = frames
  | Some (Continue i') => i' = nextBit i
  | None => True
  end.
Proof.
  unfold pollFramePass.
  destruct (frameEndFlag pattern i || streamErrorFlag pattern i
            || truncateErrorFlag pattern i); [| reflexivity].
  destruct (StreamStatus.bytes (Impl.streamStatus i) >? 0).
  - destruct (DecoderStatus.bitrate d) as [b |] eqn:Hb; [| exact I].
    destruct (DecoderStatus.modulation d) as [m |]; [| exact I].
    match goal with
    | |- context [process d ?j ?r] => set (cleared := j); set (built := r)
    end.
    match goal with
    | built := buildResponse ?t ?br ?dd ?ii |- _ =>
        destruct (buildResponse_frame t br dd ii) as (Bpoll & _)
    end.
    fold built in Bpoll.
    destruct (process_poll_frame d cleared built Bpoll)
      as (_ & _ & _ & _ & _ & _ & Pstream & _).
    destruct (process_poll_status d cleared built b Bpoll Hb) as (_ & _ & Plisten & _).
    destruct (process d cleared built) as [i' response]. cbn [fst snd] in *.
    split; [reflexivity |]. split; [eauto |]. split; [exact Plisten | exact Pstream].
  - destruct (resetModulation d i) as [d' i']. auto.
Qed.

(** How a run of the framer ends: a frame, a reset, or the frame status
    as it was. *)
Lemma framerRun_cases {P : Platform} (frames : list NfcFrame.t) (symbols : list Heard) :
  forall i : Impl.t,
    match framerRun symbols i frames with
    | Some (Return true d' i' frames') =>
        (exists response : NfcFrame.t, frames' = frames ++ [response])
        /\ FrameStatus.frameType (Impl.frameStatus i') = ListenFrame
        /\ Impl.streamStatus i' = StreamStatus.zero
    | Some (Return false d' i' frames') =>
        frames' = frames
        /\ FrameStatus.frameType (Impl.frameStatus i') = 0
        /\ Impl.streamStatus i' = StreamStatus.zero
        /\ DecoderStatus.bitrate d' = None
        /\ DecoderStatus.modulation d' = None
    | Some (Continue i') => Impl.frameStatus i' = Impl.frameStatus i
    | None => True
    end.
Proof.
  induction symbols as [| h symbols IH]; intros i; cbn [framerRun]; [reflexivity |].
  pose proof (pollFramePass_cases (SymbolStatus.pattern (heardSymbol h)) (heardStatus h)
                (hear h i) frames) as Hpass.
  destruct (pollFramePass _ _ (hear h i) frames) as [[[|] d' i' frames' | i'] |];
    [| | | exact I].
  - destruct Hpass as (_ & Hframe & Htype & Hstream). auto.
  - destruct Hpass as [Hreset ->].
    apply (f_equal fst) in Hreset as Hd. apply (f_equal snd) in Hreset as Hi.
    cbn [fst snd] in Hd, Hi. subst d' i'. repeat split; reflexivity.
  - specialize (IH i'). subst i'.
    destruct (framerRun symbols (nextBit (hear h i)) frames)
      as [[[|] d2 i2 frames2 | i2] |]; trivial.
Qed.

(** X11 -- the outcomes of [decodeFrame]. With a frame type other than
    PollFrame and ListenFrame it does nothing; with ListenFrame it clears
    [decoder->bitrate] and [decoder->modulation] and nothing else. With
    PollFrame there are three ways out: one frame is appended, and then
    the next frame expected is a listen frame, the stream is cleared and
    the two selections are null; or no frame is appended and the search
    is reset, frame type 0, stream cleared, selections null; or the
    buffer is read to its end, no frame is appended and the poll frame
    goes on with the next buffer. In the first two cases [decodeFrame]
    does nothing more until a detection sets the frame type again. *)
Theorem decodeFrame_outcomes {P : Platform} (buffer buffer' : list float)
  (d d' : DecoderStatus.t) (i i' : Impl.t) (frames frames' : list NfcFrame.t) :
  decodeFrame buffer d i frames = Some (buffer', d', i', frames') ->
  let type := FrameStatus.frameType (Impl.frameStatus i) in
  let type' := FrameStatus.frameType (Impl.frameStatus i') in
  let idle :=
    forall (buffer2 : list float) (frames2 : list NfcFrame.t),
      decodeFrame buffer2 d' i' frames2 = Some (buffer2, d', i', frames2) in
  (type <> PollFrame -> type <> ListenFrame ->
   buffer' = buffer /\ d' = d /\ i' = i /\ frames' = frames)
  /\ (type = ListenFrame ->
      buffer' = buffer /\ i' = i /\ frames' = frames
      /\ d' = d <| DecoderStatus.bitrate := None |> <| DecoderStatus.modulation := None |>)
  /\ (type = PollFrame ->
      ((exists response : NfcFrame.t, frames' = frames ++ [response])
       /\ type' = ListenFrame
       /\ Impl.streamStatus i' = StreamStatus.zero
       /\ DecoderStatus.bitrate d' = None
       /\ DecoderStatus.modulation d' = None
       /\ idle)
      \/ (frames' = frames
          /\ type' = 0
          /\ Impl.streamStatus i' = StreamStatus.zero
          /\ DecoderStatus.bitrate d' = None
          /\ DecoderStatus.modulation d' = None
          /\ idle)
      \/ (frames' = frames /\ buffer' = [] /\ type' = PollFrame)).
Proof.
  intros E type type' idle. subst type type' idle.
  unfold decodeFrame in E.
  split; [| split].
  - intros Hpoll Hlisten.
    apply Z.eqb_neq in Hpoll. apply Z.eqb_neq in Hlisten.
    rewrite Hpoll, Hlisten in E. injection E as <- <- <- <-. auto.
  - intros Hlisten. rewrite Hlisten in E. cbn in E.
    rewrite Hlisten in E. cbn in E.
    injection E as <- <- <- <-. auto.
  - intros Hpoll. rewrite Hpoll in E. cbn [Z.eqb Pos.eqb PollFrame] in E.
    destruct (decodePollFrame buffer d i frames)
      as [[[[[result buffer1] d1] i1] frames1] |] eqn:Epoll; [| discriminate].
    unfold decodePollFrame in Epoll.
    apply decodePollFrameLoop_symbols in Epoll as (symbols & _ & _ & Hrun); [| lia].
    pose proof (framerRun_cases frames symbols i) as Hcases.
    destruct Hrun as [Hrun | (-> & -> & -> & i0 & ms & Hrun & ->)].
    + rewrite Hrun in Hcases. destruct result.
      * destruct Hcases as (Hframe & Htype & Hstream).
        rewrite Htype in E. cbn in E. injection E as <- <- <- <-.
        left. split; [exact Hframe |]. split; [exact Htype |]. split; [exact Hstream |].
        split; [reflexivity |]. split; [reflexivity |].
        intros buffer2 frames2. unfold decodeFrame. rewrite Htype.
        cbn [Z.eqb Pos.eqb ListenFrame PollFrame]. rewrite Htype. reflexivity.
      * destruct Hcases as (Hframe & Htype & Hstream & Hb & Hm).
        rewrite Htype in E. cbn in E. injection E as <- <- <- <-.
        right. left. split; [exact Hframe |]. split; [exact Htype |].
        split; [exact Hstream |]. split; [exact Hb |]. split; [exact Hm |].
        intros buffer2 frames2. unfold decodeFrame. rewrite Htype.
        cbn [Z.eqb Pos.eqb ListenFrame PollFrame]. rewrite Htype. reflexivity.
    + rewrite Hrun in Hcases.
      cbn [Impl.frameStatus set Impl.set_symbolStatus Impl.set_modulationStatus] in E.
      rewrite Hcases, Hpoll in E. cbn in E. injection E as <- <- <- <-.
      right. right. split; [reflexivity |]. split; [reflexivity |].
      cbn [Impl.frameStatus set Impl.set_symbolStatus Impl.set_modulationStatus].
      rewrite Hcases. exact Hpoll.
Qed.

(** ** The bitrate table and the thresholds *)

Lemma sameSetup_trans (i j k : Impl.t) : sameSetup i j -> sameSetup j k -> sameSetup i k.
Proof.
  unfold sameSetup. intros (A1 & A2 & A3) (B1 & B2 & B3). repeat split; congruence.
Qed.

Lemma process_setup {P : Platform} (d : DecoderStatus.t) (i : Impl.t) (frame : NfcFrame.t) :
  sameSetup i (fst (process d i frame)).
Proof.
  unfold sameSetup, process, processREQB, processOther, flagCrc.
  destruct (NfcFrame.isPollFrame frame); cbn [andb];
    repeat case_if; cbn; repeat case_if; cbn;
    try destruct (DecoderStatus.bitrate d); repeat split; reflexivity.
Qed.

Lemma pollFramePass_setup {P : Platform} (pattern : PatternType) (d : DecoderStatus.t)
  (i : Impl.t) (frames : list NfcFrame.t) :
  match pollFramePass pattern d i frames with
  | Some (Return _ _ i' _) | Some (Continue i') => sameSetup i i'
  | None => True
  end.
Proof.
  unfold pollFramePass.
  destruct (frameEndFlag pattern i || streamErrorFlag pattern i
            || truncateErrorFlag pattern i).
  - destruct (StreamStatus.bytes (Impl.streamStatus i) >? 0).
    + destruct (DecoderStatus.bitrate d) as [b |]; [| exact I].
      destruct (DecoderStatus.modulation d) as [m |]; [| exact I].
      match goal with
      | |- context [process d ?j ?r] =>
          pose proof (process_setup d j r) as Hsetup; destruct (process d j r) as [i' response]
      end.
      exact Hsetup.
    + unfold sameSetup. cbn. repeat split; reflexivity.
  - unfold sameSetup. repeat split; reflexivity.
Qed.

Lemma framerRun_setup {P : Platform} (frames : list NfcFrame.t) (symbols : list Heard) :
  forall i : Impl.t,
    match framerRun symbols i frames with
    | Some (Return _ _ i' _) | Some (Continue i') => sameSetup i i'
    | None => True
    end.
Proof.
  induction symbols as [| h symbols IH]; intros i; cbn [framerRun].
  - unfold sameSetup. repeat split; reflexivity.
  - pose proof (pollFramePass_setup (SymbolStatus.pattern (heardSymbol h)) (heardStatus h)
                  (hear h i) frames) as Hpass.
    destruct (pollFramePass _ _ (hear h i) frames) as [[result d' i' frames' | i'] |];
      [exact Hpass | | exact I].
    specialize (IH i').
    destruct (framerRun symbols i' frames) as [[result d2 i2 frames2 | i2] |]; trivial;
      apply (sameSetup_trans i i' i2); assumption.
Qed.

(** X12 -- the bitrate table and the two modulation thresholds are
    constants of the decoding: [detectModulation], [resetModulation] and
    [decodeFrame] leave them as they are, and [configure], which rebuilds
    the bitrate table, keeps the thresholds that [setModulationThreshold]
    has set. *)
Theorem setup_kept {P : Platform} (d : DecoderStatus.t) (i : Impl.t)
  (buffer : list float) (frames : list NfcFrame.t) (min max : float) (sampleRate : Z) :
  sameSetup i (snd (detectModulation d i))
  /\ sameSetup i (snd (resetModulation d i))
  /\ match decodeFrame buffer d i frames with
     | Some (_, _, i', _) => sameSetup i i'
     | None => True
     end
  /\ match configure sampleRate d (setModulationThreshold min max i) with
     | Done (_, i') =>
         Impl.minimumModulationThreshold i' = min
         /\ Impl.maximumModulationThreshold i' = max
     | ConfigError => False
     end.
Proof.
  split; [| split; [| split]].
  - unfold detectModulation, sameSetup.
    destruct (integrateSample d _ _) as [modulation signalData].
    repeat case_if; try destruct (sofConfirm _ _ _); repeat split; reflexivity.
  - unfold sameSetup. cbn. repeat split; reflexivity.
  - unfold decodeFrame.
    assert (Hpoll : match decodePollFrame buffer d i frames with
                    | Some (_, _, _, i', _) => sameSetup i i'
                    | None => True
                    end).
    { destruct (decodePollFrame buffer d i frames)
        as [[[[[result buffer1] d1] i1] frames1] |] eqn:Epoll; [| exact I].
      unfold decodePollFrame in Epoll.
      apply decodePollFrameLoop_symbols in Epoll as (symbols & _ & _ & Hrun); [| lia].
      pose proof (framerRun_setup frames symbols i) as Hsetup.
      destruct Hrun as [Hrun | (_ & _ & _ & i0 & ms & Hrun & ->)];
        rewrite Hrun in Hsetup; [exact Hsetup |].
      exact Hsetup. }
    destruct (FrameStatus.frameType (Impl.frameStatus i) =? PollFrame).
    + destruct (decodePollFrame buffer d i frames)
        as [[[[[result buffer1] d1] i1] frames1] |]; [| exact I].
      destruct (_ =? ListenFrame); exact Hpoll.
    + destruct (_ =? ListenFrame); unfold sameSetup; repeat split; reflexivity.
  - unfold configure, setModulationThreshold. cbv zeta. split; reflexivity.
Qed.

(** ** The bitrate table of [configure] *)

(** The entries that a pass of the loop of [configure] leaves alone. *)
Lemma configureRate_other {P : Platform} (d : DecoderStatus.t) (i : Impl.t)
  (rate r : RateType) :
  r <> rate ->
  Impl.bitrateParams (configureRate d i rate) r = Impl.bitrateParams i r
  /\ Impl.modulationStatus (configureRate d i rate) r = Impl.modulationStatus i r.
Proof.
  intros Hr. unfold configureRate. cbv zeta.
  cbn [Impl.bitrateParams Impl.modulationStatus set Impl.set_bitrateParams
       Impl.set_modulationStatus].
  rewrite !upd_other by exact Hr. split; reflexivity.
Qed.

(** The entry that a pass of the loop of [configure] writes. *)
Lemma configureRate_entry {P : Platform} (d : DecoderStatus.t) (i : Impl.t) (rate : RateType) :
  let stu := SignalParams.sampleTimeUnit (DecoderStatus.signalParams d) in
  let previous := Impl.bitrateParams i (RateType_pred rate) in
  let entry := Impl.bitrateParams (configureRate d i rate) rate in
  let delay := BitrateParams.symbolDelayDetect entry in
  BitrateParams.rateType entry = RateType_code rate
  /\ BitrateParams.symbolsPerSecond entry = BaseFrequency / Z.shiftr 128 (RateType_code rate)
  /\ BitrateParams.period1SymbolSamples entry
     = Z_of_float (fround (fmulZ stu (Z.shiftr 128 (RateType_code rate))))
  /\ BitrateParams.period2SymbolSamples entry
     = Z_of_float (fround (fmulZ stu (Z.shiftr 64 (RateType_code rate))))
  /\ BitrateParams.period4SymbolSamples entry
     = Z_of_float (fround (fmulZ stu (Z.shiftr 32 (RateType_code rate))))
  /\ BitrateParams.period8SymbolSamples entry
     = Z_of_float (fround (fmulZ stu (Z.shiftr 16 (RateType_code rate))))
  /\ BitrateParams.offsetSignalIndex entry = uint (SignalBufferLength - delay)
  /\ BitrateParams.offsetSymbolIndex entry
     = uint (SignalBufferLength - delay - BitrateParams.period1SymbolSamples entry)
  /\ BitrateParams.offsetFilterIndex entry
     = uint (SignalBufferLength - delay - BitrateParams.period4SymbolSamples entry)
  /\ BitrateParams.offsetDetectIndex entry
     = uint (SignalBufferLength - delay - BitrateParams.period8SymbolSamples entry)
  /\ Impl.modulationStatus (configureRate d i rate) rate = ModulationStatus.zero
  /\ delay = (if RateType_code rate >? RateType_code r106k
              then BitrateParams.symbolDelayDetect previous
                   + BitrateParams.period1SymbolSamples previous
              else 0).
Proof.
  cbv zeta. unfold configureRate. cbv zeta.
  cbn [Impl.bitrateParams Impl.modulationStatus set Impl.set_bitrateParams
       Impl.set_modulationStatus].
  rewrite !upd_same. repeat split; reflexivity.
Qed.

(** X13 -- the table that [configure] builds. The entries of 106k, 212k
    and 424k get the symbol rates 105937, 211875 and 423750, the periods
    of a symbol, a half, a quarter and an eighth of a symbol as the
    rounded products of the sample time unit by 128, 64, 32 and 16
    shifted right by the rate, and a detection delay that accumulates the
    symbol periods of the rates below: 0, then the period of 106k, then
    the periods of 106k and 212k; the four buffer offsets are the signal
    buffer length minus this delay and minus, for three of them, the
    period they look back, the difference being taken in the unsigned
    type of the sample clock, where it wraps around when the delay and
    the period exceed the buffer length. Their modulation status is
    cleared. The entries of 848k are not touched. *)
Theorem configure_bitrates {P : Platform} (sampleRate : Z) (d : DecoderStatus.t) (i : Impl.t) :
  match configure sampleRate d i with
  | Done (_, i') =>
      let stu := SignalParams.sampleTimeUnit (DecoderStatus.signalParams d) in
      let table := Impl.bitrateParams i' in
      (forall rate : RateType,
          rate <> r848k ->
          let entry := table rate in
          let delay := BitrateParams.symbolDelayDetect entry in
          BitrateParams.rateType entry = RateType_code rate
          /\ BitrateParams.symbolsPerSecond entry
             = BaseFrequency / Z.shiftr 128 (RateType_code rate)
          /\ BitrateParams.period1SymbolSamples entry
             = Z_of_float (fround (fmulZ stu (Z.shiftr 128 (RateType_code rate))))
          /\ BitrateParams.period2SymbolSamples entry
             = Z_of_float (fround (fmulZ stu (Z.shiftr 64 (RateType_code rate))))
          /\ BitrateParams.period4SymbolSamples entry
             = Z_of_float (fround (fmulZ stu (Z.shiftr 32 (RateType_code rate))))
          /\ BitrateParams.period8SymbolSamples entry
             = Z_of_float (fround (fmulZ stu (Z.shiftr 16 (RateType_code rate))))
          /\ BitrateParams.offsetSignalIndex entry = uint (SignalBufferLength - delay)
          /\ BitrateParams.offsetSymbolIndex entry
             = uint (SignalBufferLength - delay - BitrateParams.period1SymbolSamples entry)
          /\ BitrateParams.offsetFilterIndex entry
             = uint (SignalBufferLength - delay - BitrateParams.period4SymbolSamples entry)
          /\ BitrateParams.offsetDetectIndex entry
             = uint (SignalBufferLength - delay - BitrateParams.period8SymbolSamples entry)
          /\ Impl.modulationStatus i' rate = ModulationStatus.zero)
      /\ BitrateParams.symbolsPerSecond (table r106k) = 105937
      /\ BitrateParams.symbolsPerSecond (table r212k) = 211875
      /\ BitrateParams.symbolsPerSecond (table r424k) = 423750
      /\ BitrateParams.symbolDelayDetect (table r106k) = 0
      /\ BitrateParams.symbolDelayDetect (table r212k)
         = BitrateParams.period1SymbolSamples (table r106k)
      /\ BitrateParams.symbolDelayDetect (table r424k)
         = BitrateParams.period1SymbolSamples (table r106k)
           + BitrateParams.period1SymbolSamples (table r212k)
      /\ table r848k = Impl.bitrateParams i r848k
      /\ Impl.modulationStatus i' r848k = Impl.modulationStatus i r848k
  | ConfigError => False
  end.
Proof.
  unfold configure.
  remember (i <| Impl.symbolStatus := SymbolStatus.zero |>
              <| Impl.streamStatus := StreamStatus.zero |>
              <| Impl.frameStatus := FrameStatus.zero |>
              <| Impl.lastFrameEnd := 0 |>
              <| Impl.chainedFlags := 0 |>) as i0 eqn:E0.
  assert (H0 : Impl.bitrateParams i0 = Impl.bitrateParams i
               /\ Impl.modulationStatus i0 = Impl.modulationStatus i)
    by (subst i0; split; reflexivity).
  clear E0. destruct H0 as [Hb0 Hm0].
  cbv zeta. rewrite <- Hb0, <- Hm0.
  cbn [fold_left].
  remember (configureRate d i0 r106k) as i1 eqn:E1.
  remember (configureRate d i1 r212k) as i2 eqn:E2.
  remember (configureRate d i2 r424k) as i3 eqn:E3.
  cbn [Impl.bitrateParams Impl.modulationStatus set Impl.set_protocolStatus
       Impl.set_frameStatus].
  pose proof (configureRate_entry d i0 r106k) as A1.
  pose proof (configureRate_entry d i1 r212k) as A2.
  pose proof (configureRate_entry d i2 r424k) as A3.
  cbv zeta in A1, A2, A3. rewrite <- E1 in A1. rewrite <- E2 in A2. rewrite <- E3 in A3.
  assert (K2 : forall r, r <> r212k ->
                 Impl.bitrateParams i2 r = Impl.bitrateParams i1 r
                 /\ Impl.modulationStatus i2 r = Impl.modulationStatus i1 r)
    by (intros r Hr; subst i2; apply configureRate_other; exact Hr).
  assert (K3 : forall r, r <> r424k ->
                 Impl.bitrateParams i3 r = Impl.bitrateParams i2 r
                 /\ Impl.modulationStatus i3 r = Impl.modulationStatus i2 r)
    by (intros r Hr; subst i3; apply configureRate_other; exact Hr).
  assert (K1 : forall r, r <> r106k ->
                 Impl.bitrateParams i1 r = Impl.bitrateParams i0 r
                 /\ Impl.modulationStatus i1 r = Impl.modulationStatus i0 r)
    by (intros r Hr; subst i1; apply configureRate_other; exact Hr).
  clear E1 E2 E3.
  destruct (K3 r106k ltac:(discriminate)) as [B31 M31].
  destruct (K2 r106k ltac:(discriminate)) as [B21 M21].
  destruct (K3 r212k ltac:(discriminate)) as [B32 M32].
  destruct (K3 r848k ltac:(discriminate)) as [B38 M38].
  destruct (K2 r848k ltac:(discriminate)) as [B28 M28].
  destruct (K1 r848k ltac:(discriminate)) as [B18 M18].
  cbn [RateType_pred] in A1, A2, A3.
  split.
  - intros rate Hrate.
    destruct rate; [| | | contradiction Hrate; reflexivity].
    + rewrite B31, B21, M31, M21.
      destruct A1 as (? & ? & ? & ? & ? & ? & ? & ? & ? & ? & ? & _). repeat split; assumption.
    + rewrite B32, M32.
      destruct A2 as (? & ? & ? & ? & ? & ? & ? & ? & ? & ? & ? & _). repeat split; assumption.
    + destruct A3 as (? & ? & ? & ? & ? & ? & ? & ? & ? & ? & ? & _). repeat split; assumption.
  - rewrite B31, B21, B32, B38, B28, B18, M38, M28, M18.
    destruct A1 as (_ & S1 & _ & _ & _ & _ & _ & _ & _ & _ & _ & D1).
    destruct A2 as (_ & S2 & _ & _ & _ & _ & _ & _ & _ & _ & _ & D2).
    destruct A3 as (_ & S3 & _ & _ & _ & _ & _ & _ & _ & _ & _ & D3).
    cbn [RateType_code Z.gtb Z.compare] in D1, D2, D3.
    rewrite D1 in D2. rewrite D2 in D3.
    rewrite S1, S2, S3, D1, D2, D3.
    repeat split; reflexivity.
Qed.

(** ** No null selection is dereferenced *)

Lemma symbolSample_some {P : Platform} (b m : option RateType)
  (d : DecoderStatus.t) (i : Impl.t) :
  b <> None -> m <> None -> DecoderStatus.bitrate d <> None ->
  symbolSample b m d i <> None.
Proof.
  intros Hb Hm Hd. unfold symbolSample.
  destruct b as [rb |]; [| contradiction].
  destruct m as [rm |]; [| contradiction].
  destruct (DecoderStatus.bitrate d) as [rb' |]; [| contradiction].
  destruct (integrateSample _ _ _) as [modulation signalData].
  match goal with
  | |- (if ?c then _ else _) <> _ => destruct c
  end; discriminate.
Qed.

Lemma symbolLoop_some {P : Platform} (b m : option RateType) (buffer : list float) :
  keepsSelection ->
  b <> None -> m <> None ->
  forall (d : DecoderStatus.t) (i : Impl.t),
    DecoderStatus.bitrate d <> None ->
    exists buffer' d' i',
      symbolLoop b m buffer d i = Some (buffer', d', i')
      /\ DecoderStatus.bitrate d' = DecoderStatus.bitrate d
      /\ DecoderStatus.modulation d' = DecoderStatus.modulation d.
Proof.
  intros Hkeeps Hb Hm.
  induction buffer as [| s buffer IH]; intros d i Hd; cbn [symbolLoop].
  - exists [], d, i. auto.
  - destruct (Hkeeps s d) as [Kb Km].
    assert (Hd' : DecoderStatus.bitrate (takeSample s d) <> None) by (rewrite Kb; exact Hd).
    pose proof (symbolSample_some b m (takeSample s d) i Hb Hm Hd') as Hsome.
    destruct (symbolSample b m (takeSample s d) i) as [[[|] i1] |]; [| | contradiction].
    + exists buffer, (takeSample s d), i1. auto.
    + destruct (IH (takeSample s d) i1 Hd') as (buffer' & d' & i' & E & Eb & Em).
      exists buffer', d', i'. rewrite E, Eb, Em. auto.
Qed.

Lemma pollFramePass_some {P : Platform} (pattern : PatternType) (d : DecoderStatus.t)
  (i : Impl.t) (frames : list NfcFrame.t) :
  DecoderStatus.bitrate d <> None -> DecoderStatus.modulation d <> None ->
  pollFramePass pattern d i frames <> None.
Proof.
  intros Hb Hm. unfold pollFramePass.
  destruct (_ || _ || _); [| discriminate].
  destruct (_ >? _).
  - destruct (DecoderStatus.bitrate d); [| contradiction].
    destruct (DecoderStatus.modulation d); [| contradiction].
    destruct (process _ _ _). discriminate.
  - destruct (resetModulation d i). discriminate.
Qed.

Lemma decodePollFrameLoop_some {P : Platform} (fuel : nat) :
  keepsSelection ->
  forall buffer d i frames,
    DecoderStatus.bitrate d <> None -> DecoderStatus.modulation d <> None ->
    exists result buffer' d' i' frames',
      decodePollFrameLoop fuel buffer d i frames = Some (result, buffer', d', i', frames')
      /\ (FrameStatus.frameType (Impl.frameStatus i') = ListenFrame
          \/ FrameStatus.frameType (Impl.frameStatus i') = 0
          \/ (FrameStatus.frameType (Impl.frameStatus i')
              = FrameStatus.frameType (Impl.frameStatus i)
              /\ DecoderStatus.bitrate d' <> None
              /\ DecoderStatus.modulation d' <> None)).
Proof.
  intros Hkeeps.
  induction fuel as [| fuel IH]; intros buffer d i frames Hb Hm; cbn [decodePollFrameLoop].
  - exists false, buffer, d, i, frames. split; [reflexivity |]. right. right. auto.
  - unfold decodePollFrameSymbolAsk.
    assert (Hb0 : DecoderStatus.bitrate d <> None) by exact Hb.
    destruct (symbolLoop_some (DecoderStatus.bitrate d) (DecoderStatus.modulation d) buffer
                Hkeeps Hb Hm d
                (i <| Impl.symbolStatus :=
                       (Impl.symbolStatus i) <| SymbolStatus.pattern := Invalid |> |>) Hb0)
      as (buffer1 & d1 & i1 & Eloop & Eb & Em).
    rewrite Eloop.
    apply symbolLoop_outcome in Eloop as (ss & ms & Ei1 & _).
    assert (Hframe : Impl.frameStatus i1 = Impl.frameStatus i) by (rewrite Ei1; reflexivity).
    assert (Hb1 : DecoderStatus.bitrate d1 <> None) by (rewrite Eb; exact Hb).
    assert (Hm1 : DecoderStatus.modulation d1 <> None) by (rewrite Em; exact Hm).
    destruct (_ >? _).
    + pose proof (pollFramePass_some (SymbolStatus.pattern (Impl.symbolStatus i1)) d1 i1
                    frames Hb1 Hm1) as Hsome.
      pose proof (pollFramePass_cases (SymbolStatus.pattern (Impl.symbolStatus i1)) d1 i1
                    frames) as Hcases.
      destruct (pollFramePass _ d1 i1 frames) as [[[|] d2 i2 frames2 | i2] |];
        [| | | contradiction].
      * exists true, buffer1, d2, i2, frames2. split; [reflexivity |].
        left. apply Hcases.
      * exists false, buffer1, d2, i2, frames2. split; [reflexivity |].
        right. left. destruct Hcases as [Hreset _].
        apply (f_equal snd) in Hreset. cbn [snd] in Hreset. subst i2. reflexivity.
      * subst i2.
        destruct (IH buffer1 d1 (nextBit i1) frames Hb1 Hm1)
          as (result & buffer' & d' & i' & frames' & E & Hend).
        exists result, buffer', d', i', frames'. split; [exact E |].
        cbn [Impl.frameStatus nextBit set Impl.set_streamStatus] in Hend.
        rewrite Hframe in Hend. exact Hend.
    + exists false, buffer1, d1, i1, frames. split; [reflexivity |].
      right. right. rewrite Hframe. auto.
Qed.

(** X14 -- no null selection is dereferenced. While the frame type is
    PollFrame, [decoder->bitrate] and [decoder->modulation] are not null:
    [configure] and [resetModulation] leave a state in which this holds,
    [detectModulation] and [decodeFrame] keep it, and under it
    [decodeFrame] runs to its end, provided that [nextSample] leaves the
    two selections. *)
Theorem decode_safe {P : Platform} (buffer : list float) (d : DecoderStatus.t)
  (i : Impl.t) (frames : list NfcFrame.t) (sampleRate : Z) :
  keepsSelection ->
  armed d i ->
  (exists buffer' d' i' frames',
      decodeFrame buffer d i frames = Some (buffer', d', i', frames') /\ armed d' i')
  /\ armed (snd (fst (detectModulation d i))) (snd (detectModulation d i))
  /\ armed (fst (resetModulation d i)) (snd (resetModulation d i))
  /\ match configure sampleRate d i with
     | Done (d', i') => armed d' i'
     | ConfigError => False
     end.
Proof.
  intros Hkeeps Harmed. split; [| split; [| split]].
  - unfold decodeFrame.
    destruct (Z.eqb_spec (FrameStatus.frameType (Impl.frameStatus i)) PollFrame)
      as [Hpoll | Hother].
    + destruct (Harmed Hpoll) as [Hb Hm]. unfold decodePollFrame.
      destruct (decodePollFrameLoop_some (S (List.length buffer)) Hkeeps buffer d i frames
                  Hb Hm)
        as (result & buffer' & d' & i' & frames' & E & Hend).
      rewrite E.
      destruct (Z.eqb_spec (FrameStatus.frameType (Impl.frameStatus i')) ListenFrame)
        as [Hlisten | Hnot].
      * eexists _, _, _, _. split; [reflexivity |].
        intros Hp. rewrite Hlisten in Hp. discriminate Hp.
      * eexists _, _, _, _. split; [reflexivity |].
        intros Hp. destruct Hend as [Hl | [Hz | (_ & Hb' & Hm')]].
        -- contradiction.
        -- rewrite Hz in Hp. discriminate Hp.
        -- auto.
    + destruct (Z.eqb_spec (FrameStatus.frameType (Impl.frameStatus i)) ListenFrame)
        as [Hlisten | Hnot].
      * eexists _, _, _, _. split; [reflexivity |].
        intros Hp. contradiction.
      * eexists _, _, _, _. split; [reflexivity |].
        intros Hp. contradiction.
  - unfold armed, detectModulation in *.
    destruct (integrateSample d _ _) as [modulation signalData].
    repeat case_if; try destruct (sofConfirm _ _ _) as [confirmed fs];
      cbn [fst snd Impl.frameStatus set Impl.set_modulationStatus Impl.set_frameStatus
           DecoderStatus.bitrate DecoderStatus.modulation DecoderStatus.set_bitrate
           DecoderStatus.set_modulation];
      try exact Harmed.
    intros _. split; discriminate.
  - unfold armed. cbn. intros Hp. discriminate Hp.
  - unfold configure. cbv zeta. unfold armed.
    cbn [Impl.frameStatus set Impl.set_frameStatus FrameStatus.frameType
         FrameStatus.set_startUpGuardTime FrameStatus.set_frameWaitingTime
         FrameStatus.set_frameGuardTime FrameStatus.set_requestGuardTime].
    intros Hp.
    exfalso. revert Hp.
    match goal with
    | |- ?t = PollFrame -> False =>
        assert (Hz : t = 0) by reflexivity; rewrite Hz; discriminate
    end.
Qed.

(** ** The further properties at concrete states *)

Lemma heardBits_carries (d : DecoderStatus.t) (ms : RateType -> ModulationStatus.t)
  (bits : list bool) :
  Forall2 carries bits (heardBits d ms bits).
Proof.
  induction bits as [| bit bits IH]; cbn [heardBits map]; constructor.
  - split; reflexivity.
  - exact IH.
Qed.

Lemma heardBits_selected (d : DecoderStatus.t) (ms : RateType -> ModulationStatus.t)
  (bits : list bool) :
  DecoderStatus.bitrate d <> None ->
  DecoderStatus.modulation d <> None ->
  Forall selected (heardBits d ms bits).
Proof.
  intros Hb Hm. apply Forall_forall. intros h Hh.
  apply in_map_iff in Hh as (bit & <- & _). split; assumption.
Qed.

(** X1, witness: the REQB of the first scenario with its third byte
    changed from 00 to 01. *)
Lemma checkCrc_detects_byte_error_witness :
  checkCrc (frame_of PollFrame [0x05; 0x00; 0x01; 0x71; 0xFF]) = false.
Proof.
  apply (checkCrc_detects_byte_error (frame_of PollFrame REQB)
           (frame_of PollFrame [0x05; 0x00; 0x01; 0x71; 0xFF])
           [0x05; 0x00] [0x71; 0xFF] 0x00 0x01).
  - reflexivity.
  - reflexivity.
  - unfold is_byte. lia.
  - unfold is_byte. lia.
  - discriminate.
  - vm_compute. reflexivity.
Defined.

(** X2, witness: a REQB that ends at sample 6000, at 10 MHz: the guard
    ends 660 samples later and the waiting 1699 samples later. *)
Lemma process_poll_timing_witness :
  let i := configured <| Impl.frameStatus :=
                           (Impl.frameStatus configured)
                             <| FrameStatus.frameEnd := 6000 |> |> in
  let fs' := Impl.frameStatus
               (fst (process (P := platform32) tuned i (frame_of PollFrame REQB))) in
  FrameStatus.guardEnd fs' = 6660
  /\ FrameStatus.waitingEnd fs' = 7699
  /\ FrameStatus.frameType fs' = ListenFrame.
Proof.
  destruct (process_poll_timing (P := platform32) tuned
              (configured <| Impl.frameStatus :=
                               (Impl.frameStatus configured)
                                 <| FrameStatus.frameEnd := 6000 |> |>)
              (frame_of PollFrame REQB) r106k)
    as (Hguard & Hwaiting & Htype & _); try (vm_compute; reflexivity).
  cbv zeta. split; [rewrite Hguard; vm_compute; reflexivity |].
  split; [rewrite Hwaiting; vm_compute; reflexivity | exact Htype].
Defined.

(** X3, witness: the answer to a REQB, a listen frame met with
    [lastCommand] at 0x05. *)
Lemma process_listen_frame_witness :
  let i := configured <| Impl.frameStatus :=
                           (Impl.frameStatus configured)
                             <| FrameStatus.lastCommand := NFCA_REQB |> |> in
  let result := process (P := platform32) tuned i (frame_of ListenFrame [0x50; 0x00]) in
  FrameStatus.frameType (Impl.frameStatus (fst result)) = 0
  /\ FrameStatus.lastCommand (Impl.frameStatus (fst result)) = 0
  /\ NfcFrame.framePhase (snd result) = SelectionFrame
  /\ NfcFrame.frameFlags (snd result) = 0.
Proof.
  destruct (process_listen_frame (P := platform32) tuned
              (configured <| Impl.frameStatus :=
                               (Impl.frameStatus configured)
                                 <| FrameStatus.lastCommand := NFCA_REQB |> |>)
              (frame_of ListenFrame [0x50; 0x00]))
    as (Htype & Hcommand & _ & _ & _ & Hphase & Hflags & _); [reflexivity |].
  cbv zeta. split; [exact Htype |]. split; [exact Hcommand |].
  split; [rewrite Hphase; reflexivity |]. rewrite Hflags. reflexivity.
Defined.

(** X4, witness: the sixty symbols of a REQB, heard from the state that
    [configure] leaves, come out as the frame [05 00 00 71 FF] with no
    flag. *)
Lemma framer_round_trip_witness :
  exists (d' : DecoderStatus.t) (i' : Impl.t) (response : NfcFrame.t),
    framerRun (P := platform32)
      (heardBits tuned (Impl.modulationStatus configured)
         (flat_map characterBits REQB ++ endOfFrameBits))
      configured []
    = Some (Return true d' i' [response])
    /\ NfcFrame.bytes response = REQB
    /\ NfcFrame.frameFlags response = 0.
Proof.
  destruct (framer_round_trip (P := platform32) REQB
              (heardBits tuned (Impl.modulationStatus configured)
                 (flat_map characterBits REQB ++ endOfFrameBits))
              [] configured [])
    as (d' & i' & response & Erun & _ & Ebytes & _ & Eflags & Echained & _).
  - apply heardBits_carries.
  - apply heardBits_selected; discriminate.
  - unfold REQB, is_byte. repeat constructor; lia.
  - discriminate.
  - vm_compute. reflexivity.
  - vm_compute. split; [reflexivity |]. split; [reflexivity |].
    split; [reflexivity |]. intros k Hk. inversion Hk.
  - exists d', i', response. rewrite app_nil_r in Erun.
    split; [exact Erun |]. split; [exact Ebytes |].
    assert (Hpayload : [0x05; 0x00; 0x00] <> []) by discriminate.
    assert (Hcrc : REQB = with_crc [0x05; 0x00; 0x00]) by (vm_compute; reflexivity).
    rewrite (Eflags [0x05; 0x00; 0x00] Hpayload Hcrc).
    rewrite Echained. destruct (_ && _); reflexivity.
Defined.

(** X5, witness: with [maxFrameSize] at 1, the start bit of a second
    character cuts the frame after the byte 05. *)
Lemma framer_truncates_witness :
  let i := configured <| Impl.protocolStatus :=
                           (Impl.protocolStatus configured)
                             <| ProtocolStatus.maxFrameSize := 1 |> |> in
  exists (d' : DecoderStatus.t) (i' : Impl.t) (response : NfcFrame.t),
    framerRun (P := platform32)
      (heardBits tuned (Impl.modulationStatus configured)
         (flat_map characterBits [0x05] ++ [false]))
      i []
    = Some (Return true d' i' [response])
    /\ NfcFrame.bytes response = [0x05]
    /\ Z.land (NfcFrame.frameFlags response) Truncated = Truncated.
Proof.
  cbv zeta.
  destruct (framer_truncates (P := platform32) [0x05] false
              (heardBits tuned (Impl.modulationStatus configured)
                 (flat_map characterBits [0x05] ++ [false]))
              []
              (configured <| Impl.protocolStatus :=
                               (Impl.protocolStatus configured)
                                 <| ProtocolStatus.maxFrameSize := 1 |> |>)
              [])
    as (d' & i' & response & Erun & Ebytes & Eflags & _).
  - apply heardBits_carries.
  - apply heardBits_selected; discriminate.
  - unfold is_byte. repeat constructor; lia.
  - discriminate.
  - reflexivity.
  - vm_compute. split; [reflexivity |]. split; [reflexivity |].
    split; [reflexivity |]. intros k Hk. inversion Hk.
  - exists d', i', response. rewrite app_nil_r in Erun.
    split; [exact Erun |]. split; assumption.
Defined.

(** X6, witness: a sample of the carrier modulated at 15 %, taken at the
    sync point of a symbol, is returned as a PatternL with the value 0. *)
Lemma decodePollFrameSymbolAsk_returns_witness :
  exists (buffer' : list float) (d' : DecoderStatus.t) (i' : Impl.t),
    decodePollFrameSymbolAsk (P := platform32) [f_0_85; f_1] tuned
      (synchronised 1025 (framing 9 REQB configured))
    = Some (PatternL, buffer', d', i')
    /\ (List.length buffer' < 2)%nat
    /\ SymbolStatus.value (Impl.symbolStatus i') = 0.
Proof.
  assert (Hpattern :
            option_map (fun r => fst (fst (fst r)))
              (decodePollFrameSymbolAsk (P := platform32) [f_0_85; f_1] tuned
                 (synchronised 1025 (framing 9 REQB configured)))
            = Some PatternL) by (vm_compute; reflexivity).
  destruct (decodePollFrameSymbolAsk (P := platform32) [f_0_85; f_1] tuned
              (synchronised 1025 (framing 9 REQB configured)))
    as [[[[pattern buffer'] d'] i'] |] eqn:E; [| discriminate Hpattern].
  cbn [option_map fst] in Hpattern.
  assert (Hl : pattern = PatternL) by congruence. subst pattern. clear Hpattern.
  exists buffer', d', i'. split; [reflexivity |].
  destruct (decodePollFrameSymbolAsk_returns (P := platform32) _ _ _ _ _ _ _ E)
    as (_ & _ & _ & Hsymbol & _).
  destruct Hsymbol as [Hlt [[_ Hvalue] | [Hh _]]]; [discriminate | | discriminate Hh].
  split; [exact Hlt | exact Hvalue].
Defined.

(** X7, witness: two samples in the middle of a character: one symbol is
    heard, then the buffer ends and the framer waits with a bit more. *)
Lemma decodePollFrame_symbols_witness :
  exists (symbols : list Heard) (i0 : Impl.t),
    (List.length symbols <= 2)%nat
    /\ framerRun (P := platform32) symbols
         (polling (synchronised 1025 (framing 3 REQB configured))) []
       = Some (Continue i0).
Proof.
  assert (Hresult :
            option_map (fun r => (fst (fst (fst (fst r))), List.length (snd r)))
              (decodePollFrame (P := platform32) [f_0_85; f_1] tuned
                 (polling (synchronised 1025 (framing 3 REQB configured))) [])
            = Some (false, 0%nat)) by (vm_compute; reflexivity).
  destruct (decodePollFrame (P := platform32) [f_0_85; f_1] tuned
              (polling (synchronised 1025 (framing 3 REQB configured))) [])
    as [[[[[result buffer'] d'] i'] frames'] |] eqn:E; [| discriminate Hresult].
  cbn [option_map fst snd] in Hresult.
  destruct (decodePollFrame_symbols (P := platform32) _ _ _ _ _ _ _ _ _ E)
    as (symbols & _ & Hcount & [Hrun | (_ & _ & _ & i0 & Hrun & _)]).
  - exfalso.
    pose proof (framerRun_cases (P := platform32) [] symbols
                  (polling (synchronised 1025 (framing 3 REQB configured)))) as Hcases.
    rewrite Hrun in Hcases.
    assert (Hr : result = false) by congruence. subst result.
    destruct Hcases as (_ & _ & _ & _ & Hnull).
    assert (Hd : option_map (fun r => DecoderStatus.modulation (snd (fst (fst r))))
                   (decodePollFrame (P := platform32) [f_0_85; f_1] tuned
                      (polling (synchronised 1025 (framing 3 REQB configured))) [])
                 = Some (Some r106k)) by (vm_compute; reflexivity).
    rewrite E in Hd. cbn [option_map fst snd] in Hd. congruence.
  - exists symbols, i0. split; [cbn [List.length] in Hcount; lia | exact Hrun].
Defined.

(** X8, witness: at 10 MHz, a window of IDLE that closes at clock 1024
    on the edge recorded at 1000 opens the window of END from 1141 to
    1329. *)
Lemma sof_idle_window_witness :
  let result := detectModulation (P := platform32) (carrier f_1)
                  (searching SOF_IDLE 900 1024 1000 configured) in
  let m' := Impl.modulationStatus (snd result) r106k in
  fst (fst result) = false
  /\ ModulationStatus.searchStage m' = SOF_END
  /\ ModulationStatus.searchStartTime m' = 1141
  /\ ModulationStatus.searchEndTime m' = 1329.
Proof.
  destruct (sof_idle_window (P := platform32) (carrier f_1)
              (searching SOF_IDLE 900 1024 1000 configured))
    as (Hr & _ & _ & Hclose & _); try (vm_compute; reflexivity).
  destruct Hclose as (Hstage & Hstart & Hend & _);
    [vm_compute; reflexivity | vm_compute; reflexivity | vm_compute; discriminate |].
  cbv zeta. split; [exact Hr |]. split; [exact Hstage |].
  split; [rewrite Hstart; vm_compute; reflexivity |].
  rewrite Hend. vm_compute. reflexivity.
Defined.

(** X11, witness: the last symbol of the end of frame of a REQB: the
    frame is appended and the selections are cleared. *)
Lemma decodeFrame_outcomes_witness :
  exists (buffer' : list float) (d' : DecoderStatus.t) (i' : Impl.t)
         (response : NfcFrame.t),
    decodeFrame (P := platform32) [f_0_85; f_1] tuned
      (polling (synchronised 1025 (framing 9 REQB configured))) []
    = Some (buffer', d', i', [response])
    /\ FrameStatus.frameType (Impl.frameStatus i') = ListenFrame
    /\ DecoderStatus.bitrate d' = None
    /\ DecoderStatus.modulation d' = None.
Proof.
  assert (Hframes :
            option_map (fun r => List.length (snd r))
              (decodeFrame (P := platform32) [f_0_85; f_1] tuned
                 (polling (synchronised 1025 (framing 9 REQB configured))) [])
            = Some 1%nat) by (vm_compute; reflexivity).
  destruct (decodeFrame (P := platform32) [f_0_85; f_1] tuned
              (polling (synchronised 1025 (framing 9 REQB configured))) [])
    as [[[[buffer' d'] i'] frames'] |] eqn:E; [| discriminate Hframes].
  cbn [option_map snd] in Hframes.
  destruct (decodeFrame_outcomes (P := platform32) _ _ _ _ _ _ _ _ E) as (_ & _ & Hpoll).
  destruct Hpoll as [Hframe | [Hreset | Hmore]]; [reflexivity | | |].
  - destruct Hframe as ([response Eframes] & Htype & _ & Hb & Hm & _).
    exists buffer', d', i', response. cbn [app] in Eframes. subst frames'.
    split; [reflexivity |]. split; [exact Htype |]. split; [exact Hb | exact Hm].
  - destruct Hreset as (Eframes & _). subst frames'. discriminate Hframes.
  - destruct Hmore as (Eframes & _). subst frames'. discriminate Hframes.
Defined.

(** X13, witness: at 2863.28 MHz the symbol of 106k lasts 27028 samples
    and the offsets of 424k wrap around: 4096 - 40542 is held as
    4294930850. *)
Lemma configure_bitrates_witness :
  match configure (P := platform32) 2863280000
          (DecoderStatus_at 2863280000 f_0_01 f_1) Impl_initial with
  | Done (_, i') =>
      BitrateParams.period1SymbolSamples (Impl.bitrateParams i' r106k) = 27028
      /\ BitrateParams.symbolDelayDetect (Impl.bitrateParams i' r424k) = 40542
      /\ BitrateParams.offsetSignalIndex (Impl.bitrateParams i' r424k) = 4294930850
  | ConfigError => False
  end.
Proof.
  pose proof (configure_bitrates (P := platform32) 2863280000
                (DecoderStatus_at 2863280000 f_0_01 f_1) Impl_initial) as Htable.
  destruct (configure (P := platform32) 2863280000
              (DecoderStatus_at 2863280000 f_0_01 f_1) Impl_initial)
    as [[d' i'] |]; [| exact Htable].
  cbv zeta in Htable.
  destruct Htable as (Hrates & _ & _ & _ & _ & _ & Hdelay & _).
  destruct (Hrates r106k) as (_ & _ & Hperiod1 & _); [discriminate |].
  destruct (Hrates r212k) as (_ & _ & Hperiod2 & _); [discriminate |].
  destruct (Hrates r424k) as (_ & _ & _ & _ & _ & _ & Hoffset & _); [discriminate |].
  rewrite Hoffset, Hdelay, Hperiod1, Hperiod2.
  split; [vm_compute; reflexivity |]. split; vm_compute; reflexivity.
Defined.

Lemma platform32_keepsSelection : keepsSelection (P := platform32).
Proof. intros s d. split; reflexivity. Qed.

(** X14, witness: two samples decoded in the middle of a poll frame, on
    the platform of the examples. *)
Lemma decode_safe_witness :
  exists (buffer' : list float) (d' : DecoderStatus.t) (i' : Impl.t)
         (frames' : list NfcFrame.t),
    decodeFrame (P := platform32) [f_0_85; f_1] tuned
      (polling (synchronised 1025 (framing 3 REQB configured))) []
    = Some (buffer', d', i', frames')
    /\ armed d' i'.
Proof.
  destruct (decode_safe (P := platform32) [f_0_85; f_1] tuned
              (polling (synchronised 1025 (framing 3 REQB configured))) [] 10000000
              platform32_keepsSelection)
    as [Hdecode _].
  - intros _. split; vm_compute; discriminate.
  - exact Hdecode.
Defined.

(** X15, witness: the sample taken at the sync point 1025 returns the
    symbol that runs from 978 to 1072, a period of 94 samples. *)
Lemma symbol_clock_witness :
  exists i' : Impl.t,
    symbolSample (P := platform32) (Some r106k) (Some r106k) (takeSample32 f_0_85 tuned)
      (synchronised 1025 (framing 9 REQB configured))
    = Some (true, i')
    /\ SymbolStatus.start (Impl.symbolStatus i') = 978
    /\ SymbolStatus.end_ (Impl.symbolStatus i') = 1072
    /\ SymbolStatus.length (Impl.symbolStatus i') = 94
    /\ ModulationStatus.symbolSyncTime (Impl.modulationStatus i' r106k) = 0.
Proof.
  assert (Hvalues :
            option_map (fun r => (fst r, SymbolStatus.start (Impl.symbolStatus (snd r)),
                                  SymbolStatus.end_ (Impl.symbolStatus (snd r))))
              (symbolSample (P := platform32) (Some r106k) (Some r106k)
                 (takeSample32 f_0_85 tuned)
                 (synchronised 1025 (framing 9 REQB configured)))
            = Some (true, 978, 1072)) by (vm_compute; reflexivity).
  destruct (symbolSample (P := platform32) (Some r106k) (Some r106k)
              (takeSample32 f_0_85 tuned)
              (synchronised 1025 (framing 9 REQB configured)))
    as [[found i'] |] eqn:E; [| discriminate Hvalues].
  cbn [option_map fst snd] in Hvalues.
  assert (Hfound : found = true) by congruence.
  assert (Hstart : SymbolStatus.start (Impl.symbolStatus i') = 978) by congruence.
  assert (Hend : SymbolStatus.end_ (Impl.symbolStatus i') = 1072) by congruence.
  subst found. clear Hvalues.
  destruct (symbol_clock (P := platform32) r106k r106k r106k _ _ _ _ E)
    as (_ & _ & _ & Hsymbol & _); [vm_compute; reflexivity |].
  destruct (Hsymbol eq_refl) as (Hsync & _ & _ & _ & _ & _ & Hfrom & Hto & Hlength).
  rewrite <- Hfrom, <- Hto in Hlength.
  exists i'. split; [reflexivity |]. split; [exact Hstart |]. split; [exact Hend |].
  split; [| exact Hsync].
  rewrite Hlength, Hstart, Hend. reflexivity.
Defined.
